(** * bibxml-service, [main/views.py]: the citation browse GUI

    A shallow embedding of the view functions of [main/views.py] and of
    the library functions they call ([urllib.parse.quote_plus],
    [urllib.parse.unquote_plus], Django's request, response, message and
    paginator objects, and the constructor of [HttpResponseRedirect] with
    the URL parser behind it), followed by the properties of the views.

    Conventions.
    - A Python [str] is the list of its code points ([pystr]); [bytes] is a
      list of integers below 256.  Identifiers of the program (keyword
      arguments, template and view names) are Rocq strings.
    - A call that may raise returns an [outcome]; a view runs in the monad
      [View], which threads the flash messages stored on the request and
      propagates exceptions. *)

From Stdlib Require Import ZArith Lia.
From stdpp Require Import base numbers list strings pretty gmap.

Set Warnings "-register-all".

Local Open Scope Z_scope.

(** ** Python values *)

Abbreviation pystr := (list Z).
Abbreviation pybytes := (list Z).

(** A literal of the source, given by its ASCII text. *)
Definition lit (s : string) : pystr :=
  (λ a, Z.of_N (Ascii.N_of_ascii a)) <$> String.list_ascii_of_string s.

(** [''.join(parts)] *)
Definition join (parts : list pystr) : pystr := mjoin parts.

(** [bool(s)] for [s] a [str] or [None]. *)
Definition truthy (o : option pystr) : bool :=
  match o with
  | Some (_ :: _) => true
  | _ => false
  end.

(** JSON-like payloads: the body of a citation, the structures handed to
    the structured search. *)
Inductive pyval :=
| PNone
| PStr (s : pystr)
| PInt (n : Z)
| PList (l : list pyval)
| PDict (d : list (string * pyval)).

(** *** Exceptions *)

Inductive exc_class :=
| BaseException
| KeyboardInterrupt
| PyException
| RuntimeError
| ValueError
| KeyError
| IndexError
| UnicodeEncodeError
| TypeError
| Http404
| SuspiciousOperation
| DisallowedRedirect
| RefNotFoundError.

Global Instance exc_class_eq_dec : EqDecision exc_class.
Proof. solve_decision. Defined.

Record exn := mk_exn { exc_type : exc_class; exc_str : pystr }.

Inductive outcome (A : Type) :=
| Return (a : A)
| Raise (e : exn).
Arguments Return {A} a.
Arguments Raise {A} e.

Global Instance outcome_ret : MRet outcome := λ A a, Return a.

Global Instance outcome_bind : MBind outcome := λ A B k o,
  match o with
  | Return a => k a
  | Raise e => Raise e
  end.

(** ** [urllib.parse] *)

Module urllib.

(** *** UTF-8, as [str.encode('utf-8', 'strict')] and
    [bytes.decode('utf-8', 'replace')] *)

Definition is_surrogate (c : Z) : bool := (0xD800 <=? c) && (c <=? 0xDFFF).

Definition utf8_encode_char (c : Z) : option pybytes :=
  if c <? 0x80 then Some [c]
  else if c <? 0x800 then
    Some [Z.lor 0xC0 (Z.shiftr c 6); Z.lor 0x80 (Z.land c 0x3F)]
  else if c <? 0x10000 then
    if is_surrogate c then None
    else Some [Z.lor 0xE0 (Z.shiftr c 12);
               Z.lor 0x80 (Z.land (Z.shiftr c 6) 0x3F);
               Z.lor 0x80 (Z.land c 0x3F)]
  else
    Some [Z.lor 0xF0 (Z.shiftr c 18);
          Z.lor 0x80 (Z.land (Z.shiftr c 12) 0x3F);
          Z.lor 0x80 (Z.land (Z.shiftr c 6) 0x3F);
          Z.lor 0x80 (Z.land c 0x3F)].

(** [None] stands for [UnicodeEncodeError] (a lone surrogate). *)
Fixpoint utf8_encode (s : pystr) : option pybytes :=
  match s with
  | [] => Some []
  | c :: s' =>
      match utf8_encode_char c, utf8_encode s' with
      | Some bs, Some bs' => Some (bs ++ bs')
      | _, _ => None
      end
  end.

(** One digit of ['%04x' % c]. *)
Definition hex_lower (n : Z) : Z :=
  if n <? 10 then 0x30 + n else 0x61 + (n - 10).

(** The number of surrogates that [s] starts with. *)
Fixpoint surrogate_run (s : pystr) : nat :=
  match s with
  | c :: s' => if is_surrogate c then S (surrogate_run s') else 0%nat
  | [] => 0%nat
  end.

(** [str(e)] for the [UnicodeEncodeError] of [str.encode('utf-8')]: the
    error is about the first run of surrogates, whose first character
    has the index [position] when [s] is what follows it in the
    string. *)
Fixpoint encode_error_text (s : pystr) (position : Z) : pystr :=
  match s with
  | [] => []
  | c :: s' =>
      if is_surrogate c then
        match surrogate_run s' with
        | O =>
            lit "'utf-8' codec can't encode character '\u"
              ++ [hex_lower (Z.land (Z.shiftr c 12) 0x0F);
                  hex_lower (Z.land (Z.shiftr c 8) 0x0F);
                  hex_lower (Z.land (Z.shiftr c 4) 0x0F);
                  hex_lower (Z.land c 0x0F)]
              ++ lit "' in position " ++ lit (pretty position)
              ++ lit ": surrogates not allowed"
        | S n =>
            lit "'utf-8' codec can't encode characters in position "
              ++ lit (pretty position) ++ lit "-"
              ++ lit (pretty (position + Z.of_nat (S n)))
              ++ lit ": surrogates not allowed"
        end
      else encode_error_text s' (position + 1)
  end.

Definition encode_error (s : pystr) : exn :=
  mk_exn UnicodeEncodeError (encode_error_text s 0).

Definition in_range (lo hi b : Z) : bool := (lo <=? b) && (b <=? hi).

Definition cont_bits (b : Z) : Z := Z.land b 0x3F.

Definition REPLACEMENT : Z := 0xFFFD.

(** The decoder follows the table of well-formed byte sequences; an
    ill-formed sequence gives one U+FFFD for its maximal well-formed
    prefix and decoding resumes at the offending byte. *)
Fixpoint utf8_decode (bs : pybytes) : pystr :=
  match bs with
  | [] => []
  | b0 :: r0 =>
      if b0 <? 0x80 then b0 :: utf8_decode r0
      else if in_range 0xC2 0xDF b0 then
        match r0 with
        | b1 :: r1 =>
            if in_range 0x80 0xBF b1
            then Z.lor (Z.shiftl (Z.land b0 0x1F) 6) (cont_bits b1)
                   :: utf8_decode r1
            else REPLACEMENT :: utf8_decode r0
        | [] => [REPLACEMENT]
        end
      else if in_range 0xE0 0xEF b0 then
        match r0 with
        | b1 :: r1 =>
            if in_range (if b0 =? 0xE0 then 0xA0 else 0x80)
                        (if b0 =? 0xED then 0x9F else 0xBF) b1
            then
              match r1 with
              | b2 :: r2 =>
                  if in_range 0x80 0xBF b2
                  then Z.lor (Z.shiftl (Z.land b0 0x0F) 12)
                         (Z.lor (Z.shiftl (cont_bits b1) 6) (cont_bits b2))
                         :: utf8_decode r2
                  else REPLACEMENT :: utf8_decode r1
              | [] => [REPLACEMENT]
              end
            else REPLACEMENT :: utf8_decode r0
        | [] => [REPLACEMENT]
        end
      else if in_range 0xF0 0xF4 b0 then
        match r0 with
        | b1 :: r1 =>
            if in_range (if b0 =? 0xF0 then 0x90 else 0x80)
                        (if b0 =? 0xF4 then 0x8F else 0xBF) b1
            then
              match r1 with
              | b2 :: r2 =>
                  if in_range 0x80 0xBF b2
                  then
                    match r2 with
                    | b3 :: r3 =>
                        if in_range 0x80 0xBF b3
                        then Z.lor (Z.shiftl (Z.land b0 0x07) 18)
                               (Z.lor (Z.shiftl (cont_bits b1) 12)
                                  (Z.lor (Z.shiftl (cont_bits b2) 6)
                                     (cont_bits b3)))
                               :: utf8_decode r3
                        else REPLACEMENT :: utf8_decode r2
                    | [] => [REPLACEMENT]
                    end
                  else REPLACEMENT :: utf8_decode r1
              | [] => [REPLACEMENT]
              end
            else REPLACEMENT :: utf8_decode r0
        | [] => [REPLACEMENT]
        end
      else REPLACEMENT :: utf8_decode r0
  end.

(** *** Quoting *)

(** [_ALWAYS_SAFE]: ASCII letters, digits and [_.-~]. *)
Definition always_safe (b : Z) : bool :=
  in_range 0x41 0x5A b || in_range 0x61 0x7A b || in_range 0x30 0x39 b
  || bool_decide (b ∈ [0x5F; 0x2E; 0x2D; 0x7E]).

(** One digit of ['{:02X}'.format(b)]. *)
Definition hex_upper (n : Z) : Z :=
  if n <? 10 then 0x30 + n else 0x41 + (n - 10).

(** [_byte_quoter_factory(safe)(b)] *)
Definition byte_quoter (safe : pybytes) (b : Z) : pystr :=
  if always_safe b || bool_decide (b ∈ safe) then [b]
  else [0x25; hex_upper (Z.shiftr b 4); hex_upper (Z.land b 0x0F)].

Definition quote_from_bytes (bs safe : pybytes) : pystr :=
  join (byte_quoter safe <$> bs).

(** [quote(string, safe)] on a [str]; [safe] is ASCII here. *)
Definition quote (s : pystr) (safe : pybytes) : option pystr :=
  bs ← utf8_encode s; Some (quote_from_bytes bs safe).

(** [str.replace(old, new)] for one-character strings. *)
Definition replace_char (old new : Z) (s : pystr) : pystr :=
  (λ c, if c =? old then new else c) <$> s.

Definition SPACE : Z := 0x20.
Definition PLUS : Z := 0x2B.
Definition PERCENT : Z := 0x25.

Definition quote_plus_opt (s : pystr) : option pystr :=
  if bool_decide (SPACE ∈ s)
  then replace_char SPACE PLUS <$> quote s [SPACE]
  else quote s [].

(** [quote_plus(string)], raising [UnicodeEncodeError] on a lone
    surrogate. *)
Definition quote_plus (s : pystr) : outcome pystr :=
  match quote_plus_opt s with
  | Some q => Return q
  | None => Raise (encode_error s)
  end.

(** *** Unquoting *)

(** The keys of [_hextobyte] are the pairs of digits of either case. *)
Definition hex_value (c : Z) : option Z :=
  if in_range 0x30 0x39 c then Some (c - 0x30)
  else if in_range 0x41 0x46 c then Some (c - 0x41 + 10)
  else if in_range 0x61 0x66 c then Some (c - 0x61 + 10)
  else None.

(** [unquote_to_bytes] on ASCII text: every [%XX] with two hexadecimal
    digits is one byte, any other [%] stays. *)
Fixpoint unquote_to_bytes (s : pystr) : pybytes :=
  match s with
  | [] => []
  | c :: r =>
      if c =? PERCENT then
        match r with
        | h1 :: h2 :: r' =>
            match hex_value h1, hex_value h2 with
            | Some a, Some b => (16 * a + b) :: unquote_to_bytes r'
            | _, _ => PERCENT :: unquote_to_bytes r
            end
        | _ => PERCENT :: unquote_to_bytes r
        end
      else c :: unquote_to_bytes r
  end.

Definition is_ascii (c : Z) : bool := in_range 0 0x7F c.

(** [_generate_unquoted_parts]: the runs of ASCII characters are
    unquoted and decoded, the other characters are kept.  [run] holds
    the current ASCII run, last character first. *)
Fixpoint unquoted_parts (s : pystr) (run : pystr) : pystr :=
  match s with
  | [] => utf8_decode (unquote_to_bytes (rev run))
  | c :: s' =>
      if is_ascii c then unquoted_parts s' (c :: run)
      else utf8_decode (unquote_to_bytes (rev run))
             ++ c :: unquoted_parts s' []
  end.

Definition unquote (s : pystr) : pystr :=
  if bool_decide (PERCENT ∈ s) then unquoted_parts s [] else s.

Definition unquote_plus (s : pystr) : pystr :=
  unquote (replace_char PLUS SPACE s).

(** *** Splitting a URL

    [urlsplit] as the views reach it, through [urlparse], on a [str], with
    the default arguments.  Of the result the scheme and the network
    location are kept; no exception depends on the other components. *)

Definition TAB : Z := 0x09.
Definition LF : Z := 0x0A.
Definition CR : Z := 0x0D.
Definition HASH : Z := 0x23.
Definition SLASH : Z := 0x2F.
Definition COLON : Z := 0x3A.
Definition QUESTION : Z := 0x3F.
Definition AT : Z := 0x40.
Definition LBRACKET : Z := 0x5B.
Definition RBRACKET : Z := 0x5D.

(** [s.find(c)]; [None] is -1. *)
Fixpoint find (c : Z) (s : pystr) : option nat :=
  match s with
  | [] => None
  | x :: s' => if x =? c then Some 0%nat else S <$> find c s'
  end.

(** [s.partition(sep)] for a separator of one character: the text before
    it, whether it was found, the text after it. *)
Definition partition (sep : Z) (s : pystr) : pystr * bool * pystr :=
  match find sep s with
  | Some i => (take i s, true, drop (S i) s)
  | None => (s, false, [])
  end.

(** [s.rpartition(sep)] *)
Definition rpartition (sep : Z) (s : pystr) : pystr * bool * pystr :=
  match find sep (rev s) with
  | Some i => (rev (drop (S i) (rev s)), true, rev (take i (rev s)))
  | None => ([], false, s)
  end.

(** [s.lstrip(chars)] *)
Fixpoint lstrip (chars : Z → bool) (s : pystr) : pystr :=
  match s with
  | c :: s' => if chars c then lstrip chars s' else s
  | [] => []
  end.

(** [_WHATWG_C0_CONTROL_OR_SPACE] *)
Definition c0_control_or_space (c : Z) : bool := in_range 0 0x20 c.

Definition UNSAFE_URL_BYTES_TO_REMOVE : list Z := [TAB; CR; LF].

(** [scheme_chars]: ASCII letters, digits and [+-.]. *)
Definition scheme_char (c : Z) : bool :=
  in_range 0x61 0x7A c || in_range 0x41 0x5A c || in_range 0x30 0x39 c
  || bool_decide (c ∈ [0x2B; 0x2D; 0x2E]).

(** [c.isascii() and c.isalpha()] *)
Definition ascii_alpha (c : Z) : bool :=
  in_range 0x41 0x5A c || in_range 0x61 0x7A c.

(** [str.lower()] on ASCII text. *)
Definition ascii_lower (c : Z) : Z :=
  if in_range 0x41 0x5A c then c + 0x20 else c.

(** The scheme of a URL and what follows its colon: the text before the
    first colon is a scheme when it starts with an ASCII letter and has
    characters of [scheme_chars] only. *)
Definition split_scheme (url : pystr) : pystr * pystr :=
  match find COLON url with
  | Some i =>
      if bool_decide (0 < i)%nat
         && from_option ascii_alpha false (head url)
         && forallb scheme_char (take i url)
      then (ascii_lower <$> take i url, drop (S i) url)
      else ([], url)
  | None => ([], url)
  end.

(** [_splitnetloc(url, 2)[0]]: the text from the third character up to
    the first of [/?#]. *)
Fixpoint up_to_delim (s : pystr) : pystr :=
  match s with
  | [] => []
  | c :: s' =>
      if bool_decide (c ∈ [SLASH; QUESTION; HASH]) then []
      else c :: up_to_delim s'
  end.

Definition splitnetloc (url : pystr) : pystr := up_to_delim (drop 2 url).

Record SplitResult := mk_split { scheme : pystr; netloc : pystr }.

Definition Invalid_IPv6_URL : exn :=
  mk_exn ValueError (lit "Invalid IPv6 URL").

Section urlsplit.

(** [_check_bracketed_host(hostname)] tests a host in brackets with a
    regular expression and the parser of [ipaddress]; it is taken as the
    text of the [ValueError] it raises, [None] when it raises none.
    [unicodedata.normalize('NFKC', s)] reads the tables of the Unicode
    database; it is taken as a function on strings. *)
Context (check_bracketed_host : pystr → option pystr)
        (normalize_NFKC : pystr → pystr).

Definition check_host (hostname : pystr) : outcome unit :=
  match check_bracketed_host hostname with
  | Some text => Raise (mk_exn ValueError text)
  | None => Return tt
  end.

(** [_check_bracketed_netloc(netloc)] *)
Definition check_bracketed_netloc (netloc : pystr) : outcome unit :=
  let hostname_and_port := (rpartition AT netloc).2 in
  let '(before_bracket, have_open_br, bracketed) :=
    partition LBRACKET hostname_and_port in
  if have_open_br then
    if bool_decide (before_bracket ≠ []) then Raise Invalid_IPv6_URL
    else
      let '(hostname, _, port) := partition RBRACKET bracketed in
      if bool_decide (port ≠ []) && negb (bool_decide (head port = Some COLON))
      then Raise Invalid_IPv6_URL
      else check_host hostname
  else
    let '(hostname, _, port) := partition COLON hostname_and_port in
    check_host hostname.

(** [_checknetloc(netloc)] *)
Definition checknetloc (netloc : pystr) : outcome unit :=
  if bool_decide (netloc = []) || forallb is_ascii netloc then Return tt
  else
    let n := filter (λ c, c ∉ [AT; COLON; HASH; QUESTION]) netloc in
    let netloc2 := normalize_NFKC n in
    if bool_decide (n = netloc2) then Return tt
    else if existsb (λ c, bool_decide (c ∈ netloc2))
              [SLASH; QUESTION; HASH; AT; COLON]
    then Raise (mk_exn ValueError
                  (lit "netloc '" ++ netloc
                     ++ lit "' contains invalid characters under NFKC"
                     ++ lit " normalization"))
    else Return tt.

Definition urlsplit (url : pystr) : outcome SplitResult :=
  let url := lstrip c0_control_or_space url in
  let url := filter (λ c, c ∉ UNSAFE_URL_BYTES_TO_REMOVE) url in
  let '(scheme, url) := split_scheme url in
  netloc ←
    (if bool_decide (take 2 url = [SLASH; SLASH]) then
       let netloc := splitnetloc url in
       let open_br := bool_decide (LBRACKET ∈ netloc) in
       let close_br := bool_decide (RBRACKET ∈ netloc) in
       if (open_br && negb close_br) || (close_br && negb open_br)
       then Raise Invalid_IPv6_URL
       else
         (if open_br && close_br then check_bracketed_netloc netloc
          else Return tt);;
         Return netloc
     else Return []);
  checknetloc netloc;;
  Return (mk_split scheme netloc).

(** [urlparse(url)]: [urlsplit] and then the parameters of the path,
    which are not kept. *)
Definition urlparse (url : pystr) : outcome SplitResult := urlsplit url.

End urlsplit.

(** *** Well-formed text *)

(** The code points a [str] can hold. *)
Definition code_point (c : Z) : Prop := 0 ≤ c ≤ 0x10FFFF.

(** The code points that UTF-8 encodes: all but the surrogates. *)
Definition unicode_scalar (c : Z) : Prop :=
  0 ≤ c ≤ 0x10FFFF ∧ ¬ (0xD800 ≤ c ≤ 0xDFFF).

Definition is_byte (b : Z) : Prop := 0 ≤ b < 256.

Definition ascii_text (s : pystr) : Prop :=
  Forall (λ c, is_ascii c = true) s.

(** What [unquote_plus] makes of one byte quoted by [quote_plus], before
    it unquotes. *)
Definition plus_quoted (safe : pybytes) (b : Z) : pystr :=
  replace_char PLUS SPACE (replace_char SPACE PLUS (byte_quoter safe b)).

End urllib.

(** *** The exception hierarchy *)

(** Modelled from the spec: [main/exceptions.py], which declares
    [RefNotFoundError], is not among the sources.  The spec calls it the
    "not found" signal of [get_indexed_ref]; it is taken to be an ordinary
    exception class, a subclass of [Exception], and whether it also derives
    from [RuntimeError] is left open ([rnf_runtime]). *)
Definition mro (rnf_runtime : bool) (c : exc_class) : list exc_class :=
  match c with
  | BaseException => [BaseException]
  | KeyboardInterrupt => [KeyboardInterrupt; BaseException]
  | PyException => [PyException; BaseException]
  | RuntimeError => [RuntimeError; PyException; BaseException]
  | ValueError => [ValueError; PyException; BaseException]
  | KeyError => [KeyError; PyException; BaseException]
  | IndexError => [IndexError; PyException; BaseException]
  | UnicodeEncodeError =>
      [UnicodeEncodeError; ValueError; PyException; BaseException]
  | TypeError => [TypeError; PyException; BaseException]
  | Http404 => [Http404; PyException; BaseException]
  | SuspiciousOperation => [SuspiciousOperation; PyException; BaseException]
  | DisallowedRedirect =>
      [DisallowedRedirect; SuspiciousOperation; PyException; BaseException]
  | RefNotFoundError =>
      RefNotFoundError
        :: (if rnf_runtime then [RuntimeError] else [])
        ++ [PyException; BaseException]
  end.

(** [isinstance(e, c)], the test of an [except c:] clause. *)
Definition isinstance (rnf_runtime : bool) (e : exn) (c : exc_class) : bool :=
  bool_decide (c ∈ mro rnf_runtime (exc_type e)).

(** ** Django *)

(** [request.GET]: the pairs of the query string in order; [get] gives the
    last value of a key, [None] when the key is absent. *)
Abbreviation QueryDict := (list (pystr * pystr)).

Definition QueryDict_get (key : pystr) (q : QueryDict) : option pystr :=
  last (snd <$> filter (λ kv, kv.1 = key) q).

(** [request.headers] is keyed by the lower-cased field name. *)
Record HttpRequest := mk_request {
  GET : QueryDict;
  headers : gmap string pystr;
}.

(** A row of the [RefData] model. *)
Record RefData := mk_ref {
  dataset : pystr;
  ref : pystr;
  body : pyval;
}.

(** [django.core.paginator]: [Paginator(object_list, per_page)] with no
    orphans and an empty first page allowed. *)
Module Paginator.

Definition count (object_list : list RefData) : Z :=
  Z.of_nat (length object_list).

(** [ceil(hits / per_page)] with [hits = max(1, count)]. *)
Definition num_pages (object_list : list RefData) (per_page : Z) : Z :=
  let hits := Z.max 1 (count object_list) in
  (hits + per_page - 1) / per_page.

(** [object_list[bottom:top]] *)
Definition slice (object_list : list RefData) (bottom top : Z)
  : list RefData :=
  take (Z.to_nat (top - bottom)) (drop (Z.to_nat bottom) object_list).

(** The text of the [EmptyPage] that [page(number)] raises, in
    English. *)
Definition empty_page_text (number : Z) : string :=
  if number <? 1 then "That page number is less than 1"
  else "That page contains no results".

(** [page(number).object_list]; [None] is [EmptyPage]. *)
Definition page (object_list : list RefData) (per_page number : Z)
  : option (list RefData) :=
  if number <? 1 then None
  else if num_pages object_list per_page <? number then None
  else
    let bottom := (number - 1) * per_page in
    let top := bottom + per_page in
    let top := if count object_list <=? top
               then count object_list else top in
    Some (slice object_list bottom top).

End Paginator.

(** Values found in a template context. *)
Inductive ctxval :=
| CStr (s : pystr)
| CInt (n : Z)
| CBool (b : bool)
| CStrs (l : list pystr)
| CData (d : pyval)
| CRefs (l : list RefData)
| CPaginator (object_list : list RefData) (per_page : Z)
| CPage (number : Z) (object_list : list RefData)
| CView (view_class : string)
| CNone.

Abbreviation Context := (gmap string ctxval).

(** An argument of a call [dict(...)]: [key=value] or [**mapping]. *)
Inductive dict_arg :=
| Kw (key : string) (value : ctxval)
| StarStar (mapping : Context).

Definition dict_arg_items (a : dict_arg) : list (string * ctxval) :=
  match a with
  | Kw k v => [(k, v)]
  | StarStar m => map_to_list m
  end.

(** [dict(...)]: a keyword given twice is a [TypeError]. *)
Definition py_dict (args : list dict_arg) : outcome Context :=
  let items := args ≫= dict_arg_items in
  if bool_decide (NoDup items.*1) then Return (list_to_map items)
  else Raise (mk_exn TypeError
                (lit "dict() got multiple values for keyword argument")).

(** The responses of the views.  [TemplateResponse] is what [render]
    returns, kept as the template name and the context;
    [RedirectResponse] is an [HttpResponseRedirect] object, kept as its
    [Location] header ([response.url]).

    Modelled from the spec: the URL configuration and
    [bibxml/error_views.py] are not among the sources.  [RedirectToView]
    is the redirect that [redirect(view_name, *args)] issues to the URL of
    a view, kept as the view name and its arguments; [ServerErrorPage] is
    [error_views.server_error(request)], the generic server-error page. *)
Inductive HttpResponse :=
| TemplateResponse (template_name : string) (context : Context)
| HttpResponseNotFound (content : pystr)
| HttpResponseBadRequest (content : pystr)
| RedirectResponse (url : pystr)
| RedirectToView (view_name : string) (args : list pystr)
| ServerErrorPage.

(** [response.status_code] of Django's response classes; the status of
    the server-error page is not part of the model. *)
Definition status_code (r : HttpResponse) : option Z :=
  match r with
  | TemplateResponse _ _ => Some 200
  | HttpResponseNotFound _ => Some 404
  | HttpResponseBadRequest _ => Some 400
  | RedirectResponse _ => Some 302
  | RedirectToView _ _ => Some 302
  | ServerErrorPage => None
  end.

(** [django.utils.encoding.iri_to_uri(iri)] on a [str]: [quote] with the
    reserved characters of a URL as safe characters. *)
Definition iri_to_uri (iri : pystr) : outcome pystr :=
  match urllib.quote iri (lit "/#%[]=:;$&()+,!?*@'~") with
  | Some uri => Return uri
  | None => Raise (urllib.encode_error iri)
  end.

(** [HttpResponseRedirectBase.allowed_schemes] *)
Definition allowed_schemes : list pystr :=
  [lit "http"; lit "https"; lit "ftp"].

(** The test of [HttpResponseRedirectBase.__init__] on the scheme of the
    parsed URL: [parsed.scheme and parsed.scheme not in allowed_schemes]. *)
Definition unsafe_scheme (scheme : pystr) : bool :=
  truthy (Some scheme) && bool_decide (scheme ∉ allowed_schemes).

Definition unsafe_redirect_text (scheme : pystr) : pystr :=
  lit "Unsafe redirect to URL with protocol '" ++ scheme ++ lit "'".

(** [django.contrib.messages] *)
Record Message := mk_message { level : Z; message : pystr }.

Definition ERROR : Z := 40.

(** ** The view monad: flash messages and exceptions *)

Definition View (A : Type) : Type := list Message → outcome A * list Message.

Global Instance view_ret : MRet View := λ A a ms, (Return a, ms).

Global Instance view_bind : MBind View := λ A B k m ms,
  match m ms with
  | (Return a, ms') => k a ms'
  | (Raise e, ms') => (Raise e, ms')
  end.

Definition raise {A} (e : exn) : View A := λ ms, (Raise e, ms).

Definition lift {A} (o : outcome A) : View A := λ ms, (o, ms).

(** [messages.error(request, text)] *)
Definition messages_error (text : pystr) : View unit :=
  λ ms, (Return tt, ms ++ [mk_message ERROR text]).

(** [render(request, template_name, dict(...))] *)
Definition render (template_name : string) (args : list dict_arg)
  : View HttpResponse :=
  context ← lift (py_dict args);
  mret (TemplateResponse template_name context).

(** [request.headers.get('referer', '/')] *)
Definition referer (request : HttpRequest) : pystr :=
  default (lit "/") (headers request !! "referer"%string).

(** The string held by a variable that is known not to be [None]. *)
Definition text (o : option pystr) : pystr :=
  match o with
  | Some s => s
  | None => []
  end.

(** [l[i]] *)
Definition subscript {A} (l : list A) (i : nat) : outcome A :=
  match l !! i with
  | Some x => Return x
  | None => Raise (mk_exn IndexError (lit "list index out of range"))
  end.

(** [str(n)] *)
Definition str_int (n : Z) : pystr := lit (pretty n).

(** [repr(name)] for a name of letters, digits and underscores, as the
    keys of this program are; it is the text of [KeyError(name)]. *)
Definition repr_name (name : string) : pystr :=
  lit "'" ++ lit name ++ lit "'".

(** [[x for x in xs if cond(x)]] *)
Definition comprehension {A} (cond : A → bool) (xs : list A) : list A :=
  xs ≫= λ x, if cond x then [x] else [].

(** ** Settings and collaborators *)

(** The names of [django.conf.settings] that the views read. *)
Record Settings := mk_settings {
  KNOWN_DATASETS : list pystr;
  EXTERNAL_DATASETS : list pystr;
  AUTHORITATIVE_DATASETS : list pystr;
  SNAPSHOT : pystr;
}.

(** The index ([main/indexed.py], [main/models.py]) and the resolver
    ([main/external.py]) behind the views, by their call contracts, and
    the two functions of the Python library that [urlsplit] calls to
    validate the host of a URL. *)
Record Backend := mk_backend {
  (** the rows of [RefData.objects] *)
  RefData_objects : list RefData;
  list_doctypes : list pystr;
  search_refs_relaton_struct : list pyval → list RefData;
  get_indexed_ref : pystr → pystr → outcome pyval;
  get_doi_ref : pystr → outcome pyval;
  list_refs : pystr → list RefData;
  (** whether [RefNotFoundError] derives from [RuntimeError] *)
  rnf_runtime : bool;
  (** [urllib.parse._check_bracketed_host]: the text of its [ValueError] *)
  check_bracketed_host : pystr → option pystr;
  (** [unicodedata.normalize('NFKC', s)] *)
  normalize_NFKC : pystr → pystr;
}.

(** ** [main/views.py] *)

Section views.

Context (settings : Settings) (backend : Backend).

Definition indexed_datasets : list pystr :=
  comprehension
    (λ ds, bool_decide (ds ∉ EXTERNAL_DATASETS settings))
    (KNOWN_DATASETS settings).

Definition shared_context : Context :=
  list_to_map
    [ ("known_datasets"%string, CStrs (KNOWN_DATASETS settings));
      ("indexed_datasets"%string, CStrs indexed_datasets);
      ("external_datasets"%string, CStrs (EXTERNAL_DATASETS settings));
      ("authoritative_datasets"%string,
        CStrs (AUTHORITATIVE_DATASETS settings));
      ("snapshot"%string, CStr (SNAPSHOT settings)) ].

(** [RefData.objects.values_list('dataset', flat=True).distinct()] *)
Definition non_empty_datasets : list pystr :=
  remove_dups (dataset <$> RefData_objects backend).

(** [shared_context['indexed_datasets']] *)
Definition shared_indexed_datasets : outcome (list pystr) :=
  match shared_context !! "indexed_datasets"%string with
  | Some (CStrs l) => Return l
  | Some _ => Raise (mk_exn TypeError (lit "object is not iterable"))
  | None => Raise (mk_exn KeyError (repr_name "indexed_datasets"))
  end.

Definition browsable_datasets : outcome (list pystr) :=
  match shared_indexed_datasets with
  | Return l =>
      Return (comprehension
                (λ ds_id, bool_decide (ds_id ∈ non_empty_datasets)) l)
  | Raise e => Raise e
  end.

(** [urllib.parse.urlparse] with the host validation of the
    installation. *)
Definition urlparse (url : pystr) : outcome urllib.SplitResult :=
  urllib.urlparse (check_bracketed_host backend) (normalize_NFKC backend)
    url.

(** [HttpResponseRedirect(redirect_to)]: the constructor stores the URL
    as the [Location] header, parses it and refuses a scheme other than
    those of [allowed_schemes]. *)
Definition HttpResponseRedirect (redirect_to : pystr)
  : outcome HttpResponse :=
  location ← iri_to_uri redirect_to;
  parsed ← urlparse redirect_to;
  if unsafe_scheme (urllib.scheme parsed)
  then Raise (mk_exn DisallowedRedirect
                (unsafe_redirect_text (urllib.scheme parsed)))
  else Return (RedirectResponse location).

Definition home (request : HttpRequest) : View HttpResponse :=
  let total_indexed_citations :=
    Z.of_nat (length (RefData_objects backend)) in
  browsable ← lift browsable_datasets;
  render "browse/home.html"
    [ StarStar shared_context;
      Kw "total_indexed_citations" (CInt total_indexed_citations);
      Kw "browsable_datasets" (CStrs browsable);
      Kw "doctypes" (CStrs (list_doctypes backend)) ].

(** *** Browsing by document ID *)

(** The two structures handed to [search_refs_relaton_struct]. *)
Definition docid_query (doctype id : pystr) : list pyval :=
  [ PDict [("docid"%string,
             PList [PDict [("type"%string, PStr doctype);
                           ("id"%string, PStr id)]])];
    PDict [("docid"%string,
             PDict [("type"%string, PStr doctype);
                    ("id"%string, PStr id)])] ].

Definition not_found_text (doctype docid : pystr) : pystr :=
  lit "Citation with docid.type " ++ doctype ++ lit " and docid.id "
    ++ docid ++ lit " was not found in indexed sources".

Definition multiple_found_text (doctype docid : pystr) : pystr :=
  lit "Multiple citations with docid.type " ++ doctype
    ++ lit " and docid.id " ++ docid
    ++ lit " were found in indexed sources".

Definition no_reliable_match_text (doctype docid : pystr) (n : nat)
  : pystr :=
  lit "No reliable match for a citation matching doctype " ++ [0x201C]
    ++ doctype ++ [0x201D] ++ lit " and ID " ++ [0x201C] ++ docid
    ++ [0x201D] ++ lit " among indexed datasets ("
    ++ str_int (Z.of_nat n) ++ lit " matches).".

Definition browse_citation_by_docid
    (request : HttpRequest) (doctype docid : option pystr)
  : View HttpResponse :=
  if truthy doctype && truthy docid then
    let doctype := text doctype in
    let docid := text docid in
    let parsed_docid := urllib.unquote_plus docid in
    let citations :=
      search_refs_relaton_struct backend (docid_query doctype parsed_docid) in
    let num_citations := length citations in
    if bool_decide (num_citations = 1%nat) then
      citation ← lift (subscript citations 0);
      render "browse/citation_details.html"
        [ Kw "dataset_id" (CStr (dataset citation));
          Kw "ref" (CStr (ref citation));
          Kw "data" (CData (body citation));
          StarStar shared_context ]
    else if bool_decide (num_citations = 0%nat) then
      mret (HttpResponseNotFound (not_found_text doctype docid))
    else
      mret (HttpResponseNotFound (multiple_found_text doctype docid))
  else
    let doctype := QueryDict_get (lit "doctype") (GET request) in
    let docid := QueryDict_get (lit "docid") (GET request) in
    if negb (truthy doctype) || negb (truthy docid) then
      mret (HttpResponseBadRequest (lit "Missing document type and/or ID"))
    else
      let doctype := text doctype in
      let docid := text docid in
      let citations :=
        search_refs_relaton_struct backend (docid_query doctype docid) in
      if bool_decide (length citations = 1%nat) then
        quoted ← lift (urllib.quote_plus docid);
        mret (RedirectToView "browse_citation_by_docid" [doctype; quoted])
      else
        messages_error
          (no_reliable_match_text doctype docid (length citations));;
        lift (HttpResponseRedirect (referer request)).

(** *** External sources *)

Definition external_dataset (request : HttpRequest) (dataset_id : pystr)
  : View HttpResponse :=
  render "browse/dataset.html"
    [ Kw "dataset_id" (CStr dataset_id); StarStar shared_context ].

Definition browse_external_reference
    (request : HttpRequest) (dataset_id : pystr) (ref : option pystr)
  : View HttpResponse :=
  if truthy ref then
    let ref := text ref in
    let parsed_ref := urllib.unquote_plus ref in
    if bool_decide (dataset_id = lit "doi") then
      match get_doi_ref backend parsed_ref with
      | Raise e =>
          if isinstance (rnf_runtime backend) e PyException
          then mret ServerErrorPage
          else raise e
      | Return data =>
          render "browse/citation_details.html"
            [ Kw "dataset_id" (CStr dataset_id);
              Kw "ref" (CStr ref);
              Kw "data" (CData data);
              StarStar shared_context ]
      end
    else
      mret (HttpResponseBadRequest (lit "Unsupported external dataset ID"))
  else
    let ref := QueryDict_get (lit "ref") (GET request) in
    if negb (truthy ref) then
      mret (HttpResponseBadRequest
              (lit "Missing dataset ID and/or reference"))
    else
      let origin := referer request in
      (if bool_decide (dataset_id ∉ EXTERNAL_DATASETS settings)
       then messages_error (lit "Unknown external dataset " ++ dataset_id)
       else mret tt);;
      returned ←
        (if bool_decide (dataset_id = lit "doi") then
           let ref := QueryDict_get (lit "ref") (GET request) in
           if truthy ref then
             let ref := text ref in
             match get_doi_ref backend ref with
             | Raise exc =>
                 if isinstance (rnf_runtime backend) exc RuntimeError
                 then
                   messages_error
                     (lit "Couldn" ++ [0x2019]
                        ++ lit "t retrieve citation: " ++ exc_str exc);;
                   mret None
                 else raise exc
             | Return _ =>
                 quoted ← lift (urllib.quote_plus ref);
                 mret (Some (RedirectToView "browse_citation"
                               [dataset_id; quoted]))
             end
           else
             messages_error (lit "Missing reference to fetch {}");;
             mret None
         else
           messages_error
             (lit "Unsupported external dataset " ++ dataset_id);;
           mret None);
      match returned with
      | Some response => mret response
      | None => lift (HttpResponseRedirect origin)
      end.

(** *** Browsing by dataset *)

Definition reference_not_found_text (parsed_ref dataset_id : pystr)
  : pystr :=
  lit "Requested reference " ++ [0x201C] ++ parsed_ref ++ [0x201D]
    ++ lit " could not be found in dataset " ++ [0x201C] ++ dataset_id
    ++ [0x201D] ++ lit " (or external source is unavailable)".

(** The body of the outer [try]: it completes with the data ([inr]),
    returns a response from inside ([inl]), or raises. *)
Definition indexed_reference_try (dataset_id parsed_ref : pystr)
  : outcome (HttpResponse + pyval) :=
  if bool_decide (dataset_id = lit "doi") then
    match get_doi_ref backend parsed_ref with
    | Raise e =>
        if isinstance (rnf_runtime backend) e PyException
        then Return (inl ServerErrorPage)
        else Raise e
    | Return data => Return (inr data)
    end
  else
    match get_indexed_ref backend dataset_id parsed_ref with
    | Raise e => Raise e
    | Return data => Return (inr data)
    end.

Definition browse_indexed_reference
    (request : HttpRequest) (dataset_id ref : pystr)
  : View HttpResponse :=
  let parsed_ref := urllib.unquote_plus ref in
  match indexed_reference_try dataset_id parsed_ref with
  | Raise e =>
      if isinstance (rnf_runtime backend) e RefNotFoundError
      then raise (mk_exn Http404
                    (reference_not_found_text parsed_ref dataset_id))
      else raise e
  | Return (inl response) => mret response
  | Return (inr data) =>
      render "browse/citation_details.html"
        [ Kw "dataset_id" (CStr dataset_id);
          Kw "ref" (CStr ref);
          Kw "data" (CData data);
          StarStar shared_context ]
  end.

(** [IndexedDatasetCitationListView], a [ListView] over [RefData];
    [kwargs] is [self.kwargs], the arguments captured from the URL. *)
Section IndexedDatasetCitationListView.

Context (kwargs : gmap string pystr).

Definition paginate_by : Z := 20.

Definition template_name : string := "browse/dataset.html".

(** [self.kwargs[name]] *)
Definition kwarg (name : string) : outcome pystr :=
  match kwargs !! name with
  | Some v => Return v
  | None => Raise (mk_exn KeyError (repr_name name))
  end.

Definition get_queryset : outcome (list RefData) :=
  dataset_id ← kwarg "dataset_id";
  mret (list_refs backend dataset_id).

(** The text of the [Http404] of [paginate_queryset], in English:
    ['Invalid page (%(page_number)s): %(message)s']. *)
Definition invalid_page_text (page_number : Z) : pystr :=
  lit "Invalid page (" ++ str_int page_number ++ lit "): "
    ++ lit (Paginator.empty_page_text page_number).

(** [MultipleObjectMixin.paginate_queryset]: the paginator, the
    requested page, its objects and whether there are other pages;
    [Http404] when there is no such page. *)
Definition paginate_queryset
    (queryset : list RefData) (page_size page_number : Z)
  : outcome (ctxval * ctxval * list RefData * bool) :=
  match Paginator.page queryset page_size page_number with
  | Some objects =>
      let has_other_pages :=
        (1 <? page_number)
        || (page_number <? Paginator.num_pages queryset page_size) in
      Return (CPaginator queryset page_size,
              CPage page_number objects, objects, has_other_pages)
  | None => Raise (mk_exn Http404 (invalid_page_text page_number))
  end.

(** [super().get_context_data()] of a [ListView] whose queryset has
    the model [RefData]. *)
Definition super_get_context_data
    (object_list : list RefData) (page_number : Z) : outcome Context :=
  '(paginator, page, queryset, is_paginated) ←
    (if paginate_by =? 0
     then Return (CNone, CNone, object_list, false)
     else paginate_queryset object_list paginate_by page_number);
  mret (list_to_map
          [ ("paginator"%string, paginator);
            ("page_obj"%string, page);
            ("is_paginated"%string, CBool is_paginated);
            ("object_list"%string, CRefs queryset);
            ("refdata_list"%string, CRefs queryset);
            ("view"%string, CView "IndexedDatasetCitationListView") ]).

Definition get_context_data
    (object_list : list RefData) (page_number : Z) : outcome Context :=
  super_context ← super_get_context_data object_list page_number;
  dataset_id ← kwarg "dataset_id";
  py_dict [ StarStar super_context;
            Kw "dataset_id" (CStr dataset_id);
            StarStar shared_context ].

(** [ListView.get]; [page_number] is the page the request asks for
    (1 when it names none). *)
Definition ListView_get (request : HttpRequest) (page_number : Z)
  : View HttpResponse :=
  object_list ← lift get_queryset;
  context ← lift (get_context_data object_list page_number);
  mret (TemplateResponse template_name context).

End IndexedDatasetCitationListView.

(** [CitationSearchResultListView.get_context_data]:
    [BaseCitationSearchView] ([main/util.py]) is not among the sources;
    [base_context] is what its [get_context_data] returns. *)
Definition CitationSearchResultListView_get_context_data
    (base_context : Context) : outcome Context :=
  py_dict [ StarStar base_context; StarStar shared_context ].

End views.

(** ** Sample data

    A small installation, used to run the views on concrete requests. *)

Module sample.

Definition settings : Settings :=
  mk_settings [lit "rfcs"; lit "misc"; lit "doi"] [lit "doi"]
    [lit "rfcs"] (lit "2022-01").

Definition rfc1 : RefData :=
  mk_ref (lit "rfcs") (lit "RFC0001")
    (PDict [("title"%string, PStr (lit "Host Software"))]).

Definition rfc1_misc : RefData :=
  mk_ref (lit "misc") (lit "reference.RFC.0001")
    (PDict [("title"%string, PStr (lit "Host Software"))]).

(** One match for the ID [RFC 1], two for [RFC1], none otherwise. *)
Definition search (objs : list pyval) : list RefData :=
  match objs with
  | PDict [(_, PList [PDict [(_, PStr _); (_, PStr id)]])] :: _ =>
      if bool_decide (id = lit "RFC 1") then [rfc1]
      else if bool_decide (id = lit "RFC1") then [rfc1; rfc1_misc]
      else []
  | _ => []
  end.

Definition indexed_ref (dataset_id ref : pystr) : outcome pyval :=
  if bool_decide (ref = lit "RFC0001") then Return (body rfc1)
  else Raise (mk_exn RefNotFoundError (lit "no such reference")).

(** The resolver knows one DOI, is out of reach for [10.1000/down] and
    reports any other as not found. *)
Definition doi_ref (ref : pystr) : outcome pyval :=
  if bool_decide (ref = lit "10.1000/182")
  then Return (PDict [("title"%string, PStr (lit "DOI Handbook"))])
  else if bool_decide (ref = lit "10.1000/down")
  then Raise (mk_exn RuntimeError (lit "resolver unavailable"))
  else Raise (mk_exn RefNotFoundError (lit "no such DOI")).

Definition refs (dataset_id : pystr) : list RefData :=
  if bool_decide (dataset_id = lit "rfcs") then replicate 45 rfc1 else [].

(** Of the hosts in brackets, the loopback address alone is valid. *)
Definition bracketed_host (hostname : pystr) : option pystr :=
  if bool_decide (hostname = lit "::1") then None
  else Some (lit "'" ++ hostname
               ++ lit "' does not appear to be an IPv4 or IPv6 address").

(** A normalisation whose table has the one entry U+2100, [a/c]. *)
Definition NFKC (s : pystr) : pystr :=
  s ≫= λ c, if c =? 0x2100 then lit "a/c" else [c].

Definition backend : Backend :=
  mk_backend [rfc1; rfc1_misc] [lit "IETF"; lit "DOI"]
    search indexed_ref doi_ref refs true bracketed_host NFKC.

(** The same installation while the resolver is being interrupted. *)
Definition interrupted_backend : Backend :=
  mk_backend [rfc1; rfc1_misc] [lit "IETF"; lit "DOI"]
    search indexed_ref
    (λ _, Raise (mk_exn KeyboardInterrupt (lit "interrupted")))
    refs true bracketed_host NFKC.

(** An installation whose index is empty and out of reach; the resolver
    is the one of [backend]. *)
Definition unavailable_backend : Backend :=
  mk_backend [] [] (λ _, [])
    (λ _ _, Raise (mk_exn RuntimeError (lit "index unavailable")))
    doi_ref (λ _, []) true bracketed_host NFKC.

(** A request with no query string and no headers. *)
Definition bare_request : HttpRequest := mk_request [] ∅.

(** The search form submitted with a document ID that has no match. *)
Definition docid_form_request : HttpRequest :=
  mk_request [(lit "doctype", lit "IETF"); (lit "docid", lit "RFC 9999")]
    {[ "referer"%string := lit "/search" ]}.

(** The search form submitted with a document ID that has one match. *)
Definition docid_form_request_1 : HttpRequest :=
  mk_request [(lit "doctype", lit "IETF"); (lit "docid", lit "RFC 1")] ∅.

(** The external-reference form submitted with a reference. *)
Definition ref_form_request (ref : pystr) : HttpRequest :=
  mk_request [(lit "ref", ref)] ∅.

(** The same two forms, submitted with a referer header that [origin]
    wrote. *)
Definition docid_form_request_from (origin : pystr) : HttpRequest :=
  mk_request [(lit "doctype", lit "IETF"); (lit "docid", lit "RFC 9999")]
    {[ "referer"%string := origin ]}.

Definition ref_form_request_from (ref origin : pystr) : HttpRequest :=
  mk_request [(lit "ref", ref)] {[ "referer"%string := origin ]}.

End sample.

(** * Properties *)

(** ** [urllib.parse]: quoting and unquoting are inverse *)

Section utf8_facts.
Import urllib.

Lemma lor_low (a x k : Z) :
  0 ≤ k → 0 ≤ x < 2 ^ k → a `mod` 2 ^ k = 0 → Z.lor a x = a + x.
Proof.
  intros Hk Hx Ha. symmetry. apply Z.add_nocarry_lor.
  apply Z.bits_inj'. intros i Hi.
  rewrite Z.land_spec, Z.bits_0.
  destruct (decide (i < k)) as [Hlt|Hge].
  - rewrite <- (Z.mod_pow2_bits_low a k i) by lia.
    rewrite Ha, Z.bits_0. reflexivity.
  - assert (Z.testbit x i = false) as ->; [|by rewrite andb_false_r].
    destruct (decide (x = 0)) as [->|?]; [apply Z.bits_0|].
    apply Z.bits_above_log2; [lia|].
    apply Z.lt_le_trans with k; [|lia].
    apply Z.log2_lt_pow2; lia.
Qed.

Lemma land_3F (c : Z) : Z.land c 0x3F = c `mod` 64.
Proof. change 0x3F with (Z.ones 6). by rewrite Z.land_ones. Qed.
Lemma land_1F (c : Z) : Z.land c 0x1F = c `mod` 32.
Proof. change 0x1F with (Z.ones 5). by rewrite Z.land_ones. Qed.
Lemma land_0F (c : Z) : Z.land c 0x0F = c `mod` 16.
Proof. change 0x0F with (Z.ones 4). by rewrite Z.land_ones. Qed.
Lemma land_07 (c : Z) : Z.land c 0x07 = c `mod` 8.
Proof. change 0x07 with (Z.ones 3). by rewrite Z.land_ones. Qed.

Lemma shiftr_const (c n : Z) : 0 ≤ n → Z.shiftr c n = c `div` 2 ^ n.
Proof. intros. by rewrite Z.shiftr_div_pow2. Qed.
Lemma shiftl_const (c n : Z) : 0 ≤ n → Z.shiftl c n = c * 2 ^ n.
Proof. intros. by rewrite Z.shiftl_mul_pow2. Qed.

Lemma lor_80 x : 0 ≤ x < 64 → Z.lor 0x80 x = 0x80 + x.
Proof. intros. by apply (lor_low _ _ 6). Qed.
Lemma lor_C0 x : 0 ≤ x < 32 → Z.lor 0xC0 x = 0xC0 + x.
Proof. intros. by apply (lor_low _ _ 5). Qed.
Lemma lor_E0 x : 0 ≤ x < 16 → Z.lor 0xE0 x = 0xE0 + x.
Proof. intros. by apply (lor_low _ _ 4). Qed.
Lemma lor_F0 x : 0 ≤ x < 8 → Z.lor 0xF0 x = 0xF0 + x.
Proof. intros. by apply (lor_low _ _ 3). Qed.
Lemma lor_shiftl x y k :
  0 ≤ k → 0 ≤ y < 2 ^ k → Z.lor (Z.shiftl x k) y = x * 2 ^ k + y.
Proof.
  intros. rewrite Z.shiftl_mul_pow2 by done.
  apply (lor_low _ _ k); [done..|]. apply Z.mod_mul. lia.
Qed.

Lemma in_range_true lo hi b : lo ≤ b ≤ hi → in_range lo hi b = true.
Proof. intros. unfold in_range. apply andb_true_iff. lia. Qed.
Lemma in_range_false lo hi b : b < lo ∨ hi < b → in_range lo hi b = false.
Proof. intros. unfold in_range. apply andb_false_iff. lia. Qed.

Lemma utf8_decode_1 b0 r :
  b0 < 0x80 → utf8_decode (b0 :: r) = b0 :: utf8_decode r.
Proof.
  intros. cbn [utf8_decode]. by rewrite (proj2 (Z.ltb_lt _ _)).
Qed.

Lemma utf8_decode_2 b0 b1 r :
  0xC2 ≤ b0 ≤ 0xDF → 0x80 ≤ b1 ≤ 0xBF →
  utf8_decode (b0 :: b1 :: r)
  = Z.lor (Z.shiftl (Z.land b0 0x1F) 6) (cont_bits b1) :: utf8_decode r.
Proof.
  intros. cbn [utf8_decode].
  rewrite (proj2 (Z.ltb_ge _ _)) by lia.
  by rewrite !in_range_true.
Qed.

Lemma utf8_decode_3 b0 b1 b2 r :
  0xE0 ≤ b0 ≤ 0xEF →
  (if b0 =? 0xE0 then 0xA0 else 0x80) ≤ b1
    ≤ (if b0 =? 0xED then 0x9F else 0xBF) →
  0x80 ≤ b2 ≤ 0xBF →
  utf8_decode (b0 :: b1 :: b2 :: r)
  = Z.lor (Z.shiftl (Z.land b0 0x0F) 12)
      (Z.lor (Z.shiftl (cont_bits b1) 6) (cont_bits b2))
      :: utf8_decode r.
Proof.
  intros. cbn [utf8_decode].
  rewrite (proj2 (Z.ltb_ge _ _)) by lia.
  rewrite (in_range_false 0xC2) by lia.
  by rewrite !in_range_true.
Qed.

Lemma utf8_decode_4 b0 b1 b2 b3 r :
  0xF0 ≤ b0 ≤ 0xF4 →
  (if b0 =? 0xF0 then 0x90 else 0x80) ≤ b1
    ≤ (if b0 =? 0xF4 then 0x8F else 0xBF) →
  0x80 ≤ b2 ≤ 0xBF → 0x80 ≤ b3 ≤ 0xBF →
  utf8_decode (b0 :: b1 :: b2 :: b3 :: r)
  = Z.lor (Z.shiftl (Z.land b0 0x07) 18)
      (Z.lor (Z.shiftl (cont_bits b1) 12)
         (Z.lor (Z.shiftl (cont_bits b2) 6) (cont_bits b3)))
      :: utf8_decode r.
Proof.
  intros. cbn [utf8_decode].
  rewrite (proj2 (Z.ltb_ge _ _)) by lia.
  rewrite (in_range_false 0xC2), (in_range_false 0xE0) by lia.
  by rewrite !in_range_true.
Qed.

Lemma mod64_80 x : 0 ≤ x < 64 → (0x80 + x) `mod` 64 = x.
Proof. intros. Z.div_mod_to_equations; lia. Qed.
Lemma mod32_C0 x : 0 ≤ x < 32 → (0xC0 + x) `mod` 32 = x.
Proof. intros. Z.div_mod_to_equations; lia. Qed.
Lemma mod16_E0 x : 0 ≤ x < 16 → (0xE0 + x) `mod` 16 = x.
Proof. intros. Z.div_mod_to_equations; lia. Qed.
Lemma mod8_F0 x : 0 ≤ x < 8 → (0xF0 + x) `mod` 8 = x.
Proof. intros. Z.div_mod_to_equations; lia. Qed.

Lemma shiftr_6 c : Z.shiftr c 6 = c `div` 64.
Proof. by rewrite Z.shiftr_div_pow2. Qed.
Lemma shiftr_12 c : Z.shiftr c 12 = (c `div` 64) `div` 64.
Proof. rewrite Z.shiftr_div_pow2, Z.div_div by lia. done. Qed.
Lemma shiftr_18 c : Z.shiftr c 18 = ((c `div` 64) `div` 64) `div` 64.
Proof. rewrite Z.shiftr_div_pow2, !Z.div_div by lia. done. Qed.

(** [c = 64 * q + d] with [d] a 6-bit digit. *)
Lemma split64 c : ∃ q d, c `div` 64 = q ∧ c `mod` 64 = d
                         ∧ c = 64 * q + d ∧ 0 ≤ d < 64.
Proof.
  exists (c `div` 64), (c `mod` 64). repeat split; try done.
  - apply Z.div_mod. lia.
  - apply Z.mod_pos_bound. lia.
  - apply Z.mod_pos_bound. lia.
Qed.

Ltac split64 c q d :=
  let H1 := fresh in let H2 := fresh in let H3 := fresh in
  destruct (split64 c) as (q & d & H1 & H2 & H3 & ?);
  rewrite ?H1, ?H2; clear H1 H2; subst c.

Lemma utf8_char_roundtrip c rest :
  unicode_scalar c →
  ∃ bs, utf8_encode_char c = Some bs
        ∧ utf8_decode (bs ++ rest) = c :: utf8_decode rest
        ∧ Forall is_byte bs ∧ bs ≠ [].
Proof.
  intros [Hc Hs]. unfold utf8_encode_char, is_surrogate.
  destruct (Z.ltb_spec c 0x80).
  { eexists; split; [done|]. split; [|split; [|done]].
    - cbn [app]. by rewrite utf8_decode_1.
    - repeat constructor; unfold is_byte; lia. }
  destruct (Z.ltb_spec c 0x800).
  { eexists; split; [done|].
    rewrite shiftr_6, land_3F. split64 c q1 d0.
    rewrite lor_C0, lor_80 by lia.
    split; [|split; [|done]].
    - cbn [app]. rewrite utf8_decode_2 by lia.
      unfold cont_bits. rewrite land_1F, land_3F.
      rewrite mod32_C0, mod64_80 by lia.
      rewrite lor_shiftl by lia. f_equal. lia.
    - repeat constructor; unfold is_byte; lia. }
  destruct (Z.ltb_spec c 0x10000).
  { destruct (_ && _) eqn:Hsur.
    { exfalso. apply andb_true_iff in Hsur. lia. }
    clear Hsur.
    eexists; split; [done|].
    rewrite shiftr_12, shiftr_6, !land_3F.
    split64 c q1 d0. split64 q1 q2 d1.
    rewrite lor_E0, !lor_80 by lia.
    split; [|split; [|done]].
    - cbn [app]. rewrite utf8_decode_3;
        [|lia|repeat case_match; lia|lia].
      unfold cont_bits.
      rewrite land_0F, !land_3F, mod16_E0, !mod64_80 by lia.
      rewrite (lor_shiftl _ _ 6) by lia.
      rewrite (lor_shiftl _ _ 12) by lia.
      f_equal; lia.
    - repeat constructor; unfold is_byte; lia. }
  eexists; split; [done|].
  rewrite shiftr_18, shiftr_12, shiftr_6, !land_3F.
  split64 c q1 d0. split64 q1 q2 d1. split64 q2 q3 d2.
  rewrite lor_F0, !lor_80 by lia.
  split; [|split; [|done]].
  - cbn [app]. rewrite utf8_decode_4;
      [|lia|repeat case_match; lia|lia|lia].
    unfold cont_bits.
    rewrite land_07, !land_3F, mod8_F0, !mod64_80 by lia.
    rewrite (lor_shiftl _ _ 6) by lia.
    rewrite (lor_shiftl _ _ 12) by lia.
    rewrite (lor_shiftl _ _ 18) by lia.
    f_equal; lia.
  - repeat constructor; unfold is_byte; lia.
Qed.

Lemma utf8_roundtrip s :
  Forall unicode_scalar s →
  ∃ bs, utf8_encode s = Some bs ∧ utf8_decode bs = s
        ∧ Forall is_byte bs ∧ (s ≠ [] → bs ≠ []).
Proof.
  induction 1 as [|c s Hc _ (bs' & Henc & Hdec & Hbytes & _)].
  { exists []. done. }
  destruct (utf8_char_roundtrip c bs' Hc) as (bs & Hc1 & Hc2 & Hc3 & Hc4).
  exists (bs ++ bs'). cbn [utf8_encode]. rewrite Hc1, Henc.
  split; [done|]. split; [by rewrite Hc2, Hdec|].
  split; [by apply Forall_app|].
  intros _. by destruct bs.
Qed.

(** **** Percent-encoding of one byte *)

Lemma hex_upper_range n :
  0 ≤ n < 16 → 0x30 ≤ hex_upper n ≤ 0x39 ∨ 0x41 ≤ hex_upper n ≤ 0x46.
Proof. intros. unfold hex_upper. case_match; lia. Qed.

Lemma hex_value_upper n : 0 ≤ n < 16 → hex_value (hex_upper n) = Some n.
Proof.
  intros Hn. unfold hex_value, hex_upper.
  destruct (Z.ltb_spec n 10).
  - rewrite in_range_true by lia. f_equal. lia.
  - rewrite (in_range_false 0x30), in_range_true by lia. f_equal. lia.
Qed.

Lemma byte_nibbles b :
  is_byte b →
  0 ≤ Z.shiftr b 4 < 16 ∧ 0 ≤ Z.land b 0x0F < 16
  ∧ 16 * Z.shiftr b 4 + Z.land b 0x0F = b.
Proof.
  unfold is_byte. intros. rewrite land_0F, Z.shiftr_div_pow2 by lia.
  change (2 ^ 4) with 16. Z.div_mod_to_equations; lia.
Qed.

Lemma always_safe_range b : always_safe b = true → 0x2D ≤ b ≤ 0x7E.
Proof.
  unfold always_safe, in_range.
  rewrite !orb_true_iff, !andb_true_iff, bool_decide_eq_true.
  rewrite !elem_of_cons, elem_of_nil. lia.
Qed.

Lemma unquote_to_bytes_plain c r :
  c ≠ PERCENT → unquote_to_bytes (c :: r) = c :: unquote_to_bytes r.
Proof.
  intros. cbn [unquote_to_bytes]. by rewrite (proj2 (Z.eqb_neq _ _)).
Qed.

Lemma unquote_to_bytes_escape a b r :
  0 ≤ a < 16 → 0 ≤ b < 16 →
  unquote_to_bytes (PERCENT :: hex_upper a :: hex_upper b :: r)
  = (16 * a + b) :: unquote_to_bytes r.
Proof.
  intros. cbn [unquote_to_bytes]. rewrite Z.eqb_refl.
  by rewrite !hex_value_upper.
Qed.

Lemma replace_char_cons old new c s :
  replace_char old new (c :: s)
  = (if c =? old then new else c) :: replace_char old new s.
Proof. reflexivity. Qed.

Lemma replace_char_app old new s t :
  replace_char old new (s ++ t)
  = replace_char old new s ++ replace_char old new t.
Proof. apply fmap_app. Qed.

Lemma replace_char_absent old new s :
  old ∉ s → replace_char old new s = s.
Proof.
  induction s as [|c s IH]; [done|].
  rewrite not_elem_of_cons. intros [? ?].
  rewrite replace_char_cons, IH by done.
  by rewrite (proj2 (Z.eqb_neq c old)).
Qed.

Lemma plus_quoted_byte safe b rest :
  (∀ x, x ∈ safe → x = SPACE) → is_byte b →
  unquote_to_bytes (plus_quoted safe b ++ rest) = b :: unquote_to_bytes rest
  ∧ ascii_text (plus_quoted safe b) ∧ plus_quoted safe b ≠ [].
Proof.
  intros Hsafe Hb. unfold plus_quoted, byte_quoter.
  destruct (always_safe b || bool_decide (b ∈ safe)) eqn:Hq.
  - assert (0x20 ≤ b ≤ 0x7E ∧ b ≠ PERCENT ∧ b ≠ PLUS) as (? & ? & ?).
    { apply orb_true_iff in Hq as [Hq|Hq].
      - apply always_safe_range in Hq. unfold PERCENT, PLUS. lia.
      - apply bool_decide_eq_true, Hsafe in Hq. by subst b. }
    rewrite !replace_char_cons. cbn [fmap list_fmap replace_char app].
    destruct (Z.eqb_spec b SPACE) as [->|Hsp].
    + rewrite Z.eqb_refl. cbn [app].
      rewrite unquote_to_bytes_plain by done.
      repeat split; [|done]. by repeat constructor.
    + rewrite (proj2 (Z.eqb_neq b PLUS)) by done. cbn [app].
      rewrite unquote_to_bytes_plain by done.
      repeat split; [|done]. repeat constructor.
      unfold is_ascii. apply in_range_true. lia.
  - destruct (byte_nibbles b Hb) as (Hhi & Hlo & Hsum).
    pose proof (hex_upper_range _ Hhi). pose proof (hex_upper_range _ Hlo).
    rewrite (replace_char_absent SPACE), (replace_char_absent PLUS).
    + cbn [app]. fold PERCENT.
      rewrite unquote_to_bytes_escape, Hsum by done.
      repeat split; [|done].
      repeat constructor; unfold is_ascii; apply in_range_true; lia.
    + rewrite !not_elem_of_cons, elem_of_nil. unfold PLUS. lia.
    + rewrite !not_elem_of_cons, elem_of_nil. unfold SPACE. lia.
Qed.

Lemma byte_quoter_no_space b : is_byte b → SPACE ∉ byte_quoter [] b.
Proof.
  intros Hb. unfold byte_quoter.
  destruct (always_safe b || bool_decide (b ∈ [])) eqn:Hq.
  - apply orb_true_iff in Hq as [Hq|Hq].
    + apply always_safe_range in Hq.
      rewrite not_elem_of_cons, elem_of_nil. unfold SPACE. lia.
    + apply bool_decide_eq_true in Hq. by apply elem_of_nil in Hq.
  - destruct (byte_nibbles b Hb) as (Hhi & Hlo & _).
    pose proof (hex_upper_range _ Hhi). pose proof (hex_upper_range _ Hlo).
    rewrite !not_elem_of_cons, elem_of_nil. unfold SPACE. lia.
Qed.

Lemma quote_from_bytes_cons b bs safe :
  quote_from_bytes (b :: bs) safe
  = byte_quoter safe b ++ quote_from_bytes bs safe.
Proof. reflexivity. Qed.

Lemma quote_from_bytes_no_space bs :
  Forall is_byte bs → SPACE ∉ quote_from_bytes bs [].
Proof.
  induction 1 as [|b bs Hb _ IH]; [apply not_elem_of_nil|].
  rewrite quote_from_bytes_cons, elem_of_app.
  intros [?|?]; [by eapply byte_quoter_no_space|done].
Qed.

Lemma plus_quoted_bytes safe bs :
  (∀ x, x ∈ safe → x = SPACE) → Forall is_byte bs →
  let q := replace_char PLUS SPACE
             (replace_char SPACE PLUS (quote_from_bytes bs safe)) in
  unquote_to_bytes q = bs ∧ ascii_text q ∧ (bs ≠ [] → q ≠ []).
Proof.
  intros Hsafe. induction 1 as [|b bs Hb _ IH].
  { split; [done|]. split; [constructor|done]. }
  cbn zeta in *. destruct IH as (IH1 & IH2 & _). rewrite quote_from_bytes_cons, !replace_char_app.
  fold (plus_quoted safe b).
  destruct (plus_quoted_byte safe b
              (replace_char PLUS SPACE
                 (replace_char SPACE PLUS (quote_from_bytes bs safe)))
              Hsafe Hb) as (-> & ? & ?).
  split; [by rewrite IH1|]. split; [by apply Forall_app|].
  intros _. by destruct (plus_quoted safe b).
Qed.

(** **** Unquoting ASCII text *)

Lemma unquoted_parts_ascii s run :
  ascii_text s →
  unquoted_parts s run = utf8_decode (unquote_to_bytes (rev run ++ s)).
Proof.
  intros Hs. revert run.
  induction Hs as [|c s Hc _ IH]; intros run.
  { by rewrite app_nil_r. }
  cbn [unquoted_parts]. rewrite Hc, IH. cbn [rev].
  by rewrite <- app_assoc.
Qed.

Lemma unquote_to_bytes_no_percent s :
  PERCENT ∉ s → unquote_to_bytes s = s.
Proof.
  induction s as [|c s IH]; [done|].
  rewrite not_elem_of_cons. intros [? ?].
  by rewrite unquote_to_bytes_plain, IH.
Qed.

Lemma utf8_decode_ascii s : ascii_text s → utf8_decode s = s.
Proof.
  induction 1 as [|c s Hc _ IH]; [done|].
  unfold is_ascii, in_range in Hc. apply andb_true_iff in Hc.
  rewrite utf8_decode_1, IH by lia. done.
Qed.

Lemma unquote_ascii s :
  ascii_text s → unquote s = utf8_decode (unquote_to_bytes s).
Proof.
  intros Hs. unfold unquote. case_bool_decide as Hp.
  - by rewrite unquoted_parts_ascii.
  - by rewrite unquote_to_bytes_no_percent, utf8_decode_ascii.
Qed.

Lemma unquote_plus_quote_plus s :
  Forall unicode_scalar s →
  ∃ q, quote_plus s = Return q ∧ unquote_plus q = s ∧ (s ≠ [] → q ≠ []).
Proof.
  intros Hs. destruct (utf8_roundtrip s Hs) as (bs & Henc & Hdec & Hbs & Hne).
  unfold quote_plus, quote_plus_opt, quote. rewrite Henc. cbn [mbind option_bind fmap option_fmap option_map].
  assert (∀ safe, (∀ x, x ∈ safe → x = SPACE) →
            unquote_plus (replace_char SPACE PLUS (quote_from_bytes bs safe)) = s
            ∧ (s ≠ [] → replace_char SPACE PLUS (quote_from_bytes bs safe) ≠ []))
    as Hmain.
  { intros safe Hsafe.
    destruct (plus_quoted_bytes safe bs Hsafe Hbs) as (Hu & Ha & Hq).
    unfold unquote_plus. rewrite unquote_ascii, Hu by done.
    split; [done|]. intros Hs' Hnil. apply Hq; [by apply Hne|].
    by rewrite Hnil. }
  case_bool_decide.
  - eexists; split; [done|]. apply Hmain.
    intros x. rewrite elem_of_cons, elem_of_nil. by intros [?|[]].
  - eexists; split; [done|].
    rewrite <- (replace_char_absent SPACE PLUS (quote_from_bytes bs []))
      by (by apply quote_from_bytes_no_space).
    apply Hmain. intros x. by rewrite elem_of_nil.
Qed.
End utf8_facts.

Example quote_plus_example :
  urllib.quote_plus (lit "a b/c+d~" ++ [0xE9; 0x20AC; 0x1F600])
  = Return (lit "a+b%2Fc%2Bd~%C3%A9%E2%82%AC%F0%9F%98%80").
Proof. vm_compute. reflexivity. Qed.

Example quote_plus_surrogate :
  urllib.quote_plus [0x61; 0xD800]
  = Raise (mk_exn UnicodeEncodeError
             (lit "'utf-8' codec can't encode character '\ud800'"
                ++ lit " in position 1: surrogates not allowed")).
Proof. vm_compute. reflexivity. Qed.

Example unquote_plus_example :
  urllib.unquote_plus (lit "a+b%2fc%2Bd%C3%A9%E2%82%AC%zz%" ++ [0xE9])
  = lit "a b/c+d" ++ [0xE9; 0x20AC] ++ lit "%zz%" ++ [0xE9].
Proof. vm_compute. reflexivity. Qed.

Example unquote_plus_ill_formed :
  urllib.unquote_plus (lit "%E2%82x%FF")
  = [urllib.REPLACEMENT; 0x78; urllib.REPLACEMENT]
  ∧ urllib.unquote_plus (lit "%f0%90A") = urllib.REPLACEMENT :: lit "A"
  ∧ urllib.unquote_plus (lit "%ed%a0%80") = replicate 3 urllib.REPLACEMENT
  ∧ urllib.unquote_plus (lit "%e1%80%e1%80%80")
    = [urllib.REPLACEMENT; 0x1000]
  ∧ urllib.unquote_plus (lit "%4%41%%41") = lit "%4A%A".
Proof. vm_compute. repeat split. Qed.

(** ** The views *)

Section view_facts.

Context (settings : Settings) (backend : Backend).

Lemma bind_lift_Return {A B} (a : A) (k : A → View B) ms :
  (lift (Return a) ≫= k) ms = k a ms.
Proof. reflexivity. Qed.

Lemma bind_lift_Raise {A B} (e : exn) (k : A → View B) ms :
  (lift (Raise e) ≫= k) ms = (Raise e, ms).
Proof. reflexivity. Qed.

Lemma bind_messages_error {B} text (k : unit → View B) ms :
  (messages_error text ≫= k) ms = k tt (ms ++ [mk_message ERROR text]).
Proof. reflexivity. Qed.

Lemma bind_mret {A B} (a : A) (k : A → View B) ms :
  (mret a ≫= k) ms = k a ms.
Proof. reflexivity. Qed.

Lemma subscript_head {A} (x : A) l : subscript (x :: l) 0 = Return x.
Proof. reflexivity. Qed.

Lemma truthy_Some s : s ≠ [] → truthy (Some s) = true.
Proof. by destruct s. Qed.

Lemma truthy_text o : truthy o = true → o = Some (text o) ∧ text o ≠ [].
Proof. by destruct o as [[|]|]. Qed.

Lemma isinstance_RefNotFoundError rt e :
  isinstance rt e RefNotFoundError = true ↔ exc_type e = RefNotFoundError.
Proof. destruct e as [[] ?], rt; vm_compute; split; congruence. Qed.

Lemma RefNotFoundError_is_Exception rt e :
  isinstance rt e RefNotFoundError = true → isinstance rt e PyException = true.
Proof. destruct e as [[] ?], rt; vm_compute; congruence. Qed.

Ltac dict_no_dup :=
  unfold py_dict;
  match goal with
  | |- context [bool_decide (NoDup ?l)] =>
      replace (bool_decide (NoDup l)) with true by (vm_compute; reflexivity)
  end.

Lemma py_dict_details a b c :
  py_dict [ Kw "dataset_id" a; Kw "ref" b; Kw "data" c;
            StarStar (shared_context settings) ]
  = Return (<["dataset_id"%string := a]>
              (<["ref"%string := b]>
                 (<["data"%string := c]> (shared_context settings)))).
Proof.
  dict_no_dup. f_equal.
Qed.

Lemma details_context_lookup a b c :
  let context := <["dataset_id"%string := a]>
              (<["ref"%string := b]>
                 (<["data"%string := c]> (shared_context settings))) in
  context !! "dataset_id"%string = Some a
  ∧ context !! "ref"%string = Some b
  ∧ context !! "data"%string = Some c
  ∧ shared_context settings ⊆ context.
Proof.
  cbn zeta. split; [|split; [|split]].
  - by simplify_map_eq.
  - by simplify_map_eq.
  - by simplify_map_eq.
  - do 3 (etrans; [|apply insert_subseteq; by vm_compute]). reflexivity.
Qed.

Lemma render_details a b c msgs :
  ∃ context,
    render "browse/citation_details.html"
      [ Kw "dataset_id" a; Kw "ref" b; Kw "data" c;
        StarStar (shared_context settings) ] msgs
    = (Return (TemplateResponse "browse/citation_details.html" context), msgs)
    ∧ context !! "dataset_id"%string = Some a
    ∧ context !! "ref"%string = Some b
    ∧ context !! "data"%string = Some c
    ∧ shared_context settings ⊆ context.
Proof.
  eexists. split; [|apply details_context_lookup].
  unfold render. by rewrite py_dict_details.
Qed.

Lemma browse_citation_by_docid_unique
    (request : HttpRequest) (doctype docid : pystr) citation msgs :
  doctype ≠ [] → docid ≠ [] →
  search_refs_relaton_struct backend
    (docid_query doctype (urllib.unquote_plus docid)) = [citation] →
  ∃ context,
    browse_citation_by_docid settings backend request
      (Some doctype) (Some docid) msgs
    = (Return (TemplateResponse "browse/citation_details.html" context),
       msgs)
    ∧ context !! "dataset_id"%string = Some (CStr (dataset citation))
    ∧ context !! "ref"%string = Some (CStr (ref citation))
    ∧ context !! "data"%string = Some (CData (body citation)).
Proof.
  intros Hdoctype Hdocid Hc. unfold browse_citation_by_docid.
  rewrite !truthy_Some by assumption. cbn [andb text].
  rewrite Hc. cbn [length].
  rewrite bool_decide_eq_true_2 by reflexivity.
  rewrite subscript_head, bind_lift_Return.
  destruct (render_details (CStr (dataset citation)) (CStr (ref citation))
              (CData (body citation)) msgs) as (context & Hr & ? & ? & ? & _).
  exists context. rewrite Hr. repeat split; assumption.
Qed.

(** C1. A request to [browse_citation_by_docid] with a document type and a
    document ID in the URL path runs the structured search on the unquoted
    ID.  One match gives the citation-details page, whose context carries
    the dataset, the reference and the body of that citation; no match, or
    more than one, gives an error response and no details page. *)
Theorem browse_citation_by_docid_path
    (request : HttpRequest) (doctype docid : pystr) msgs :
  doctype ≠ [] → docid ≠ [] →
  let citations :=
    search_refs_relaton_struct backend
      (docid_query doctype (urllib.unquote_plus docid)) in
  let response :=
    browse_citation_by_docid settings backend request
      (Some doctype) (Some docid) msgs in
  (∀ citation, citations = [citation] →
     ∃ context,
       response
       = (Return (TemplateResponse "browse/citation_details.html" context),
          msgs)
       ∧ context !! "dataset_id"%string = Some (CStr (dataset citation))
       ∧ context !! "ref"%string = Some (CStr (ref citation))
       ∧ context !! "data"%string = Some (CData (body citation)))
  ∧ (length citations ≠ 1%nat →
     ∃ text, response = (Return (HttpResponseNotFound text), msgs)
             ∧ status_code (HttpResponseNotFound text) = Some 404).
Proof.
  intros Hdoctype Hdocid citations response. subst citations response.
  split.
  - intros citation Hc. by apply browse_citation_by_docid_unique.
  - intros Hlen. unfold browse_citation_by_docid.
    rewrite !truthy_Some by assumption. cbn [andb text].
    rewrite bool_decide_eq_false_2 by assumption.
    case_bool_decide; eexists; split; reflexivity.
Qed.

(** C5. The form fallback of [browse_citation_by_docid] answers 400 when
    the [doctype] or the [docid] parameter of the query string is missing
    or empty, and the form fallback of [browse_external_reference] answers
    400 when the [ref] parameter is missing or empty. *)
Theorem missing_parameter_bad_request
    (request : HttpRequest) (doctype docid ref : option pystr)
    (dataset_id : pystr) msgs :
  (truthy doctype && truthy docid = false →
   truthy (QueryDict_get (lit "doctype") (GET request)) = false
   ∨ truthy (QueryDict_get (lit "docid") (GET request)) = false →
   ∃ text,
     browse_citation_by_docid settings backend request doctype docid msgs
     = (Return (HttpResponseBadRequest text), msgs)
     ∧ status_code (HttpResponseBadRequest text) = Some 400)
  ∧ (truthy ref = false →
     truthy (QueryDict_get (lit "ref") (GET request)) = false →
     ∃ text,
       browse_external_reference settings backend request dataset_id ref msgs
       = (Return (HttpResponseBadRequest text), msgs)
       ∧ status_code (HttpResponseBadRequest text) = Some 400).
Proof.
  split.
  - intros Hpath Hget. unfold browse_citation_by_docid. rewrite Hpath.
    assert (negb (truthy (QueryDict_get (lit "doctype") (GET request)))
            || negb (truthy (QueryDict_get (lit "docid") (GET request)))
            = true) as ->.
    { destruct Hget as [-> | ->]; [reflexivity|apply orb_true_r]. }
    eexists. split; reflexivity.
  - intros Hpath Hget. unfold browse_external_reference.
    rewrite Hpath, Hget. eexists. split; reflexivity.
Qed.

Lemma indexed_reference_try_indexed dataset_id parsed_ref :
  dataset_id ≠ lit "doi" →
  indexed_reference_try backend dataset_id parsed_ref
  = match get_indexed_ref backend dataset_id parsed_ref with
    | Raise e => Raise e
    | Return data => Return (inr data)
    end.
Proof.
  intros. unfold indexed_reference_try.
  by rewrite bool_decide_eq_false_2.
Qed.

Lemma indexed_reference_try_doi parsed_ref :
  indexed_reference_try backend (lit "doi") parsed_ref
  = match get_doi_ref backend parsed_ref with
    | Raise e =>
        if isinstance (rnf_runtime backend) e PyException
        then Return (inl ServerErrorPage)
        else Raise e
    | Return data => Return (inr data)
    end.
Proof.
  unfold indexed_reference_try. by rewrite bool_decide_eq_true_2.
Qed.

(** C6. For a dataset other than [doi], [browse_indexed_reference] renders
    the citation-details page with the document that [get_indexed_ref]
    returns for the unquoted reference, and raises [Http404] when
    [get_indexed_ref] signals [RefNotFoundError]. *)
Theorem browse_indexed_reference_indexed
    (request : HttpRequest) (dataset_id ref : pystr) msgs :
  dataset_id ≠ lit "doi" →
  let found :=
    get_indexed_ref backend dataset_id (urllib.unquote_plus ref) in
  let response :=
    browse_indexed_reference settings backend request dataset_id ref msgs in
  (∀ data, found = Return data →
     ∃ context,
       response
       = (Return (TemplateResponse "browse/citation_details.html" context),
          msgs)
       ∧ context !! "dataset_id"%string = Some (CStr dataset_id)
       ∧ context !! "ref"%string = Some (CStr ref)
       ∧ context !! "data"%string = Some (CData data))
  ∧ (∀ e, found = Raise e → exc_type e = RefNotFoundError →
       ∃ text, response = (Raise (mk_exn Http404 text), msgs)).
Proof.
  intros Hds found response. subst found response.
  unfold browse_indexed_reference.
  rewrite indexed_reference_try_indexed by assumption. split.
  - intros data ->.
    destruct (render_details (CStr dataset_id) (CStr ref) (CData data) msgs)
      as (context & Hr & ? & ? & ? & _).
    exists context. rewrite Hr. repeat split; assumption.
  - intros e -> He.
    rewrite (proj2 (isinstance_RefNotFoundError _ e) He).
    eexists. reflexivity.
Qed.

(** C8. With the dataset [doi], the handler of [RefNotFoundError] in
    [browse_indexed_reference] is never entered: whatever [get_doi_ref]
    raises, [RefNotFoundError] included, is caught by the inner handler
    and answered with the server-error page, and the view never raises
    [Http404]. *)
Theorem browse_indexed_reference_doi_never_404
    (request : HttpRequest) (ref : pystr) msgs :
  let parsed_ref := urllib.unquote_plus ref in
  let response :=
    browse_indexed_reference settings backend request (lit "doi") ref msgs in
  (∀ e, indexed_reference_try backend (lit "doi") parsed_ref = Raise e →
        isinstance (rnf_runtime backend) e RefNotFoundError = false)
  ∧ (∀ e, get_doi_ref backend parsed_ref = Raise e →
          isinstance (rnf_runtime backend) e PyException = true →
          response = (Return ServerErrorPage, msgs))
  ∧ (∀ e, get_doi_ref backend parsed_ref = Raise e →
          exc_type e = RefNotFoundError →
          response = (Return ServerErrorPage, msgs))
  ∧ (∀ e msgs', response = (Raise e, msgs') → exc_type e ≠ Http404).
Proof.
  intros parsed_ref response. subst parsed_ref response.
  unfold browse_indexed_reference. rewrite indexed_reference_try_doi.
  assert (∀ e, isinstance (rnf_runtime backend) e PyException = false →
               isinstance (rnf_runtime backend) e RefNotFoundError = false)
    as Hnot.
  { intros e He.
    destruct (isinstance _ e RefNotFoundError) eqn:Hrnf; [|reflexivity].
    apply RefNotFoundError_is_Exception in Hrnf. congruence. }
  repeat split.
  - intros e. destruct (get_doi_ref backend _) as [data|e']; [discriminate|].
    destruct (isinstance _ e' PyException) eqn:He'; [discriminate|].
    intros [= <-]. by apply Hnot.
  - intros e -> He. by rewrite He.
  - intros e -> He.
    apply isinstance_RefNotFoundError with (rt := rnf_runtime backend) in He.
    by rewrite (RefNotFoundError_is_Exception _ _ He).
  - intros e msgs'. destruct (get_doi_ref backend _) as [data|e'].
    + destruct (render_details (CStr (lit "doi")) (CStr ref) (CData data)
                  msgs) as (context & Hr & _).
      rewrite Hr. discriminate.
    + destruct (isinstance _ e' PyException) eqn:He'; [discriminate|].
      rewrite (Hnot _ He'). intros [= <- <-] Hc.
      destruct e' as [[] ?]; try discriminate Hc.
      destruct (rnf_runtime backend); vm_compute in He'; discriminate.
Qed.

Lemma referer_default request :
  headers request !! "referer"%string = None → referer request = lit "/".
Proof. unfold referer. by intros ->. Qed.

Lemma referer_given request origin :
  headers request !! "referer"%string = Some origin →
  referer request = origin.
Proof. unfold referer. by intros ->. Qed.

(** The flash message of the form fallback of [browse_external_reference]
    for a dataset that the settings do not list as external. *)
Lemma unknown_dataset_message dataset_id {B} (k : unit → View B) msgs :
  ((if bool_decide (dataset_id ∉ EXTERNAL_DATASETS settings)
    then messages_error (lit "Unknown external dataset " ++ dataset_id)
    else mret tt) ≫= k) msgs
  = k tt (msgs ++ if bool_decide (dataset_id ∉ EXTERNAL_DATASETS settings)
                  then [mk_message ERROR
                          (lit "Unknown external dataset " ++ dataset_id)]
                  else []).
Proof.
  case_bool_decide.
  - apply bind_messages_error.
  - by rewrite bind_mret, app_nil_r.
Qed.

(** *** The redirect to the referring page *)

Lemma unsafe_scheme_false scheme :
  scheme = [] ∨ scheme ∈ allowed_schemes → unsafe_scheme scheme = false.
Proof.
  unfold unsafe_scheme. intros [->|Hin]; [reflexivity|].
  rewrite bool_decide_eq_false_2 by (intros Hnot; by apply Hnot).
  apply andb_false_r.
Qed.

Lemma unsafe_scheme_true scheme :
  scheme ≠ [] → scheme ∉ allowed_schemes → unsafe_scheme scheme = true.
Proof.
  unfold unsafe_scheme. intros Hne Hnot.
  rewrite truthy_Some, bool_decide_eq_true_2 by assumption. reflexivity.
Qed.

(** A response that [HttpResponseRedirect] returns is a redirect to the
    URL it was given, written as a URI. *)
Lemma HttpResponseRedirect_Return redirect_to response :
  HttpResponseRedirect backend redirect_to = Return response →
  ∃ location,
    iri_to_uri redirect_to = Return location
    ∧ response = RedirectResponse location.
Proof.
  unfold HttpResponseRedirect.
  destruct (iri_to_uri redirect_to) as [location|e]; [|discriminate].
  cbn [mbind outcome_bind].
  destruct (urlparse backend redirect_to) as [parsed|e]; [|discriminate].
  cbn [mbind outcome_bind].
  destruct (unsafe_scheme (urllib.scheme parsed)); [discriminate|].
  intros [= <-]. by exists location.
Qed.

Lemma check_host_Raise host e :
  urllib.check_host (check_bracketed_host backend) host = Raise e →
  exc_type e = ValueError.
Proof.
  unfold urllib.check_host.
  destruct (check_bracketed_host backend host); [|discriminate].
  by intros [= <-].
Qed.

Lemma checknetloc_Raise netloc e :
  urllib.checknetloc (normalize_NFKC backend) netloc = Raise e →
  exc_type e = ValueError.
Proof.
  unfold urllib.checknetloc.
  destruct (_ || _); [discriminate|].
  case_bool_decide; [discriminate|].
  destruct (existsb _ _); [|discriminate].
  by intros [= <-].
Qed.

Lemma check_bracketed_netloc_Raise netloc e :
  urllib.check_bracketed_netloc (check_bracketed_host backend) netloc
  = Raise e →
  exc_type e = ValueError.
Proof.
  unfold urllib.check_bracketed_netloc.
  destruct (urllib.partition urllib.LBRACKET _) as [[before open] inside].
  destruct (urllib.partition urllib.RBRACKET _) as [[host ?] port].
  destruct (urllib.partition urllib.COLON _) as [[host' ?] port'].
  destruct open; [|apply check_host_Raise].
  case_bool_decide; [by intros [= <-]|].
  destruct (_ && _); [by intros [= <-]|apply check_host_Raise].
Qed.

(** [urlparse] raises nothing but [ValueError]. *)
Lemma urlparse_Raise url e :
  urlparse backend url = Raise e → exc_type e = ValueError.
Proof.
  unfold urlparse, urllib.urlparse, urllib.urlsplit.
  destruct (urllib.split_scheme _) as [scheme rest].
  match goal with
  | |- context [mbind _ ?stage] =>
      assert (∀ e', stage = Raise e' → exc_type e' = ValueError) as Hstage;
      [|destruct stage as [netloc|e']]
  end.
  - intros e'. case_bool_decide; [|discriminate].
    destruct (_ || _); [by intros [= <-]|].
    destruct (_ && _); [|discriminate].
    destruct (urllib.check_bracketed_netloc _ _) as [[]|e''] eqn:Hb;
      [discriminate|].
    cbn [mbind outcome_bind]. intros [= <-].
    by eapply check_bracketed_netloc_Raise.
  - cbn [mbind outcome_bind].
    destruct (urllib.checknetloc _ netloc) as [[]|e'] eqn:Hc; [discriminate|].
    cbn [mbind outcome_bind]. intros [= <-].
    by eapply checknetloc_Raise.
  - cbn [mbind outcome_bind]. intros [= <-]. by apply Hstage.
Qed.

(** What [HttpResponseRedirect] raises. *)
Lemma HttpResponseRedirect_Raise redirect_to e :
  HttpResponseRedirect backend redirect_to = Raise e →
  exc_type e ∈ [UnicodeEncodeError; ValueError; DisallowedRedirect].
Proof.
  unfold HttpResponseRedirect, iri_to_uri.
  destruct (urllib.quote redirect_to _) as [location|].
  - cbn [mbind outcome_bind].
    destruct (urlparse backend redirect_to) as [parsed|e'] eqn:Hp.
    + cbn [mbind outcome_bind].
      destruct (unsafe_scheme (urllib.scheme parsed)); [|discriminate].
      intros [= <-]. cbn [exc_type]. repeat constructor.
    + cbn [mbind outcome_bind]. intros [= <-].
      rewrite (urlparse_Raise _ _ Hp). repeat constructor.
  - cbn [mbind outcome_bind]. intros [= <-]. cbn [exc_type].
    repeat constructor.
Qed.

(** The URL [/], the referring page of a request without the header, is
    always accepted. *)
Lemma HttpResponseRedirect_root :
  HttpResponseRedirect backend (lit "/")
  = Return (RedirectResponse (lit "/")).
Proof. vm_compute. reflexivity. Qed.

(** The end of the two form fallbacks,
    [HttpResponseRedirect(request.headers.get('referer', '/'))], with the
    flash messages [stored] by then. *)
Lemma referer_redirect_outcomes
    (request : HttpRequest) (stored : list Message) :
  let result := (HttpResponseRedirect backend (referer request), stored) in
  (headers request !! "referer"%string = None →
   result = (Return (RedirectResponse (lit "/")), stored))
  ∧ (∀ location parsed,
       iri_to_uri (referer request) = Return location →
       urlparse backend (referer request) = Return parsed →
       (urllib.scheme parsed = [] ∨ urllib.scheme parsed ∈ allowed_schemes →
        result = (Return (RedirectResponse location), stored)
        ∧ status_code (RedirectResponse location) = Some 302)
       ∧ (urllib.scheme parsed ≠ [] →
          urllib.scheme parsed ∉ allowed_schemes →
          result
          = (Raise (mk_exn DisallowedRedirect
                      (unsafe_redirect_text (urllib.scheme parsed))),
             stored)))
  ∧ (∀ response, result.1 = Return response →
                 status_code response = Some 302)
  ∧ (∀ e, result.1 = Raise e →
          exc_type e ∈ [UnicodeEncodeError; ValueError; DisallowedRedirect]).
Proof.
  cbv zeta. split; [|split; [|split]].
  - intros Hnone.
    by rewrite (referer_default _ Hnone), HttpResponseRedirect_root.
  - intros location parsed Hloc Hparsed.
    unfold HttpResponseRedirect. rewrite Hloc, Hparsed.
    cbn [mbind outcome_bind]. split.
    + intros Hok. by rewrite (unsafe_scheme_false _ Hok).
    + intros Hne Hnot. by rewrite (unsafe_scheme_true _ Hne Hnot).
  - cbn [fst]. intros response Hr.
    by apply HttpResponseRedirect_Return in Hr as (location & _ & ->).
  - cbn [fst]. apply HttpResponseRedirect_Raise.
Qed.

(** C2, amended.  No match and more than one match give a 404 with a
    message naming the document type and ID in the path-based branch of
    [browse_citation_by_docid]; a [RefNotFoundError] of [get_indexed_ref]
    makes [browse_indexed_reference] raise [Http404] with a message naming
    the reference and the dataset.  In the form fallback of
    [browse_citation_by_docid], no match and more than one match store a
    flash error message with the number of matches, and the view ends
    with [HttpResponseRedirect] of the referring page, never with a 404:
    that is a 302 redirect when the request has no referer header (to
    [/]) and when the scheme of the referer is empty, [http], [https] or
    [ftp]; for a referer with another scheme the constructor raises
    [DisallowedRedirect], after the message is stored. *)
Theorem no_unique_match_responses (request : HttpRequest) msgs :
  (∀ doctype docid,
     doctype ≠ [] → docid ≠ [] →
     let citations :=
       search_refs_relaton_struct backend
         (docid_query doctype (urllib.unquote_plus docid)) in
     let text :=
       if bool_decide (length citations = 0%nat)
       then not_found_text doctype docid
       else multiple_found_text doctype docid in
     length citations ≠ 1%nat →
     browse_citation_by_docid settings backend request
       (Some doctype) (Some docid) msgs
     = (Return (HttpResponseNotFound text), msgs)
     ∧ status_code (HttpResponseNotFound text) = Some 404)
  ∧ (∀ dataset_id ref e,
       dataset_id ≠ lit "doi" →
       get_indexed_ref backend dataset_id (urllib.unquote_plus ref)
       = Raise e →
       exc_type e = RefNotFoundError →
       browse_indexed_reference settings backend request dataset_id ref msgs
       = (Raise (mk_exn Http404
                   (reference_not_found_text
                      (urllib.unquote_plus ref) dataset_id)), msgs))
  ∧ (∀ doctype docid form_doctype form_docid,
       truthy doctype && truthy docid = false →
       QueryDict_get (lit "doctype") (GET request) = Some form_doctype →
       QueryDict_get (lit "docid") (GET request) = Some form_docid →
       form_doctype ≠ [] → form_docid ≠ [] →
       let citations :=
         search_refs_relaton_struct backend
           (docid_query form_doctype form_docid) in
       length citations ≠ 1%nat →
       let result :=
         browse_citation_by_docid settings backend request doctype docid
           msgs in
       let stored :=
         msgs ++ [mk_message ERROR
                    (no_reliable_match_text form_doctype form_docid
                       (length citations))] in
       result = (HttpResponseRedirect backend (referer request), stored)
       ∧ (headers request !! "referer"%string = None →
          result = (Return (RedirectResponse (lit "/")), stored))
       ∧ (∀ location parsed,
            iri_to_uri (referer request) = Return location →
            urlparse backend (referer request) = Return parsed →
            (urllib.scheme parsed = []
             ∨ urllib.scheme parsed ∈ allowed_schemes →
             result = (Return (RedirectResponse location), stored)
             ∧ status_code (RedirectResponse location) = Some 302)
            ∧ (urllib.scheme parsed ≠ [] →
               urllib.scheme parsed ∉ allowed_schemes →
               result
               = (Raise (mk_exn DisallowedRedirect
                           (unsafe_redirect_text (urllib.scheme parsed))),
                  stored)))
       ∧ (∀ response, result.1 = Return response →
                      status_code response = Some 302)
       ∧ (∀ e, result.1 = Raise e →
               exc_type e
               ∈ [UnicodeEncodeError; ValueError; DisallowedRedirect])).
Proof.
  split; [|split].
  - intros doctype docid Hdt Hdi cs text Hlen. subst cs text.
    unfold browse_citation_by_docid.
    rewrite !truthy_Some by assumption. cbn [andb text].
    rewrite bool_decide_eq_false_2 by assumption.
    by case_bool_decide.
  - intros dataset_id ref e Hds Hraise He.
    unfold browse_indexed_reference.
    rewrite indexed_reference_try_indexed by assumption.
    rewrite Hraise. by rewrite (proj2 (isinstance_RefNotFoundError _ e) He).
  - intros doctype docid form_doctype form_docid Hpath Hdt Hdi ? ? cs Hlen
      result stored.
    assert (result
            = (HttpResponseRedirect backend (referer request), stored))
      as ->.
    { subst result stored cs. unfold browse_citation_by_docid.
      rewrite Hpath, Hdt, Hdi, !truthy_Some by assumption.
      cbn [negb orb text].
      rewrite bool_decide_eq_false_2 by assumption.
      apply bind_messages_error. }
    split; [reflexivity|apply referer_redirect_outcomes].
Qed.

(** C3, amended.  When [get_doi_ref] raises an exception (an instance of
    [Exception]), the path-based branch of [browse_external_reference] and
    [browse_indexed_reference], both for the dataset [doi], return the
    server-error page.  In the form fallback of
    [browse_external_reference] a [RuntimeError] of [get_doi_ref] is
    stored as a flash error message with the text of the exception, and
    the view ends with [HttpResponseRedirect] of the referring page,
    never with the server-error page: that is a 302 redirect when the
    request has no referer header (to [/]) and when the scheme of the
    referer is empty, [http], [https] or [ftp]; for a referer with
    another scheme the constructor raises [DisallowedRedirect], after the
    message is stored. *)
Theorem get_doi_ref_failure_responses (request : HttpRequest) (e : exn) msgs :
  (∀ ref,
     ref ≠ [] →
     get_doi_ref backend (urllib.unquote_plus ref) = Raise e →
     isinstance (rnf_runtime backend) e PyException = true →
     browse_external_reference settings backend request
       (lit "doi") (Some ref) msgs
     = (Return ServerErrorPage, msgs))
  ∧ (∀ ref,
       get_doi_ref backend (urllib.unquote_plus ref) = Raise e →
       isinstance (rnf_runtime backend) e PyException = true →
       browse_indexed_reference settings backend request (lit "doi") ref msgs
       = (Return ServerErrorPage, msgs))
  ∧ (∀ ref form_ref,
       truthy ref = false →
       QueryDict_get (lit "ref") (GET request) = Some form_ref →
       form_ref ≠ [] →
       get_doi_ref backend form_ref = Raise e →
       isinstance (rnf_runtime backend) e RuntimeError = true →
       let result :=
         browse_external_reference settings backend request
           (lit "doi") ref msgs in
       let stored :=
         (msgs ++ if bool_decide (lit "doi" ∉ EXTERNAL_DATASETS settings)
                  then [mk_message ERROR
                          (lit "Unknown external dataset " ++ lit "doi")]
                  else [])
           ++ [mk_message ERROR
                 (lit "Couldn" ++ [0x2019] ++ lit "t retrieve citation: "
                    ++ exc_str e)] in
       result = (HttpResponseRedirect backend (referer request), stored)
       ∧ (headers request !! "referer"%string = None →
          result = (Return (RedirectResponse (lit "/")), stored))
       ∧ (∀ location parsed,
            iri_to_uri (referer request) = Return location →
            urlparse backend (referer request) = Return parsed →
            (urllib.scheme parsed = []
             ∨ urllib.scheme parsed ∈ allowed_schemes →
             result = (Return (RedirectResponse location), stored)
             ∧ status_code (RedirectResponse location) = Some 302)
            ∧ (urllib.scheme parsed ≠ [] →
               urllib.scheme parsed ∉ allowed_schemes →
               result
               = (Raise (mk_exn DisallowedRedirect
                           (unsafe_redirect_text (urllib.scheme parsed))),
                  stored)))
       ∧ (∀ response, result.1 = Return response →
                      status_code response = Some 302)
       ∧ (∀ e, result.1 = Raise e →
               exc_type e
               ∈ [UnicodeEncodeError; ValueError; DisallowedRedirect])).
Proof.
  split; [|split].
  - intros ref Href Hraise He. unfold browse_external_reference.
    rewrite truthy_Some by assumption. cbn [text].
    rewrite bool_decide_eq_true_2 by reflexivity.
    by rewrite Hraise, He.
  - intros ref Hraise He. unfold browse_indexed_reference.
    by rewrite indexed_reference_try_doi, Hraise, He.
  - intros ref form_ref Hpath Hget Hne Hraise He result stored.
    assert (result
            = (HttpResponseRedirect backend (referer request), stored))
      as ->.
    { subst result stored. unfold browse_external_reference.
      rewrite Hpath, Hget, truthy_Some by assumption. cbn [negb text].
      rewrite unknown_dataset_message.
      rewrite bool_decide_eq_true_2 by reflexivity.
      by rewrite Hraise, He. }
    split; [reflexivity|apply referer_redirect_outcomes].
Qed.

(** C4, amended.  For a dataset other than [doi], the form fallback of
    [browse_external_reference] (a non-empty [ref] parameter in the query
    string) stores the flash error message "Unsupported external dataset"
    and ends with [HttpResponseRedirect] of the referring page, or of [/]
    when the request has no referer header: that is a 302 redirect when
    the scheme of the referring page is empty, [http], [https] or [ftp];
    for a referer with another scheme the constructor raises
    [DisallowedRedirect], after the messages are stored.  The path-based
    branch returns a 400 and stores no flash message. *)
Theorem unsupported_external_dataset_responses
    (request : HttpRequest) (dataset_id : pystr) msgs :
  dataset_id ≠ lit "doi" →
  (∀ ref form_ref,
     truthy ref = false →
     QueryDict_get (lit "ref") (GET request) = Some form_ref →
     form_ref ≠ [] →
     let result :=
       browse_external_reference settings backend request dataset_id ref
         msgs in
     let stored :=
       (msgs ++ if bool_decide (dataset_id ∉ EXTERNAL_DATASETS settings)
                then [mk_message ERROR
                        (lit "Unknown external dataset " ++ dataset_id)]
                else [])
         ++ [mk_message ERROR
               (lit "Unsupported external dataset " ++ dataset_id)] in
     result = (HttpResponseRedirect backend (referer request), stored)
     ∧ (headers request !! "referer"%string = None →
        result = (Return (RedirectResponse (lit "/")), stored))
     ∧ (∀ location parsed,
          iri_to_uri (referer request) = Return location →
          urlparse backend (referer request) = Return parsed →
          (urllib.scheme parsed = []
           ∨ urllib.scheme parsed ∈ allowed_schemes →
           result = (Return (RedirectResponse location), stored)
           ∧ status_code (RedirectResponse location) = Some 302)
          ∧ (urllib.scheme parsed ≠ [] →
             urllib.scheme parsed ∉ allowed_schemes →
             result
             = (Raise (mk_exn DisallowedRedirect
                         (unsafe_redirect_text (urllib.scheme parsed))),
                stored)))
     ∧ (∀ response, result.1 = Return response →
                    status_code response = Some 302)
     ∧ (∀ e, result.1 = Raise e →
             exc_type e
             ∈ [UnicodeEncodeError; ValueError; DisallowedRedirect]))
  ∧ (headers request !! "referer"%string = None →
     referer request = lit "/")
  ∧ (∀ origin, headers request !! "referer"%string = Some origin →
               referer request = origin)
  ∧ (∀ ref,
       ref ≠ [] →
       browse_external_reference settings backend request
         dataset_id (Some ref) msgs
       = (Return (HttpResponseBadRequest
                    (lit "Unsupported external dataset ID")), msgs)).
Proof.
  intros Hds. split; [|split; [|split]].
  - intros ref form_ref Hpath Hget Hne result stored.
    assert (result
            = (HttpResponseRedirect backend (referer request), stored))
      as ->.
    { subst result stored. unfold browse_external_reference.
      rewrite Hpath, Hget, truthy_Some by assumption. cbn [negb].
      rewrite unknown_dataset_message.
      by rewrite bool_decide_eq_false_2 by assumption. }
    split; [reflexivity|apply referer_redirect_outcomes].
  - apply referer_default.
  - apply referer_given.
  - intros ref Href. unfold browse_external_reference.
    rewrite truthy_Some by assumption.
    by rewrite bool_decide_eq_false_2 by assumption.
Qed.

(** *** The shared context and the home page *)

Lemma comprehension_filter {A} (P : A → Prop) `{∀ x, Decision (P x)}
    (xs : list A) :
  comprehension (λ x, bool_decide (P x)) xs = filter P xs.
Proof.
  unfold comprehension. induction xs as [|x xs IH]; [reflexivity|].
  rewrite bind_cons, filter_cons, IH.
  case_bool_decide; [by rewrite decide_True|by rewrite decide_False].
Qed.

Lemma shared_context_lookup :
  shared_context settings !! "indexed_datasets"%string
  = Some (CStrs (indexed_datasets settings))
  ∧ shared_context settings !! "external_datasets"%string
    = Some (CStrs (EXTERNAL_DATASETS settings))
  ∧ shared_context settings !! "known_datasets"%string
    = Some (CStrs (KNOWN_DATASETS settings)).
Proof. repeat split. Qed.

(** The context of the home page, whatever the values are. *)
Lemma home_context v1 v2 v3 v4 v5 a b c :
  let shared : Context :=
    list_to_map [ ("known_datasets"%string, v1);
                  ("indexed_datasets"%string, v2);
                  ("external_datasets"%string, v3);
                  ("authoritative_datasets"%string, v4);
                  ("snapshot"%string, v5) ] in
  ∃ context,
    py_dict [ StarStar shared; Kw "total_indexed_citations" a;
              Kw "browsable_datasets" b; Kw "doctypes" c ]
    = Return context
    ∧ context !! "indexed_datasets"%string = Some v2
    ∧ context !! "external_datasets"%string = Some v3
    ∧ context !! "browsable_datasets"%string = Some b.
Proof.
  eexists. split; [dict_no_dup; reflexivity|].
  repeat split.
Qed.

Lemma non_empty_datasets_spec ds :
  ds ∈ non_empty_datasets backend
  ↔ ∃ citation, citation ∈ RefData_objects backend ∧ dataset citation = ds.
Proof.
  unfold non_empty_datasets. rewrite elem_of_remove_dups, list_elem_of_fmap.
  split.
  - intros (citation & -> & ?). by exists citation.
  - intros (citation & ? & <-). by exists citation.
Qed.

Lemma browsable_datasets_filter :
  browsable_datasets settings backend
  = Return (filter (λ ds, ds ∈ non_empty_datasets backend)
              (indexed_datasets settings)).
Proof.
  unfold browsable_datasets, shared_indexed_datasets.
  rewrite (proj1 shared_context_lookup).
  by rewrite comprehension_filter.
Qed.

(** C10. In the shared context, [indexed_datasets] is the subsequence of
    [KNOWN_DATASETS] of the datasets that are not in [EXTERNAL_DATASETS],
    so it has no member in common with [external_datasets]; on the home
    page, [browsable_datasets] is the subsequence of [indexed_datasets]
    of the datasets that have an indexed record. *)
Theorem shared_context_datasets (request : HttpRequest) msgs :
  let known := KNOWN_DATASETS settings in
  let external := EXTERNAL_DATASETS settings in
  let indexed := indexed_datasets settings in
  shared_context settings !! "indexed_datasets"%string = Some (CStrs indexed)
  ∧ shared_context settings !! "external_datasets"%string
    = Some (CStrs external)
  ∧ indexed = filter (λ ds, ds ∉ external) known
  ∧ indexed `sublist_of` known
  ∧ (∀ ds, ds ∈ indexed ↔ ds ∈ known ∧ ds ∉ external)
  ∧ (∀ ds, ds ∈ indexed → ds ∈ external → False)
  ∧ ∃ context browsable,
      home settings backend request msgs
      = (Return (TemplateResponse "browse/home.html" context), msgs)
      ∧ context !! "indexed_datasets"%string = Some (CStrs indexed)
      ∧ context !! "external_datasets"%string = Some (CStrs external)
      ∧ context !! "browsable_datasets"%string = Some (CStrs browsable)
      ∧ browsable = filter (λ ds, ds ∈ non_empty_datasets backend) indexed
      ∧ browsable `sublist_of` indexed
      ∧ (∀ ds, ds ∈ browsable
               ↔ ds ∈ indexed
                 ∧ ∃ citation, citation ∈ RefData_objects backend
                               ∧ dataset citation = ds).
Proof.
  intros known external indexed.
  assert (indexed = filter (λ ds, ds ∉ external) known) as Hindexed.
  { apply comprehension_filter. }
  split; [apply shared_context_lookup|].
  split; [apply shared_context_lookup|].
  split; [exact Hindexed|].
  split; [rewrite Hindexed; apply sublist_filter|].
  split; [intros ds; rewrite Hindexed, list_elem_of_filter; tauto|].
  split; [intros ds; rewrite Hindexed, list_elem_of_filter; tauto|].
  unfold home. rewrite browsable_datasets_filter, bind_lift_Return.
  set (browsable := filter _ _).
  destruct (home_context
              (CStrs known) (CStrs indexed) (CStrs external)
              (CStrs (AUTHORITATIVE_DATASETS settings))
              (CStr (SNAPSHOT settings))
              (CInt (Z.of_nat (length (RefData_objects backend))))
              (CStrs browsable) (CStrs (list_doctypes backend)))
    as (context & Hdict & ? & ? & ?).
  exists context, browsable. unfold render.
  change (shared_context settings) with
    (list_to_map (M := Context)
       [ ("known_datasets"%string, CStrs known);
         ("indexed_datasets"%string, CStrs indexed);
         ("external_datasets"%string, CStrs external);
         ("authoritative_datasets"%string,
           CStrs (AUTHORITATIVE_DATASETS settings));
         ("snapshot"%string, CStr (SNAPSHOT settings)) ]).
  rewrite Hdict, bind_lift_Return.
  split; [reflexivity|]. do 3 (split; [assumption|]).
  split; [reflexivity|].
  split; [apply sublist_filter|].
  intros ds. subst browsable.
  rewrite list_elem_of_filter, non_empty_datasets_spec. tauto.
Qed.

(** *** The list of an indexed dataset *)

Lemma Paginator_page_objects (l : list RefData) (per_page number : Z)
    (objects : list RefData) :
  0 < per_page →
  Paginator.page l per_page number = Some objects →
  1 ≤ number ≤ Paginator.num_pages l per_page
  ∧ (length objects ≤ Z.to_nat per_page)%nat
  ∧ ∀ j, (j < Z.to_nat per_page)%nat →
         objects !! j = l !! (Z.to_nat ((number - 1) * per_page) + j)%nat.
Proof.
  intros Hpp. unfold Paginator.page, Paginator.slice, Paginator.count.
  destruct (Z.ltb_spec number 1); [discriminate|].
  destruct (Z.ltb_spec (Paginator.num_pages l per_page) number);
    [discriminate|].
  intros [= <-]. split; [lia|].
  set (bottom := (number - 1) * per_page).
  assert (0 ≤ bottom) by (subst bottom; nia).
  destruct (Z.leb_spec (Z.of_nat (length l)) (bottom + per_page)).
  - split.
    + rewrite length_take, length_drop. lia.
    + intros j Hj.
      destruct (decide (j < Z.to_nat (Z.of_nat (length l) - bottom))%nat).
      * by rewrite lookup_take_lt, lookup_drop.
      * rewrite lookup_take_ge by lia. symmetry.
        apply lookup_ge_None. lia.
  - replace (bottom + per_page - bottom) with per_page by lia. split.
    + rewrite length_take. lia.
    + intros j Hj. by rewrite lookup_take_lt, lookup_drop.
Qed.

Lemma Paginator_page_of_index (l : list RefData) (per_page : Z) (i : nat)
    (x : RefData) :
  0 < per_page →
  l !! i = Some x →
  ∃ objects,
    Paginator.page l per_page (Z.of_nat i `div` per_page + 1) = Some objects
    ∧ objects !! Z.to_nat (Z.of_nat i `mod` per_page) = Some x.
Proof.
  intros Hpp Hi. apply lookup_lt_Some in Hi as Hlt.
  set (number := Z.of_nat i `div` per_page + 1).
  assert (0 ≤ Z.of_nat i `div` per_page) by (apply Z.div_pos; lia).
  pose proof (Z.mod_pos_bound (Z.of_nat i) per_page Hpp).
  pose proof (Z.div_mod (Z.of_nat i) per_page ltac:(lia)).
  assert (number ≤ Paginator.num_pages l per_page).
  { unfold Paginator.num_pages, Paginator.count, number.
    rewrite Z.max_r by lia.
    rewrite <- Z.div_add by lia.
    apply Z.div_le_mono; lia. }
  destruct (Paginator.page l per_page number) as [objects|] eqn:Hpage.
  - exists objects. split; [reflexivity|].
    destruct (Paginator_page_objects _ _ _ _ Hpp Hpage) as (_ & _ & Hobj).
    rewrite Hobj by lia. rewrite <- Hi. f_equal.
    unfold number. nia.
  - exfalso. unfold Paginator.page in Hpage.
    destruct (Z.ltb_spec number 1); [unfold number in *; lia|].
    destruct (Z.ltb_spec (Paginator.num_pages l per_page) number);
      [lia|discriminate].
Qed.

(** The context of the list view, whatever the values are. *)
Lemma list_view_context p1 p2 p3 p4 p5 p6 d v1 v2 v3 v4 v5 :
  let super : Context :=
    list_to_map [ ("paginator"%string, p1);
                  ("page_obj"%string, p2);
                  ("is_paginated"%string, p3);
                  ("object_list"%string, p4);
                  ("refdata_list"%string, p5);
                  ("view"%string, p6) ] in
  let shared : Context :=
    list_to_map [ ("known_datasets"%string, v1);
                  ("indexed_datasets"%string, v2);
                  ("external_datasets"%string, v3);
                  ("authoritative_datasets"%string, v4);
                  ("snapshot"%string, v5) ] in
  ∃ context,
    py_dict [ StarStar super; Kw "dataset_id" d; StarStar shared ]
    = Return context
    ∧ context !! "dataset_id"%string = Some d
    ∧ context !! "object_list"%string = Some p4
    ∧ context !! "paginator"%string = Some p1
    ∧ context !! "page_obj"%string = Some p2.
Proof.
  eexists. split; [dict_no_dup; reflexivity|].
  repeat split.
Qed.

(** C7. The list view of an indexed dataset lists [list_refs(dataset_id)]
    for the [dataset_id] of the URL, 20 citations to a page at most: the
    page [n] holds the citations 20(n-1), 20(n-1)+1, ... of the list in
    order, every citation of the list is on a page, and the context
    carries the [dataset_id]. *)
Theorem indexed_dataset_list_view
    (request : HttpRequest) (kwargs : gmap string pystr)
    (dataset_id : pystr) msgs :
  kwargs !! "dataset_id"%string = Some dataset_id →
  let citations := list_refs backend dataset_id in
  get_queryset backend kwargs = Return citations
  ∧ paginate_by = 20
  ∧ (∀ page_number objects,
       Paginator.page citations paginate_by page_number = Some objects →
       (length objects ≤ 20)%nat
       ∧ (∀ j, (j < 20)%nat →
               objects !! j
               = citations !! (Z.to_nat (20 * (page_number - 1)) + j)%nat)
       ∧ ∃ context,
           ListView_get settings backend kwargs request page_number msgs
           = (Return (TemplateResponse "browse/dataset.html" context), msgs)
           ∧ context !! "dataset_id"%string = Some (CStr dataset_id)
           ∧ context !! "object_list"%string = Some (CRefs objects)
           ∧ context !! "paginator"%string
             = Some (CPaginator citations 20)
           ∧ context !! "page_obj"%string
             = Some (CPage page_number objects))
  ∧ (∀ i citation,
       citations !! i = Some citation →
       ∃ objects,
         Paginator.page citations paginate_by (Z.of_nat (i / 20) + 1)
         = Some objects
         ∧ objects !! (i mod 20)%nat = Some citation).
Proof.
  intros Hkw citations.
  assert (get_queryset backend kwargs = Return citations) as Hqs.
  { unfold get_queryset, kwarg. by rewrite Hkw. }
  split; [exact Hqs|]. split; [reflexivity|]. split.
  - intros page_number objects Hpage.
    destruct (Paginator_page_objects citations paginate_by page_number
                objects eq_refl Hpage) as (_ & Hlen & Hobj).
    split; [exact Hlen|]. split.
    { intros j Hj. rewrite (Hobj j Hj). do 2 f_equal.
      unfold paginate_by. lia. }
    unfold ListView_get. rewrite Hqs, bind_lift_Return.
    unfold get_context_data, super_get_context_data, paginate_queryset.
    change (paginate_by =? 0) with false. cbv iota.
    rewrite Hpage. unfold kwarg. rewrite Hkw.
    cbn [mbind outcome_bind mret outcome_ret].
    edestruct (list_view_context
                 (CPaginator citations paginate_by)
                 (CPage page_number objects))
      as (context & Hdict & ? & ? & ? & ?).
    change (shared_context settings) with
      (list_to_map (M := Context)
         [ ("known_datasets"%string, CStrs (KNOWN_DATASETS settings));
           ("indexed_datasets"%string, CStrs (indexed_datasets settings));
           ("external_datasets"%string,
             CStrs (EXTERNAL_DATASETS settings));
           ("authoritative_datasets"%string,
             CStrs (AUTHORITATIVE_DATASETS settings));
           ("snapshot"%string, CStr (SNAPSHOT settings)) ]).
    rewrite Hdict, bind_lift_Return.
    exists context. repeat split; assumption.
  - intros i citation Hi.
    destruct (Paginator_page_of_index citations paginate_by i citation
                eq_refl Hi) as (objects & Hpage & Hobj).
    exists objects. unfold paginate_by in *.
    rewrite Nat2Z.inj_div. split; [exact Hpage|].
    rewrite <- Hobj. f_equal.
    rewrite <- (Nat2Z.id (i mod 20)), Nat2Z.inj_mod. reflexivity.
Qed.

(** *** The redirect of the search form *)

Lemma utf8_encode_char_scalar c bs :
  urllib.code_point c → urllib.utf8_encode_char c = Some bs →
  urllib.unicode_scalar c.
Proof.
  unfold urllib.code_point, urllib.utf8_encode_char, urllib.is_surrogate.
  intros Hc Henc. split; [exact Hc|]. intros Hs.
  rewrite (proj2 (Z.ltb_ge _ _)), (proj2 (Z.ltb_ge _ _)) in Henc by lia.
  rewrite (proj2 (Z.ltb_lt _ _)) in Henc by lia.
  rewrite (proj2 (Z.leb_le _ _)), (proj2 (Z.leb_le _ _)) in Henc by lia.
  discriminate.
Qed.

Lemma utf8_encode_scalar s bs :
  Forall urllib.code_point s → urllib.utf8_encode s = Some bs →
  Forall urllib.unicode_scalar s.
Proof.
  intros Hs. revert bs. induction Hs as [|c s Hc _ IH]; [constructor|].
  intros bs. cbn [urllib.utf8_encode].
  destruct (urllib.utf8_encode_char c) as [b|] eqn:Hb; [|discriminate].
  destruct (urllib.utf8_encode s) as [bs'|]; [|discriminate].
  intros _. constructor; [by eapply utf8_encode_char_scalar|by eapply IH].
Qed.

Lemma quote_plus_Return_scalar s quoted :
  Forall urllib.code_point s → urllib.quote_plus s = Return quoted →
  Forall urllib.unicode_scalar s.
Proof.
  intros Hs. unfold urllib.quote_plus, urllib.quote_plus_opt, urllib.quote.
  destruct (urllib.utf8_encode s) as [bs|] eqn:Hbs.
  - intros _. by eapply utf8_encode_scalar.
  - case_bool_decide; discriminate.
Qed.

(** C9. Whatever [quote_plus] makes of a document ID, [unquote_plus]
    turns back into that ID, and [quote_plus] succeeds on every string
    free of lone surrogates.  So, on one match, the form fallback of
    [browse_citation_by_docid] redirects to the path-based branch with
    the quoted ID, and the path-based branch, given the arguments of the
    redirect, runs the search of the form submission and shows its
    citation. *)
Theorem quote_plus_redirect_roundtrip
    (request redirected : HttpRequest) (docid : pystr) msgs msgs' :
  Forall urllib.code_point docid →
  (∀ quoted, urllib.quote_plus docid = Return quoted →
             urllib.unquote_plus quoted = docid)
  ∧ (Forall urllib.unicode_scalar docid →
     ∃ quoted, urllib.quote_plus docid = Return quoted
               ∧ urllib.unquote_plus quoted = docid)
  ∧ (∀ path_doctype path_docid doctype citation,
       truthy path_doctype && truthy path_docid = false →
       QueryDict_get (lit "doctype") (GET request) = Some doctype →
       QueryDict_get (lit "docid") (GET request) = Some docid →
       doctype ≠ [] → docid ≠ [] →
       Forall urllib.unicode_scalar docid →
       search_refs_relaton_struct backend (docid_query doctype docid)
       = [citation] →
       ∃ quoted,
         browse_citation_by_docid settings backend request
           path_doctype path_docid msgs
         = (Return (RedirectToView "browse_citation_by_docid"
                      [doctype; quoted]), msgs)
         ∧ urllib.unquote_plus quoted = docid
         ∧ ∃ context,
             browse_citation_by_docid settings backend redirected
               (Some doctype) (Some quoted) msgs'
             = (Return (TemplateResponse "browse/citation_details.html"
                          context), msgs')
             ∧ context !! "dataset_id"%string
               = Some (CStr (dataset citation))
             ∧ context !! "ref"%string = Some (CStr (ref citation))
             ∧ context !! "data"%string = Some (CData (body citation))).
Proof.
  intros Hcp. split; [|split].
  - intros quoted Hq.
    pose proof (quote_plus_Return_scalar _ _ Hcp Hq) as Hs.
    destruct (unquote_plus_quote_plus docid Hs) as (q & Hq' & Hu & _).
    rewrite Hq in Hq'. by injection Hq' as ->.
  - intros Hs.
    destruct (unquote_plus_quote_plus docid Hs) as (q & Hq & Hu & _).
    by exists q.
  - intros path_doctype path_docid doctype citation
      Hpath Hdt Hdi Hdt_ne Hdi_ne Hs Hc.
    destruct (unquote_plus_quote_plus docid Hs) as (quoted & Hq & Hu & Hne).
    exists quoted. split; [|split; [exact Hu|]].
    + unfold browse_citation_by_docid.
      rewrite Hpath, Hdt, Hdi, !truthy_Some by assumption.
      cbn [negb orb text]. rewrite Hc. cbn [length].
      rewrite bool_decide_eq_true_2 by reflexivity.
      by rewrite Hq, bind_lift_Return.
    + apply browse_citation_by_docid_unique; [assumption|by apply Hne|].
      by rewrite Hu.
Qed.

End view_facts.

(** ** The views on the sample installation *)

(** C1 on the sample data: the path [IETF/RFC+1] has one match and shows
    it, the path [IETF/RFC1] has two and is answered with a 404. *)
Lemma browse_citation_by_docid_path_witness :
  (lit "IETF" ≠ [] ∧ lit "RFC+1" ≠ []
   ∧ search_refs_relaton_struct sample.backend
       (docid_query (lit "IETF") (urllib.unquote_plus (lit "RFC+1")))
     = [sample.rfc1]
   ∧ ∃ context,
       browse_citation_by_docid sample.settings sample.backend
         sample.bare_request (Some (lit "IETF")) (Some (lit "RFC+1")) []
       = (Return (TemplateResponse "browse/citation_details.html" context),
          [])
       ∧ context !! "dataset_id"%string = Some (CStr (lit "rfcs"))
       ∧ context !! "ref"%string = Some (CStr (lit "RFC0001"))
       ∧ context !! "data"%string = Some (CData (body sample.rfc1)))
  ∧ (length (search_refs_relaton_struct sample.backend
               (docid_query (lit "IETF")
                  (urllib.unquote_plus (lit "RFC1")))) ≠ 1%nat
     ∧ ∃ text,
         browse_citation_by_docid sample.settings sample.backend
           sample.bare_request (Some (lit "IETF")) (Some (lit "RFC1")) []
         = (Return (HttpResponseNotFound text), [])
         ∧ status_code (HttpResponseNotFound text) = Some 404).
Proof.
  split.
  - split; [discriminate|]. split; [discriminate|].
    split; [vm_compute; reflexivity|].
    pose proof (browse_citation_by_docid_path sample.settings
                  sample.backend sample.bare_request (lit "IETF")
                  (lit "RFC+1") []) as H.
    cbv zeta in H. destruct H as [H _]; [discriminate..|].
    apply (H sample.rfc1). vm_compute. reflexivity.
  - split; [vm_compute; discriminate|].
    pose proof (browse_citation_by_docid_path sample.settings
                  sample.backend sample.bare_request (lit "IETF")
                  (lit "RFC1") []) as H.
    cbv zeta in H. destruct H as [_ H]; [discriminate..|].
    apply H. vm_compute. discriminate.
Defined.

(** C5 on the sample data: a request with no query string. *)
Lemma missing_parameter_bad_request_witness :
  (truthy None && truthy None = false
   ∧ truthy (QueryDict_get (lit "doctype") (GET sample.bare_request))
     = false
   ∧ ∃ text,
       browse_citation_by_docid sample.settings sample.backend
         sample.bare_request None None []
       = (Return (HttpResponseBadRequest text), [])
       ∧ status_code (HttpResponseBadRequest text) = Some 400)
  ∧ (truthy None = false
     ∧ truthy (QueryDict_get (lit "ref") (GET sample.bare_request)) = false
     ∧ ∃ text,
         browse_external_reference sample.settings sample.backend
           sample.bare_request (lit "doi") None []
         = (Return (HttpResponseBadRequest text), [])
         ∧ status_code (HttpResponseBadRequest text) = Some 400).
Proof.
  destruct (missing_parameter_bad_request sample.settings sample.backend
              sample.bare_request None None None (lit "doi") [])
    as [Hdocid Href].
  split.
  - split; [reflexivity|]. split; [reflexivity|].
    apply Hdocid; [reflexivity|left; reflexivity].
  - split; [reflexivity|]. split; [reflexivity|].
    apply Href; reflexivity.
Defined.

(** C6 on the sample data: a reference of the dataset [rfcs] that is
    indexed, and one that is not. *)
Lemma browse_indexed_reference_indexed_witness :
  lit "rfcs" ≠ lit "doi"
  ∧ (get_indexed_ref sample.backend (lit "rfcs")
       (urllib.unquote_plus (lit "RFC0001")) = Return (body sample.rfc1)
     ∧ ∃ context,
         browse_indexed_reference sample.settings sample.backend
           sample.bare_request (lit "rfcs") (lit "RFC0001") []
         = (Return (TemplateResponse "browse/citation_details.html"
                      context), [])
         ∧ context !! "dataset_id"%string = Some (CStr (lit "rfcs"))
         ∧ context !! "ref"%string = Some (CStr (lit "RFC0001"))
         ∧ context !! "data"%string = Some (CData (body sample.rfc1)))
  ∧ (get_indexed_ref sample.backend (lit "rfcs")
       (urllib.unquote_plus (lit "RFC9999"))
     = Raise (mk_exn RefNotFoundError (lit "no such reference"))
     ∧ ∃ text,
         browse_indexed_reference sample.settings sample.backend
           sample.bare_request (lit "rfcs") (lit "RFC9999") []
         = (Raise (mk_exn Http404 text), [])).
Proof.
  split; [discriminate|]. split.
  - split; [vm_compute; reflexivity|].
    pose proof (browse_indexed_reference_indexed sample.settings
                  sample.backend sample.bare_request (lit "rfcs")
                  (lit "RFC0001") []) as H.
    cbv zeta in H. destruct H as [H _]; [discriminate|].
    apply H. vm_compute. reflexivity.
  - split; [vm_compute; reflexivity|].
    pose proof (browse_indexed_reference_indexed sample.settings
                  sample.backend sample.bare_request (lit "rfcs")
                  (lit "RFC9999") []) as H.
    cbv zeta in H. destruct H as [_ H]; [discriminate|].
    apply (H (mk_exn RefNotFoundError (lit "no such reference")));
      [vm_compute|]; reflexivity.
Defined.

(** C8 on the sample data: a DOI that the resolver does not know gives
    the server-error page, and an interrupt of the resolver leaves the
    view as it is, past the handler of [RefNotFoundError]. *)
Lemma browse_indexed_reference_doi_never_404_witness :
  (get_doi_ref sample.backend (urllib.unquote_plus (lit "10.1000%2Fnone"))
   = Raise (mk_exn RefNotFoundError (lit "no such DOI"))
   ∧ isinstance (rnf_runtime sample.backend)
       (mk_exn RefNotFoundError (lit "no such DOI")) PyException = true
   ∧ browse_indexed_reference sample.settings sample.backend
       sample.bare_request (lit "doi") (lit "10.1000%2Fnone") []
     = (Return ServerErrorPage, []))
  ∧ (get_doi_ref sample.backend (urllib.unquote_plus (lit "10.1000%2Fdown"))
     = Raise (mk_exn RuntimeError (lit "resolver unavailable"))
     ∧ isinstance (rnf_runtime sample.backend)
         (mk_exn RuntimeError (lit "resolver unavailable")) PyException
       = true
     ∧ browse_indexed_reference sample.settings sample.backend
         sample.bare_request (lit "doi") (lit "10.1000%2Fdown") []
       = (Return ServerErrorPage, []))
  ∧ (indexed_reference_try sample.interrupted_backend (lit "doi")
       (urllib.unquote_plus (lit "10.1000%2F182"))
     = Raise (mk_exn KeyboardInterrupt (lit "interrupted"))
     ∧ isinstance (rnf_runtime sample.interrupted_backend)
         (mk_exn KeyboardInterrupt (lit "interrupted")) RefNotFoundError
       = false
     ∧ browse_indexed_reference sample.settings sample.interrupted_backend
         sample.bare_request (lit "doi") (lit "10.1000%2F182") []
       = (Raise (mk_exn KeyboardInterrupt (lit "interrupted")), [])
     ∧ exc_type (mk_exn KeyboardInterrupt (lit "interrupted")) ≠ Http404).
Proof.
  split; [|split].
  - pose proof (browse_indexed_reference_doi_never_404 sample.settings
                  sample.backend sample.bare_request
                  (lit "10.1000%2Fnone") []) as H.
    cbv zeta in H. destruct H as (_ & _ & Hrnf & _).
    split; [vm_compute; reflexivity|]. split; [vm_compute; reflexivity|].
    apply (Hrnf (mk_exn RefNotFoundError (lit "no such DOI")));
      vm_compute; reflexivity.
  - pose proof (browse_indexed_reference_doi_never_404 sample.settings
                  sample.backend sample.bare_request
                  (lit "10.1000%2Fdown") []) as H.
    cbv zeta in H. destruct H as (_ & Hexc & _ & _).
    split; [vm_compute; reflexivity|]. split; [vm_compute; reflexivity|].
    apply (Hexc (mk_exn RuntimeError (lit "resolver unavailable")));
      vm_compute; reflexivity.
  - pose proof (browse_indexed_reference_doi_never_404 sample.settings
                  sample.interrupted_backend sample.bare_request
                  (lit "10.1000%2F182") []) as H.
    cbv zeta in H. destruct H as (Htry & _ & _ & Hraise).
    split; [vm_compute; reflexivity|].
    split; [apply Htry; vm_compute; reflexivity|].
    split; [vm_compute; reflexivity|].
    apply (Hraise _ []). vm_compute. reflexivity.
Defined.

(** C7 on the sample data: the dataset [rfcs] has 45 citations, the third
    page shows the last five, among them the citation of index 44. *)
Lemma indexed_dataset_list_view_witness :
  ({[ "dataset_id"%string := lit "rfcs" ]} : gmap string pystr)
    !! "dataset_id"%string = Some (lit "rfcs")
  ∧ Paginator.page (list_refs sample.backend (lit "rfcs")) paginate_by 3
    = Some (replicate 5 sample.rfc1)
  ∧ (∃ context,
       ListView_get sample.settings sample.backend
         {[ "dataset_id"%string := lit "rfcs" ]} sample.bare_request 3 []
       = (Return (TemplateResponse "browse/dataset.html" context), [])
       ∧ context !! "dataset_id"%string = Some (CStr (lit "rfcs"))
       ∧ context !! "object_list"%string
         = Some (CRefs (replicate 5 sample.rfc1)))
  ∧ list_refs sample.backend (lit "rfcs") !! 44%nat = Some sample.rfc1
  ∧ ∃ objects,
      Paginator.page (list_refs sample.backend (lit "rfcs")) paginate_by
        (Z.of_nat (44 / 20) + 1) = Some objects
      ∧ objects !! (44 mod 20)%nat = Some sample.rfc1.
Proof.
  pose proof (indexed_dataset_list_view sample.settings sample.backend
                sample.bare_request {[ "dataset_id"%string := lit "rfcs" ]}
                (lit "rfcs") []) as H.
  cbv zeta in H. destruct H as (_ & _ & Hpage & Hindex); [reflexivity|].
  split; [reflexivity|]. split; [vm_compute; reflexivity|]. split.
  - destruct (Hpage 3 (replicate 5 sample.rfc1))
      as (_ & _ & context & Hview & Hid & Hobjects & _);
      [vm_compute; reflexivity|].
    exists context. split; [exact Hview|]. split; [exact Hid|exact Hobjects].
  - split; [vm_compute; reflexivity|].
    apply (Hindex 44%nat sample.rfc1). vm_compute. reflexivity.
Defined.

(** C9 on the sample data: the form submitted with the ID [RFC 1] is
    redirected to the path [IETF/RFC+1], which shows the citation that the
    form found. *)
Lemma quote_plus_redirect_roundtrip_witness :
  Forall urllib.code_point (lit "RFC 1")
  ∧ Forall urllib.unicode_scalar (lit "RFC 1")
  ∧ urllib.quote_plus (lit "RFC 1") = Return (lit "RFC+1")
  ∧ urllib.unquote_plus (lit "RFC+1") = lit "RFC 1"
  ∧ search_refs_relaton_struct sample.backend
      (docid_query (lit "IETF") (lit "RFC 1")) = [sample.rfc1]
  ∧ ∃ quoted,
      browse_citation_by_docid sample.settings sample.backend
        sample.docid_form_request_1 None None []
      = (Return (RedirectToView "browse_citation_by_docid"
                   [lit "IETF"; quoted]), [])
      ∧ urllib.unquote_plus quoted = lit "RFC 1"
      ∧ ∃ context,
          browse_citation_by_docid sample.settings sample.backend
            sample.bare_request (Some (lit "IETF")) (Some quoted) []
          = (Return (TemplateResponse "browse/citation_details.html"
                       context), [])
          ∧ context !! "dataset_id"%string
            = Some (CStr (dataset sample.rfc1))
          ∧ context !! "ref"%string = Some (CStr (ref sample.rfc1))
          ∧ context !! "data"%string = Some (CData (body sample.rfc1)).
Proof.
  assert (Forall urllib.unicode_scalar (lit "RFC 1")) as Hscalar.
  { change (lit "RFC 1") with [82; 70; 67; 32; 49].
    repeat (constructor; [unfold urllib.unicode_scalar; lia|]).
    constructor. }
  assert (Forall urllib.code_point (lit "RFC 1")) as Hcp.
  { eapply Forall_impl; [exact Hscalar|]. by intros c [? _]. }
  destruct (quote_plus_redirect_roundtrip sample.settings sample.backend
              sample.docid_form_request_1 sample.bare_request
              (lit "RFC 1") [] [] Hcp) as (Hback & _ & Hview).
  split; [exact Hcp|]. split; [exact Hscalar|].
  split; [vm_compute; reflexivity|].
  split; [apply Hback; vm_compute; reflexivity|].
  split; [vm_compute; reflexivity|].
  apply (Hview None None (lit "IETF") sample.rfc1);
    [reflexivity|vm_compute; reflexivity|vm_compute; reflexivity
    |discriminate|discriminate|exact Hscalar|vm_compute; reflexivity].
Defined.

(** C2 as stated fails: the search form submitted with an ID that has no
    match is answered with a redirect, not a 404. *)
Lemma not_found_form_fallback_redirects :
  search_refs_relaton_struct sample.backend
    (docid_query (lit "IETF") (lit "RFC 9999")) = []
  ∧ ∃ response msgs,
      browse_citation_by_docid sample.settings sample.backend
        sample.docid_form_request None None [] = (Return response, msgs)
      ∧ response = RedirectResponse (lit "/search")
      ∧ status_code response = Some 302
      ∧ status_code response ≠ Some 404.
Proof.
  split; [vm_compute; reflexivity|].
  eexists _, _. split; [vm_compute; reflexivity|].
  split; [reflexivity|]. split; [reflexivity|]. discriminate.
Qed.

(** C2, amended, on the sample data: the path [IETF/RFC1] has two
    matches, the reference [RFC9999] is not indexed, and the search form
    finds nothing for [RFC 9999]: sent from the page [/search] or from
    [https://bib.ietf.org/] it is answered with a redirect to that page,
    sent with the referer [javascript:alert(1)] it ends with
    [DisallowedRedirect]. *)
Lemma no_unique_match_responses_witness :
  (lit "IETF" ≠ [] ∧ lit "RFC1" ≠ []
   ∧ length (search_refs_relaton_struct sample.backend
               (docid_query (lit "IETF")
                  (urllib.unquote_plus (lit "RFC1")))) ≠ 1%nat
   ∧ browse_citation_by_docid sample.settings sample.backend
       sample.docid_form_request (Some (lit "IETF")) (Some (lit "RFC1")) []
     = (Return (HttpResponseNotFound
                  (multiple_found_text (lit "IETF") (lit "RFC1"))), []))
  ∧ (lit "rfcs" ≠ lit "doi"
     ∧ get_indexed_ref sample.backend (lit "rfcs")
         (urllib.unquote_plus (lit "RFC9999"))
       = Raise (mk_exn RefNotFoundError (lit "no such reference"))
     ∧ browse_indexed_reference sample.settings sample.backend
         sample.docid_form_request (lit "rfcs") (lit "RFC9999") []
       = (Raise (mk_exn Http404
                   (reference_not_found_text (lit "RFC9999") (lit "rfcs"))),
          []))
  ∧ (truthy None && truthy None = false
     ∧ QueryDict_get (lit "doctype") (GET sample.docid_form_request)
       = Some (lit "IETF")
     ∧ QueryDict_get (lit "docid") (GET sample.docid_form_request)
       = Some (lit "RFC 9999")
     ∧ length (search_refs_relaton_struct sample.backend
                 (docid_query (lit "IETF") (lit "RFC 9999"))) ≠ 1%nat
     ∧ iri_to_uri (referer sample.docid_form_request)
       = Return (lit "/search")
     ∧ urlparse sample.backend (referer sample.docid_form_request)
       = Return (urllib.mk_split [] [])
     ∧ browse_citation_by_docid sample.settings sample.backend
         sample.docid_form_request None None []
       = (Return (RedirectResponse (lit "/search")),
          [mk_message ERROR
             (no_reliable_match_text (lit "IETF") (lit "RFC 9999") 0)]))
  ∧ (iri_to_uri
       (referer (sample.docid_form_request_from (lit "https://bib.ietf.org/")))
     = Return (lit "https://bib.ietf.org/")
     ∧ urlparse sample.backend
         (referer
            (sample.docid_form_request_from (lit "https://bib.ietf.org/")))
       = Return (urllib.mk_split (lit "https") (lit "bib.ietf.org"))
     ∧ lit "https" ∈ allowed_schemes
     ∧ browse_citation_by_docid sample.settings sample.backend
         (sample.docid_form_request_from (lit "https://bib.ietf.org/"))
         None None []
       = (Return (RedirectResponse (lit "https://bib.ietf.org/")),
          [mk_message ERROR
             (no_reliable_match_text (lit "IETF") (lit "RFC 9999") 0)]))
  ∧ (urlparse sample.backend
       (referer (sample.docid_form_request_from (lit "javascript:alert(1)")))
     = Return (urllib.mk_split (lit "javascript") [])
     ∧ lit "javascript" ≠ []
     ∧ (lit "javascript" ∉ allowed_schemes)
     ∧ browse_citation_by_docid sample.settings sample.backend
         (sample.docid_form_request_from (lit "javascript:alert(1)"))
         None None []
       = (Raise (mk_exn DisallowedRedirect
                   (lit "Unsafe redirect to URL with protocol 'javascript'")),
          [mk_message ERROR
             (no_reliable_match_text (lit "IETF") (lit "RFC 9999") 0)])).
Proof.
  destruct (no_unique_match_responses sample.settings sample.backend
              sample.docid_form_request []) as (Hpath & Hindexed & Hform).
  destruct (no_unique_match_responses sample.settings sample.backend
              (sample.docid_form_request_from (lit "javascript:alert(1)"))
              []) as (_ & _ & Hform').
  destruct (no_unique_match_responses sample.settings sample.backend
              (sample.docid_form_request_from (lit "https://bib.ietf.org/"))
              []) as (_ & _ & Hform'').
  assert (lit "javascript" ∉ allowed_schemes) as Hnot.
  { apply (bool_decide_unpack (lit "javascript" ∉ allowed_schemes)).
    vm_compute. exact I. }
  assert (lit "https" ∈ allowed_schemes) as Hin.
  { apply (bool_decide_unpack (lit "https" ∈ allowed_schemes)).
    vm_compute. exact I. }
  split; [|split; [|split; [|split]]].
  - split; [discriminate|]. split; [discriminate|].
    split; [vm_compute; discriminate|].
    apply (Hpath (lit "IETF") (lit "RFC1"));
      [discriminate|discriminate|vm_compute; discriminate].
  - split; [discriminate|]. split; [vm_compute; reflexivity|].
    apply (Hindexed (lit "rfcs") (lit "RFC9999")
             (mk_exn RefNotFoundError (lit "no such reference")));
      [discriminate|vm_compute; reflexivity|reflexivity].
  - split; [reflexivity|]. split; [vm_compute; reflexivity|].
    split; [vm_compute; reflexivity|]. split; [vm_compute; discriminate|].
    split; [vm_compute; reflexivity|]. split; [vm_compute; reflexivity|].
    pose proof (Hform None None (lit "IETF") (lit "RFC 9999")) as H.
    cbv zeta in H.
    destruct H as (_ & _ & Hparsed & _);
      [reflexivity|vm_compute; reflexivity|vm_compute; reflexivity
      |discriminate|discriminate|vm_compute; discriminate|].
    destruct (Hparsed (lit "/search") (urllib.mk_split [] []))
      as [Haccepted _]; [vm_compute; reflexivity..|].
    destruct Haccepted as [Hr _]; [left; reflexivity|]. exact Hr.
  - split; [vm_compute; reflexivity|]. split; [vm_compute; reflexivity|].
    split; [exact Hin|].
    pose proof (Hform'' None None (lit "IETF") (lit "RFC 9999")) as H.
    cbv zeta in H.
    destruct H as (_ & _ & Hparsed & _);
      [reflexivity|vm_compute; reflexivity|vm_compute; reflexivity
      |discriminate|discriminate|vm_compute; discriminate|].
    destruct (Hparsed (lit "https://bib.ietf.org/")
                (urllib.mk_split (lit "https") (lit "bib.ietf.org")))
      as [Haccepted _]; [vm_compute; reflexivity..|].
    destruct Haccepted as [Hr _]; [right; exact Hin|]. exact Hr.
  - split; [vm_compute; reflexivity|]. split; [discriminate|].
    split; [exact Hnot|].
    pose proof (Hform' None None (lit "IETF") (lit "RFC 9999")) as H.
    cbv zeta in H.
    destruct H as (_ & _ & Hparsed & _);
      [reflexivity|vm_compute; reflexivity|vm_compute; reflexivity
      |discriminate|discriminate|vm_compute; discriminate|].
    destruct (Hparsed (lit "javascript:alert(1)")
                (urllib.mk_split (lit "javascript") []))
      as [_ Hrefused]; [vm_compute; reflexivity..|].
    apply Hrefused; [discriminate|exact Hnot].
Defined.

(** C3 as stated fails: when the resolver is out of reach, the form
    fallback of [browse_external_reference] answers with a redirect and a
    flash message, not with the server-error page. *)
Lemma resolver_failure_form_fallback_redirects :
  get_doi_ref sample.backend (lit "10.1000/down")
  = Raise (mk_exn RuntimeError (lit "resolver unavailable"))
  ∧ ∃ response msgs,
      browse_external_reference sample.settings sample.backend
        (sample.ref_form_request (lit "10.1000/down")) (lit "doi") None []
      = (Return response, msgs)
      ∧ response = RedirectResponse (lit "/")
      ∧ response ≠ ServerErrorPage.
Proof.
  split; [vm_compute; reflexivity|].
  eexists _, _. split; [vm_compute; reflexivity|].
  split; [reflexivity|discriminate].
Qed.

(** C3, amended, on the sample data: the resolver is out of reach for
    [10.1000/down]; the form sent without a referer header is answered
    with a redirect to [/], sent with the referer [javascript:alert(1)]
    it ends with [DisallowedRedirect]. *)
Lemma get_doi_ref_failure_responses_witness :
  let e := mk_exn RuntimeError (lit "resolver unavailable") in
  let request := sample.ref_form_request (lit "10.1000/down") in
  let unsafe :=
    sample.ref_form_request_from (lit "10.1000/down")
      (lit "javascript:alert(1)") in
  let stored :=
    [mk_message ERROR
       (lit "Couldn" ++ [0x2019] ++ lit "t retrieve citation: "
          ++ lit "resolver unavailable")] in
  isinstance (rnf_runtime sample.backend) e PyException = true
  ∧ isinstance (rnf_runtime sample.backend) e RuntimeError = true
  ∧ get_doi_ref sample.backend (urllib.unquote_plus (lit "10.1000%2Fdown"))
    = Raise e
  ∧ get_doi_ref sample.backend (lit "10.1000/down") = Raise e
  ∧ QueryDict_get (lit "ref") (GET request) = Some (lit "10.1000/down")
  ∧ headers request !! "referer"%string = None
  ∧ browse_external_reference sample.settings sample.backend request
      (lit "doi") (Some (lit "10.1000%2Fdown")) []
    = (Return ServerErrorPage, [])
  ∧ browse_indexed_reference sample.settings sample.backend request
      (lit "doi") (lit "10.1000%2Fdown") []
    = (Return ServerErrorPage, [])
  ∧ browse_external_reference sample.settings sample.backend request
      (lit "doi") None []
    = (Return (RedirectResponse (lit "/")), stored)
  ∧ urlparse sample.backend (referer unsafe)
    = Return (urllib.mk_split (lit "javascript") [])
  ∧ (lit "javascript" ∉ allowed_schemes)
  ∧ browse_external_reference sample.settings sample.backend unsafe
      (lit "doi") None []
    = (Raise (mk_exn DisallowedRedirect
                (lit "Unsafe redirect to URL with protocol 'javascript'")),
       stored).
Proof.
  intros e request unsafe stored.
  destruct (get_doi_ref_failure_responses sample.settings sample.backend
              request e []) as (Hpath & Hindexed & Hform).
  destruct (get_doi_ref_failure_responses sample.settings sample.backend
              unsafe e []) as (_ & _ & Hform').
  assert (lit "javascript" ∉ allowed_schemes) as Hnot.
  { apply (bool_decide_unpack (lit "javascript" ∉ allowed_schemes)).
    vm_compute. exact I. }
  split; [vm_compute; reflexivity|]. split; [vm_compute; reflexivity|].
  split; [vm_compute; reflexivity|]. split; [vm_compute; reflexivity|].
  split; [vm_compute; reflexivity|]. split; [reflexivity|].
  split; [|split; [|split; [|split; [|split]]]].
  - apply Hpath; [discriminate|vm_compute; reflexivity..].
  - apply Hindexed; vm_compute; reflexivity.
  - pose proof (Hform None (lit "10.1000/down")) as H. cbv zeta in H.
    destruct H as (_ & Hdefault & _);
      [reflexivity|vm_compute; reflexivity|discriminate
      |vm_compute; reflexivity..|].
    apply Hdefault. reflexivity.
  - vm_compute. reflexivity.
  - exact Hnot.
  - pose proof (Hform' None (lit "10.1000/down")) as H. cbv zeta in H.
    destruct H as (_ & _ & Hparsed & _);
      [reflexivity|vm_compute; reflexivity|discriminate
      |vm_compute; reflexivity..|].
    destruct (Hparsed (lit "javascript:alert(1)")
                (urllib.mk_split (lit "javascript") []))
      as [_ Hrefused]; [vm_compute; reflexivity..|].
    apply Hrefused; [discriminate|exact Hnot].
Defined.

(** C4 as stated fails: in the path-based branch an unsupported dataset
    is answered with a 400, with no flash message and no redirect. *)
Lemma unsupported_dataset_path_bad_request :
  (lit "arxiv" ∉ EXTERNAL_DATASETS sample.settings)
  ∧ lit "arxiv" ≠ lit "doi"
  ∧ ∃ response msgs,
      browse_external_reference sample.settings sample.backend
        sample.docid_form_request (lit "arxiv") (Some (lit "1234")) []
      = (Return response, msgs)
      ∧ msgs = []
      ∧ status_code response = Some 400
      ∧ ∀ location, response ≠ RedirectResponse location.
Proof.
  split.
  { apply (bool_decide_unpack
             (lit "arxiv" ∉ EXTERNAL_DATASETS sample.settings)).
    vm_compute. exact I. }
  split; [discriminate|].
  eexists _, _. split; [vm_compute; reflexivity|].
  split; [reflexivity|]. split; [reflexivity|]. discriminate.
Qed.

(** C4, amended, on the sample data: the form for the dataset [arxiv]
    sent without a referer header is answered with a redirect to [/], sent
    with the referer [javascript:alert(1)] it ends with
    [DisallowedRedirect]; the path [arxiv/1234] is answered with a 400. *)
Lemma unsupported_external_dataset_responses_witness :
  let request := sample.ref_form_request (lit "1234") in
  let unsafe :=
    sample.ref_form_request_from (lit "1234") (lit "javascript:alert(1)") in
  let stored :=
    [mk_message ERROR (lit "Unknown external dataset arxiv");
     mk_message ERROR (lit "Unsupported external dataset arxiv")] in
  lit "arxiv" ≠ lit "doi"
  ∧ QueryDict_get (lit "ref") (GET request) = Some (lit "1234")
  ∧ headers request !! "referer"%string = None
  ∧ headers sample.docid_form_request !! "referer"%string
    = Some (lit "/search")
  ∧ browse_external_reference sample.settings sample.backend request
      (lit "arxiv") None []
    = (Return (RedirectResponse (lit "/")), stored)
  ∧ urlparse sample.backend (referer unsafe)
    = Return (urllib.mk_split (lit "javascript") [])
  ∧ (lit "javascript" ∉ allowed_schemes)
  ∧ browse_external_reference sample.settings sample.backend unsafe
      (lit "arxiv") None []
    = (Raise (mk_exn DisallowedRedirect
                (lit "Unsafe redirect to URL with protocol 'javascript'")),
       stored)
  ∧ referer request = lit "/"
  ∧ referer sample.docid_form_request = lit "/search"
  ∧ browse_external_reference sample.settings sample.backend request
      (lit "arxiv") (Some (lit "1234")) []
    = (Return (HttpResponseBadRequest
                 (lit "Unsupported external dataset ID")), []).
Proof.
  intros request unsafe stored.
  destruct (unsupported_external_dataset_responses sample.settings
              sample.backend request (lit "arxiv") [])
    as (Hform & Hdefault & _ & Hpath); [discriminate|].
  destruct (unsupported_external_dataset_responses sample.settings
              sample.backend unsafe (lit "arxiv") [])
    as (Hform' & _ & _ & _); [discriminate|].
  destruct (unsupported_external_dataset_responses sample.settings
              sample.backend sample.docid_form_request (lit "arxiv") [])
    as (_ & _ & Hgiven & _); [discriminate|].
  assert (lit "javascript" ∉ allowed_schemes) as Hnot.
  { apply (bool_decide_unpack (lit "javascript" ∉ allowed_schemes)).
    vm_compute. exact I. }
  split; [discriminate|]. split; [vm_compute; reflexivity|].
  split; [reflexivity|]. split; [reflexivity|].
  split; [|split; [|split; [|split; [|split; [|split]]]]].
  - pose proof (Hform None (lit "1234")) as H. cbv zeta in H.
    destruct H as (_ & Hroot & _);
      [reflexivity|vm_compute; reflexivity|discriminate|].
    apply Hroot. reflexivity.
  - vm_compute. reflexivity.
  - exact Hnot.
  - pose proof (Hform' None (lit "1234")) as H. cbv zeta in H.
    destruct H as (_ & _ & Hparsed & _);
      [reflexivity|vm_compute; reflexivity|discriminate|].
    destruct (Hparsed (lit "javascript:alert(1)")
                (urllib.mk_split (lit "javascript") []))
      as [_ Hrefused]; [vm_compute; reflexivity..|].
    apply Hrefused; [discriminate|exact Hnot].
  - apply Hdefault. reflexivity.
  - apply Hgiven. reflexivity.
  - apply Hpath. discriminate.
Defined.

(** * Further properties of the views *)

(** ** Calls of [dict] *)

Section dict_facts.

Implicit Types (args : list dict_arg) (context m : Context).

Lemma py_dict_Return args context :
  py_dict args = Return context →
  NoDup (args ≫= dict_arg_items).*1
  ∧ context = list_to_map (args ≫= dict_arg_items).
Proof.
  unfold py_dict. case_bool_decide; [|discriminate].
  intros [= <-]. by split.
Qed.

Lemma py_dict_NoDup args :
  NoDup (args ≫= dict_arg_items).*1 →
  py_dict args = Return (list_to_map (args ≫= dict_arg_items)).
Proof. intros. unfold py_dict. by rewrite bool_decide_eq_true_2. Qed.

Lemma py_dict_clash args :
  ¬ NoDup (args ≫= dict_arg_items).*1 →
  ∃ e, py_dict args = Raise e ∧ exc_type e = TypeError.
Proof.
  intros. unfold py_dict. rewrite bool_decide_eq_false_2 by assumption.
  by eexists.
Qed.

Lemma py_dict_item args context k v :
  py_dict args = Return context →
  (k, v) ∈ args ≫= dict_arg_items → context !! k = Some v.
Proof.
  intros [Hnd ->]%py_dict_Return Hin.
  by apply elem_of_list_to_map_1.
Qed.

Lemma py_dict_Kw args context k v :
  py_dict args = Return context → Kw k v ∈ args → context !! k = Some v.
Proof.
  intros Hd Hin. apply (py_dict_item _ _ _ _ Hd).
  apply list_elem_of_bind. exists (Kw k v). split; [|exact Hin].
  apply list_elem_of_singleton. reflexivity.
Qed.

Lemma py_dict_StarStar args context m :
  py_dict args = Return context → StarStar m ∈ args → m ⊆ context.
Proof.
  intros Hd Hin. apply map_subseteq_spec. intros k v Hk.
  apply (py_dict_item _ _ _ _ Hd).
  apply list_elem_of_bind. exists (StarStar m). split; [|exact Hin].
  by apply elem_of_map_to_list.
Qed.

Lemma map_to_list_key m k :
  k ∈ (map_to_list m).*1 ↔ is_Some (m !! k).
Proof.
  rewrite list_elem_of_fmap. split.
  - intros ([k' v] & -> & Hin). apply elem_of_map_to_list in Hin. by exists v.
  - intros [v Hv]. exists (k, v). split; [reflexivity|].
    by apply elem_of_map_to_list.
Qed.

(** A call of [dict] on two mappings. *)
Lemma py_dict_two_mappings m1 m2 :
  (m1 ##ₘ m2 → py_dict [StarStar m1; StarStar m2] = Return (m1 ∪ m2))
  ∧ (¬ m1 ##ₘ m2 →
     ∃ e, py_dict [StarStar m1; StarStar m2] = Raise e
          ∧ exc_type e = TypeError).
Proof.
  assert (NoDup ([StarStar m1; StarStar m2] ≫= dict_arg_items).*1
          ↔ m1 ##ₘ m2) as Hnd.
  { cbn [mbind list_bind dict_arg_items]. rewrite app_nil_r, fmap_app.
    rewrite NoDup_app, map_disjoint_spec. split.
    - intros (_ & Hdisj & _) k v1 v2 H1 H2.
      apply (Hdisj k); apply map_to_list_key; by eexists.
    - intros Hdisj. split; [apply NoDup_fst_map_to_list|].
      split; [|apply NoDup_fst_map_to_list].
      intros k [v1 H1]%map_to_list_key [v2 H2]%map_to_list_key.
      by apply (Hdisj k v1 v2). }
  split.
  - intros Hdisj. rewrite py_dict_NoDup by by apply Hnd.
    cbn [mbind list_bind dict_arg_items].
    by rewrite app_nil_r, list_to_map_app, !list_to_map_to_list.
  - intros Hdisj. apply py_dict_clash. by rewrite Hnd.
Qed.

End dict_facts.

(** ** The outcomes of the views *)

Section outcome_facts.

Context (settings : Settings) (backend : Backend).

Ltac keys_no_dup :=
  match goal with
  | |- context [bool_decide (NoDup ?l)] =>
      replace (bool_decide (NoDup l)) with true by (vm_compute; reflexivity)
  end.

Lemma truthy_true o : truthy o = true → ∃ s, o = Some s ∧ s ≠ [] ∧ text o = s.
Proof. destruct o as [[|c s]|]; [discriminate| |discriminate]. by eexists. Qed.

(** What [render] returns. *)
Lemma render_Return template_name args context msgs :
  py_dict args = Return context →
  render template_name args msgs
  = (Return (TemplateResponse template_name context), msgs).
Proof. intros Hd. unfold render. by rewrite Hd. Qed.

(** The context of [dataset.html] as [external_dataset] builds it. *)
Lemma dataset_page d msgs :
  ∃ context,
    render "browse/dataset.html"
      [ Kw "dataset_id" d; StarStar (shared_context settings) ] msgs
    = (Return (TemplateResponse "browse/dataset.html" context), msgs)
    ∧ context !! "dataset_id"%string = Some d
    ∧ shared_context settings ⊆ context.
Proof.
  assert (∃ context,
            py_dict [ Kw "dataset_id" d; StarStar (shared_context settings) ]
            = Return context) as [context Hd].
  { eexists. unfold py_dict. keys_no_dup. reflexivity. }
  exists context. split; [by apply render_Return|]. split.
  - eapply py_dict_Kw; [exact Hd|]. repeat constructor.
  - eapply py_dict_StarStar; [exact Hd|]. repeat constructor.
Qed.

(** X1. [external_dataset] checks nothing: for every dataset ID, listed
    in the settings or not, it answers with the page [dataset.html], whose
    context carries that ID and the whole shared context, and it stores no
    flash message. *)
Theorem external_dataset_any_dataset
    (request : HttpRequest) (dataset_id : pystr) msgs :
  ∃ context,
    external_dataset settings request dataset_id msgs
    = (Return (TemplateResponse "browse/dataset.html" context), msgs)
    ∧ status_code (TemplateResponse "browse/dataset.html" context)
      = Some 200
    ∧ context !! "dataset_id"%string = Some (CStr dataset_id)
    ∧ shared_context settings ⊆ context.
Proof.
  destruct (dataset_page (CStr dataset_id) msgs) as (context & Hr & ? & ?).
  exists context. unfold external_dataset. rewrite Hr.
  repeat split; assumption.
Qed.


(** Every way [browse_external_reference] can end. *)
Lemma browse_external_reference_cases
    (request : HttpRequest) (dataset_id : pystr) (ref : option pystr) msgs :
  let response :=
    browse_external_reference settings backend request dataset_id ref msgs in
  let form_ref := QueryDict_get (lit "ref") (GET request) in
  let msgs1 :=
    msgs ++ if bool_decide (dataset_id ∉ EXTERNAL_DATASETS settings)
            then [mk_message ERROR
                    (lit "Unknown external dataset " ++ dataset_id)]
            else [] in
  (truthy ref = true →
   (dataset_id ≠ lit "doi" →
    response
    = (Return (HttpResponseBadRequest
                 (lit "Unsupported external dataset ID")), msgs))
   ∧ (dataset_id = lit "doi" →
      match get_doi_ref backend (urllib.unquote_plus (text ref)) with
      | Return data =>
          ∃ context,
            response
            = (Return (TemplateResponse "browse/citation_details.html"
                         context), msgs)
            ∧ context !! "dataset_id"%string = Some (CStr dataset_id)
            ∧ context !! "ref"%string = Some (CStr (text ref))
            ∧ context !! "data"%string = Some (CData data)
            ∧ shared_context settings ⊆ context
      | Raise e =>
          response
          = (if isinstance (rnf_runtime backend) e PyException
             then Return ServerErrorPage else Raise e, msgs)
      end))
  ∧ (truthy ref = false →
     (truthy form_ref = false →
      response
      = (Return (HttpResponseBadRequest
                   (lit "Missing dataset ID and/or reference")), msgs))
     ∧ (truthy form_ref = true → dataset_id ≠ lit "doi" →
        response
        = (HttpResponseRedirect backend (referer request),
           msgs1 ++ [mk_message ERROR
                       (lit "Unsupported external dataset " ++ dataset_id)]))
     ∧ (truthy form_ref = true → dataset_id = lit "doi" →
        match get_doi_ref backend (text form_ref) with
        | Raise e =>
            response
            = if isinstance (rnf_runtime backend) e RuntimeError
              then (HttpResponseRedirect backend (referer request),
                    msgs1 ++ [mk_message ERROR
                                (lit "Couldn" ++ [0x2019]
                                   ++ lit "t retrieve citation: "
                                   ++ exc_str e)])
              else (Raise e, msgs1)
        | Return _ =>
            response
            = (match urllib.quote_plus (text form_ref) with
               | Return quoted =>
                   Return (RedirectToView "browse_citation"
                             [dataset_id; quoted])
               | Raise e => Raise e
               end, msgs1)
        end)).
Proof.
  intros response form_ref msgs1. subst response msgs1.
  unfold browse_external_reference. fold form_ref. split.
  - intros ->. split.
    + intros Hds. by rewrite bool_decide_eq_false_2.
    + intros Hds. rewrite bool_decide_eq_true_2 by assumption.
      destruct (get_doi_ref backend _) as [data|e].
      * destruct (render_details settings (CStr dataset_id)
                    (CStr (text ref)) (CData data) msgs)
          as (context & Hr & ? & ? & ? & ?).
        exists context. rewrite Hr. repeat split; assumption.
      * by destruct (isinstance _ e PyException).
  - intros ->. split; [|split].
    + by intros ->.
    + intros -> Hds. cbn [negb]. rewrite unknown_dataset_message.
      by rewrite bool_decide_eq_false_2.
    + intros Hform Hds. rewrite Hform. cbn [negb].
      rewrite unknown_dataset_message.
      rewrite bool_decide_eq_true_2 by assumption.
      destruct (get_doi_ref backend _) as [data|e].
      * by destruct (urllib.quote_plus _).
      * by destruct (isinstance _ e RuntimeError).
Qed.

(** Every way [browse_citation_by_docid] can end. *)
Lemma browse_citation_by_docid_cases
    (request : HttpRequest) (doctype docid : option pystr) msgs :
  let response :=
    browse_citation_by_docid settings backend request doctype docid msgs in
  let form_doctype := QueryDict_get (lit "doctype") (GET request) in
  let form_docid := QueryDict_get (lit "docid") (GET request) in
  (truthy doctype && truthy docid = true →
   let citations :=
     search_refs_relaton_struct backend
       (docid_query (text doctype) (urllib.unquote_plus (text docid))) in
   (∀ citation, citations = [citation] →
      ∃ context,
        response
        = (Return (TemplateResponse "browse/citation_details.html" context),
           msgs)
        ∧ context !! "dataset_id"%string = Some (CStr (dataset citation))
        ∧ context !! "ref"%string = Some (CStr (ref citation))
        ∧ context !! "data"%string = Some (CData (body citation))
        ∧ shared_context settings ⊆ context)
   ∧ (citations = [] →
      response
      = (Return (HttpResponseNotFound
                   (not_found_text (text doctype) (text docid))), msgs))
   ∧ ((1 < length citations)%nat →
      response
      = (Return (HttpResponseNotFound
                   (multiple_found_text (text doctype) (text docid))),
         msgs)))
  ∧ (truthy doctype && truthy docid = false →
     (truthy form_doctype && truthy form_docid = false →
      response
      = (Return (HttpResponseBadRequest
                   (lit "Missing document type and/or ID")), msgs))
     ∧ (truthy form_doctype && truthy form_docid = true →
        let citations :=
          search_refs_relaton_struct backend
            (docid_query (text form_doctype) (text form_docid)) in
        (length citations = 1%nat →
         response
         = (match urllib.quote_plus (text form_docid) with
            | Return quoted =>
                Return (RedirectToView "browse_citation_by_docid"
                          [text form_doctype; quoted])
            | Raise e => Raise e
            end, msgs))
        ∧ (length citations ≠ 1%nat →
           response
           = (HttpResponseRedirect backend (referer request),
              msgs ++ [mk_message ERROR
                         (no_reliable_match_text (text form_doctype)
                            (text form_docid) (length citations))])))).
Proof.
  intros response form_doctype form_docid. subst response.
  unfold browse_citation_by_docid. fold form_doctype form_docid. split.
  - intros ->. cbv zeta. split; [|split].
    + intros citation ->. cbn [length].
      rewrite bool_decide_eq_true_2 by reflexivity.
      rewrite subscript_head, bind_lift_Return.
      destruct (render_details settings (CStr (dataset citation))
                  (CStr (ref citation)) (CData (body citation)) msgs)
        as (context & Hr & ? & ? & ? & ?).
      exists context. rewrite Hr. repeat split; assumption.
    + intros ->. reflexivity.
    + intros Hlen.
      rewrite bool_decide_eq_false_2 by lia.
      by rewrite bool_decide_eq_false_2 by lia.
  - intros ->. split.
    + intros Hform.
      replace (negb (truthy form_doctype) || negb (truthy form_docid))
        with true; [reflexivity|].
      by destruct (truthy form_doctype), (truthy form_docid).
    + intros Hform. apply andb_true_iff in Hform as [-> ->].
      cbn [negb orb]. cbv zeta. split.
      * intros Hlen. rewrite bool_decide_eq_true_2 by assumption.
        by destruct (urllib.quote_plus _).
      * intros Hlen. by rewrite bool_decide_eq_false_2.
Qed.

(** Every way [browse_indexed_reference] can end. *)
Lemma browse_indexed_reference_cases
    (request : HttpRequest) (dataset_id ref : pystr) msgs :
  let response :=
    browse_indexed_reference settings backend request dataset_id ref msgs in
  let found :=
    if bool_decide (dataset_id = lit "doi")
    then get_doi_ref backend (urllib.unquote_plus ref)
    else get_indexed_ref backend dataset_id (urllib.unquote_plus ref) in
  match found with
  | Return data =>
      ∃ context,
        response
        = (Return (TemplateResponse "browse/citation_details.html" context),
           msgs)
        ∧ context !! "dataset_id"%string = Some (CStr dataset_id)
        ∧ context !! "ref"%string = Some (CStr ref)
        ∧ context !! "data"%string = Some (CData data)
        ∧ shared_context settings ⊆ context
  | Raise e =>
      response
      = (if bool_decide (dataset_id = lit "doi")
         then if isinstance (rnf_runtime backend) e PyException
              then Return ServerErrorPage else Raise e
         else if isinstance (rnf_runtime backend) e RefNotFoundError
              then Raise (mk_exn Http404
                            (reference_not_found_text
                               (urllib.unquote_plus ref) dataset_id))
              else Raise e, msgs)
  end.
Proof.
  intros response found. subst response found.
  unfold browse_indexed_reference, indexed_reference_try.
  assert (∀ data,
    ∃ context,
      render "browse/citation_details.html"
        [ Kw "dataset_id" (CStr dataset_id); Kw "ref" (CStr ref);
          Kw "data" (CData data); StarStar (shared_context settings) ] msgs
      = (Return (TemplateResponse "browse/citation_details.html" context),
         msgs)
      ∧ context !! "dataset_id"%string = Some (CStr dataset_id)
      ∧ context !! "ref"%string = Some (CStr ref)
      ∧ context !! "data"%string = Some (CData data)
      ∧ shared_context settings ⊆ context) as Hrender.
  { intros data. apply render_details. }
  case_bool_decide.
  - destruct (get_doi_ref backend _) as [data|e]; [apply Hrender|].
    destruct (isinstance _ e PyException) eqn:He; [reflexivity|].
    destruct (isinstance _ e RefNotFoundError) eqn:Hrnf; [|reflexivity].
    apply RefNotFoundError_is_Exception in Hrnf. congruence.
  - destruct (get_indexed_ref backend _ _) as [data|e]; [apply Hrender|].
    by destruct (isinstance _ e RefNotFoundError).
Qed.

(** *** External references *)

(** X2. With the dataset [doi] and a reference in the URL path,
    [browse_external_reference] asks the resolver for the unquoted
    reference and, when the resolver answers, shows the citation-details
    page: its context carries the answer as [data], the reference as it
    stands in the URL as [ref], and the whole shared context; no flash
    message is stored. *)
Theorem browse_external_reference_doi_page
    (request : HttpRequest) (ref : pystr) (data : pyval) msgs :
  ref ≠ [] →
  get_doi_ref backend (urllib.unquote_plus ref) = Return data →
  ∃ context,
    browse_external_reference settings backend request
      (lit "doi") (Some ref) msgs
    = (Return (TemplateResponse "browse/citation_details.html" context),
       msgs)
    ∧ context !! "dataset_id"%string = Some (CStr (lit "doi"))
    ∧ context !! "ref"%string = Some (CStr ref)
    ∧ context !! "data"%string = Some (CData data)
    ∧ shared_context settings ⊆ context.
Proof.
  intros Href Hdata.
  destruct (browse_external_reference_cases request (lit "doi")
              (Some ref) msgs) as [Hpath _].
  destruct (Hpath (truthy_Some _ Href)) as [_ Hdoi].
  specialize (Hdoi eq_refl). cbn [text] in Hdoi.
  rewrite Hdata in Hdoi. exact Hdoi.
Qed.

(** X3. The form fallback of [browse_external_reference] for the dataset
    [doi], when the resolver answers for the submitted reference,
    redirects to the view [browse_citation] with the dataset and the
    quoted reference; the only flash message it may add is "Unknown
    external dataset doi", when the settings do not list [doi] as
    external.  The arguments of the redirect lead back to the same
    document: given them, [browse_indexed_reference] and the path-based
    branch of [browse_external_reference] ask the resolver for the
    submitted reference and show its answer. *)
Theorem browse_external_reference_form_redirect
    (request redirected : HttpRequest) (path_ref : option pystr)
    (ref : pystr) (data : pyval) msgs msgs' :
  truthy path_ref = false →
  QueryDict_get (lit "ref") (GET request) = Some ref →
  ref ≠ [] →
  Forall urllib.unicode_scalar ref →
  get_doi_ref backend ref = Return data →
  ∃ quoted,
    browse_external_reference settings backend request
      (lit "doi") path_ref msgs
    = (Return (RedirectToView "browse_citation" [lit "doi"; quoted]),
       msgs ++ if bool_decide (lit "doi" ∉ EXTERNAL_DATASETS settings)
               then [mk_message ERROR
                       (lit "Unknown external dataset " ++ lit "doi")]
               else [])
    ∧ urllib.quote_plus ref = Return quoted
    ∧ urllib.unquote_plus quoted = ref
    ∧ (∃ context,
         browse_indexed_reference settings backend redirected
           (lit "doi") quoted msgs'
         = (Return (TemplateResponse "browse/citation_details.html"
                      context), msgs')
         ∧ context !! "data"%string = Some (CData data))
    ∧ (∃ context,
         browse_external_reference settings backend redirected
           (lit "doi") (Some quoted) msgs'
         = (Return (TemplateResponse "browse/citation_details.html"
                      context), msgs')
         ∧ context !! "data"%string = Some (CData data)).
Proof.
  intros Hpath Hget Hne Hscalar Hdata.
  destruct (unquote_plus_quote_plus ref Hscalar) as (quoted & Hq & Hu & Hqne).
  exists quoted.
  destruct (browse_external_reference_cases request (lit "doi")
              path_ref msgs) as [_ Hform].
  destruct (Hform Hpath) as (_ & _ & Hdoi).
  rewrite Hget in Hdoi. specialize (Hdoi (truthy_Some _ Hne) eq_refl).
  cbn [text] in Hdoi. rewrite Hdata, Hq in Hdoi.
  split; [exact Hdoi|]. split; [exact Hq|]. split; [exact Hu|]. split.
  - pose proof (browse_indexed_reference_cases redirected (lit "doi")
                  quoted msgs') as Hcases.
    cbv zeta in Hcases.
    rewrite bool_decide_eq_true_2, Hu, Hdata in Hcases by reflexivity.
    destruct Hcases as (context & Hr & _ & _ & ? & _). by exists context.
  - destruct (browse_external_reference_cases redirected (lit "doi")
                (Some quoted) msgs') as [Hpath' _].
    destruct (Hpath' (truthy_Some _ (Hqne Hne))) as [_ Hdoi'].
    specialize (Hdoi' eq_refl). cbn [text] in Hdoi'.
    rewrite Hu, Hdata in Hdoi'.
    destruct Hdoi' as (context & Hr & _ & _ & ? & _). by exists context.
Qed.

(** X4. The form fallback of [browse_external_reference] never answers
    with the server-error page: an exception of [get_doi_ref] that is not
    a [RuntimeError] leaves the view as it is, after the flash message
    about an unknown dataset, if any. *)
Theorem browse_external_reference_form_no_server_error
    (request : HttpRequest) (dataset_id : pystr) (ref : option pystr) msgs :
  truthy ref = false →
  (browse_external_reference settings backend request dataset_id ref msgs).1
  ≠ Return ServerErrorPage
  ∧ ∀ form_ref e,
      QueryDict_get (lit "ref") (GET request) = Some form_ref →
      form_ref ≠ [] →
      dataset_id = lit "doi" →
      get_doi_ref backend form_ref = Raise e →
      isinstance (rnf_runtime backend) e RuntimeError = false →
      browse_external_reference settings backend request dataset_id ref msgs
      = (Raise e,
         msgs ++ if bool_decide (dataset_id ∉ EXTERNAL_DATASETS settings)
                 then [mk_message ERROR
                         (lit "Unknown external dataset " ++ dataset_id)]
                 else []).
Proof.
  intros Hpath.
  destruct (browse_external_reference_cases request dataset_id ref msgs)
    as [_ Hform].
  destruct (Hform Hpath) as (Hmissing & Hother & Hdoi). split.
  - destruct (truthy (QueryDict_get (lit "ref") (GET request))) eqn:Hget.
    + destruct (decide (dataset_id = lit "doi")) as [Hds|Hds].
      * specialize (Hdoi eq_refl Hds).
        destruct (get_doi_ref backend _) as [data|e].
        -- rewrite Hdoi. by destruct (urllib.quote_plus _).
        -- rewrite Hdoi.
           destruct (isinstance _ e RuntimeError); [|discriminate].
           intros Hr.
           by apply HttpResponseRedirect_Return in Hr as (? & _ & ?).
      * rewrite (Hother eq_refl Hds). intros Hr.
        by apply HttpResponseRedirect_Return in Hr as (? & _ & ?).
    + by rewrite (Hmissing eq_refl).
  - intros form_ref e Hget Hne Hds Hraise He.
    rewrite Hget in Hdoi. specialize (Hdoi (truthy_Some _ Hne) Hds).
    cbn [text] in Hdoi. by rewrite Hraise, He in Hdoi.
Qed.

Lemma first_character_differs (a b : Z) (s t : pystr) lvl :
  a ≠ b → mk_message lvl (a :: s) ≠ mk_message lvl (b :: t).
Proof. congruence. Qed.

(** X5. [browse_external_reference] only adds flash messages, at most
    two to a request, all of level [ERROR], and none when the reference
    is in the URL path.  The message "Missing reference to fetch {}" is
    never among them: the branch that would add it is out of reach. *)
Theorem browse_external_reference_messages
    (request : HttpRequest) (dataset_id : pystr) (ref : option pystr) msgs :
  ∃ added,
    (browse_external_reference settings backend request dataset_id ref
       msgs).2 = msgs ++ added
    ∧ (length added ≤ 2)%nat
    ∧ Forall (λ m, level m = ERROR) added
    ∧ (truthy ref = true → added = [])
    ∧ mk_message ERROR (lit "Missing reference to fetch {}") ∉ added.
Proof.
  destruct (browse_external_reference_cases request dataset_id ref msgs)
    as [Hpath Hform].
  assert (∃ added, msgs = msgs ++ added
            ∧ (length added ≤ 2)%nat
            ∧ Forall (λ m, level m = ERROR) added
            ∧ (truthy ref = true → added = [])
            ∧ mk_message ERROR (lit "Missing reference to fetch {}")
              ∉ added) as Hnone.
  { exists []. rewrite app_nil_r. split; [reflexivity|].
    split; [cbn; lia|]. split; [constructor|]. split; [reflexivity|].
    apply not_elem_of_nil. }
  destruct (truthy ref) eqn:Href.
  { destruct (Hpath eq_refl) as [Hother Hdoi].
    destruct (decide (dataset_id = lit "doi")) as [Hds|Hds].
    - specialize (Hdoi Hds). destruct (get_doi_ref backend _) as [data|e].
      + destruct Hdoi as (context & -> & _). exact Hnone.
      + rewrite Hdoi. exact Hnone.
    - rewrite (Hother Hds). exact Hnone. }
  destruct (Hform eq_refl) as (Hmissing & Hother & Hdoi). clear Hpath Hform.
  destruct (truthy (QueryDict_get (lit "ref") (GET request))) eqn:Hget;
    [|rewrite (Hmissing eq_refl); exact Hnone].
  set (unknown :=
         if bool_decide (dataset_id ∉ EXTERNAL_DATASETS settings)
         then [mk_message ERROR
                 (lit "Unknown external dataset " ++ dataset_id)]
         else []) in *.
  assert ((length unknown ≤ 1)%nat
          ∧ Forall (λ m, level m = ERROR) unknown
          ∧ mk_message ERROR (lit "Missing reference to fetch {}")
            ∉ unknown) as (Hlen & Herr & Hnot).
  { subst unknown. case_bool_decide.
    - split; [cbn; lia|]. split; [by repeat constructor|].
      rewrite list_elem_of_singleton. by apply first_character_differs.
    - split; [cbn; lia|]. split; [constructor|apply not_elem_of_nil]. }
  assert (∀ text1,
            mk_message ERROR (lit "Missing reference to fetch {}")
            ≠ mk_message ERROR text1 →
            ∃ added,
              (msgs ++ unknown) ++ [mk_message ERROR text1] = msgs ++ added
              ∧ (length added ≤ 2)%nat
              ∧ Forall (λ m, level m = ERROR) added
              ∧ (false = true → added = [])
              ∧ mk_message ERROR (lit "Missing reference to fetch {}")
                ∉ added) as Htwo.
  { intros text1 Hne. exists (unknown ++ [mk_message ERROR text1]).
    split; [by rewrite app_assoc|]. split; [rewrite length_app; cbn; lia|].
    split; [apply Forall_app; split; [done|by repeat constructor]|].
    split; [discriminate|].
    rewrite elem_of_app, list_elem_of_singleton. tauto. }
  assert (∃ added,
            msgs ++ unknown = msgs ++ added
            ∧ (length added ≤ 2)%nat
            ∧ Forall (λ m, level m = ERROR) added
            ∧ (false = true → added = [])
            ∧ mk_message ERROR (lit "Missing reference to fetch {}")
              ∉ added) as Hone.
  { exists unknown. split; [reflexivity|]. split; [lia|].
    split; [done|]. split; [discriminate|done]. }
  destruct (decide (dataset_id = lit "doi")) as [Hds|Hds].
  - specialize (Hdoi eq_refl Hds).
    destruct (get_doi_ref backend _) as [data|e].
    + rewrite Hdoi. exact Hone.
    + rewrite Hdoi. destruct (isinstance _ e RuntimeError); [|exact Hone].
      apply Htwo. by apply first_character_differs.
  - rewrite (Hother eq_refl Hds). apply Htwo.
    by apply first_character_differs.
Qed.

(** *** Indexed references *)

(** X6. For a dataset other than [doi], an exception of [get_indexed_ref]
    that is not a [RefNotFoundError] leaves [browse_indexed_reference] as
    it is: the view answers with neither a 404 nor the server-error page,
    which it never returns for such a dataset. *)
Theorem browse_indexed_reference_other_exceptions
    (request : HttpRequest) (dataset_id ref : pystr) msgs :
  dataset_id ≠ lit "doi" →
  (browse_indexed_reference settings backend request dataset_id ref msgs).1
  ≠ Return ServerErrorPage
  ∧ ∀ e,
      get_indexed_ref backend dataset_id (urllib.unquote_plus ref)
      = Raise e →
      exc_type e ≠ RefNotFoundError →
      browse_indexed_reference settings backend request dataset_id ref msgs
      = (Raise e, msgs).
Proof.
  intros Hds.
  pose proof (browse_indexed_reference_cases request dataset_id ref msgs)
    as Hcases.
  cbv zeta in Hcases. rewrite bool_decide_eq_false_2 in Hcases by assumption.
  split.
  - destruct (get_indexed_ref backend _ _) as [data|e].
    + destruct Hcases as (context & -> & _). discriminate.
    + rewrite Hcases. by destruct (isinstance _ e RefNotFoundError).
  - intros e He Hne. rewrite He in Hcases. rewrite Hcases.
    destruct (isinstance _ e RefNotFoundError) eqn:Hrnf; [|reflexivity].
    by apply isinstance_RefNotFoundError in Hrnf.
Qed.

(** X7. For the dataset [doi], [browse_indexed_reference] shows what
    [get_doi_ref] returns for the unquoted reference, and the index is
    not consulted: two installations whose resolvers agree on that
    reference answer alike, whatever their indexes hold. *)
Theorem browse_indexed_reference_doi_page
    (request : HttpRequest) (ref : pystr) msgs :
  (∀ data,
     get_doi_ref backend (urllib.unquote_plus ref) = Return data →
     ∃ context,
       browse_indexed_reference settings backend request (lit "doi") ref msgs
       = (Return (TemplateResponse "browse/citation_details.html" context),
          msgs)
       ∧ context !! "dataset_id"%string = Some (CStr (lit "doi"))
       ∧ context !! "ref"%string = Some (CStr ref)
       ∧ context !! "data"%string = Some (CData data)
       ∧ shared_context settings ⊆ context)
  ∧ (∀ other : Backend,
       get_doi_ref other (urllib.unquote_plus ref)
       = get_doi_ref backend (urllib.unquote_plus ref) →
       rnf_runtime other = rnf_runtime backend →
       browse_indexed_reference settings other request (lit "doi") ref msgs
       = browse_indexed_reference settings backend request (lit "doi") ref
           msgs).
Proof.
  split.
  - intros data Hdata.
    pose proof (browse_indexed_reference_cases request (lit "doi") ref msgs)
      as Hcases.
    cbv zeta in Hcases.
    by rewrite bool_decide_eq_true_2, Hdata in Hcases by reflexivity.
  - intros other Hsame Hrt. unfold browse_indexed_reference.
    unfold indexed_reference_try.
    rewrite !bool_decide_eq_true_2 by reflexivity.
    by rewrite Hsame, Hrt.
Qed.

(** *** Browsing by document ID *)

Lemma quote_plus_Raise s e :
  urllib.quote_plus s = Raise e → exc_type e = UnicodeEncodeError.
Proof.
  unfold urllib.quote_plus. destruct (urllib.quote_plus_opt s); [done|].
  by intros [= <-].
Qed.

(** The shapes of what [browse_citation_by_docid] returns. *)
Lemma browse_citation_by_docid_shapes
    (request : HttpRequest) (doctype docid : option pystr) msgs :
  let result :=
    browse_citation_by_docid settings backend request doctype docid msgs in
  (truthy doctype && truthy docid = true
   ∧ ((∃ context,
         result
         = (Return (TemplateResponse "browse/citation_details.html"
                      context), msgs)
         ∧ shared_context settings ⊆ context)
      ∨ ∃ text, result = (Return (HttpResponseNotFound text), msgs)))
  ∨ (truthy doctype && truthy docid = false
     ∧ ((∃ text, result = (Return (HttpResponseBadRequest text), msgs))
        ∨ (∃ text,
             result
             = (HttpResponseRedirect backend (referer request),
                msgs ++ [mk_message ERROR text]))
        ∨ ∃ form_docid,
            QueryDict_get (lit "docid") (GET request) = Some form_docid
            ∧ ((∃ form_doctype quoted,
                  urllib.quote_plus form_docid = Return quoted
                  ∧ result
                    = (Return (RedirectToView "browse_citation_by_docid"
                                 [form_doctype; quoted]), msgs))
               ∨ ∃ e, urllib.quote_plus form_docid = Raise e
                      ∧ result = (Raise e, msgs)))).
Proof.
  intros result. subst result.
  destruct (browse_citation_by_docid_cases request doctype docid msgs)
    as [Hpath Hform].
  destruct (truthy doctype && truthy docid) eqn:Hargs; [left|right];
    (split; [reflexivity|]).
  { destruct (Hpath eq_refl) as (Hone & Hnone & Hmany). clear Hpath Hform.
    destruct (search_refs_relaton_struct backend _) as [|c [|c' l]].
    - right. rewrite (Hnone eq_refl). by eexists.
    - left. destruct (Hone c eq_refl) as (context & -> & _ & _ & _ & ?).
      by exists context.
    - right. rewrite Hmany by (cbn; lia). by eexists. }
  destruct (Hform eq_refl) as (Hmissing & Hgiven). clear Hpath Hform.
  destruct (truthy (QueryDict_get (lit "doctype") (GET request))
            && truthy (QueryDict_get (lit "docid") (GET request)))
    eqn:Hget; [|left; rewrite (Hmissing eq_refl); by eexists].
  destruct (Hgiven eq_refl) as (Hone & Hother). clear Hmissing.
  destruct (decide (length (search_refs_relaton_struct backend
                              (docid_query
                                 (text (QueryDict_get (lit "doctype")
                                          (GET request)))
                                 (text (QueryDict_get (lit "docid")
                                          (GET request))))) = 1%nat))
    as [Hlen|Hlen]; [|right; left; rewrite (Hother Hlen); by eexists].
  right. right. rewrite (Hone Hlen). clear Hone Hother.
  apply andb_true_iff in Hget as [_ Hdocid].
  apply truthy_true in Hdocid as (form_docid & Hsome & Hne & Htext).
  rewrite Htext. exists form_docid. split; [exact Hsome|].
  destruct (urllib.quote_plus form_docid) as [quoted|e] eqn:Hq.
  - left. by eexists _, _.
  - right. by eexists.
Qed.

Ltac status_cases :=
  repeat split; intros;
  repeat match goal with
         | H : _ ∧ _ |- _ => destruct H
         | H : ∃ _, _ |- _ => destruct H
         end;
  try discriminate; try congruence; try (by eexists).

(** X8. Every response that [browse_citation_by_docid] returns has
    status 200, 302, 400 or 404, and each status has one cause: 200 is the
    path-based branch with exactly one match, 404 the path-based branch
    with no match or several, 400 the form fallback with a document type
    or ID missing or empty, 302 the form fallback with both.  So the form
    fallback never answers with a page or a 404, and the path-based branch
    never redirects.  Of the two redirects, the one to the view
    [browse_citation_by_docid] is returned for exactly one match of the
    submitted ID, the one to the referring page otherwise. *)
Theorem browse_citation_by_docid_outcomes
    (request : HttpRequest) (doctype docid : option pystr) msgs response :
  (browse_citation_by_docid settings backend request doctype docid msgs).1
  = Return response →
  let path := truthy doctype && truthy docid in
  let citations :=
    search_refs_relaton_struct backend
      (docid_query (text doctype) (urllib.unquote_plus (text docid))) in
  let form_doctype := QueryDict_get (lit "doctype") (GET request) in
  let form_docid := QueryDict_get (lit "docid") (GET request) in
  let form := truthy form_doctype && truthy form_docid in
  let form_citations :=
    search_refs_relaton_struct backend
      (docid_query (text form_doctype) (text form_docid)) in
  status_code response ∈ [Some 200; Some 302; Some 400; Some 404]
  ∧ (status_code response = Some 200
     ↔ path = true ∧ length citations = 1%nat)
  ∧ (status_code response = Some 404
     ↔ path = true ∧ length citations ≠ 1%nat)
  ∧ (status_code response = Some 400 ↔ path = false ∧ form = false)
  ∧ (status_code response = Some 302 ↔ path = false ∧ form = true)
  ∧ ((∃ args, response = RedirectToView "browse_citation_by_docid" args)
     ↔ path = false ∧ form = true ∧ length form_citations = 1%nat)
  ∧ ((∃ location, response = RedirectResponse location)
     ↔ path = false ∧ form = true ∧ length form_citations ≠ 1%nat).
Proof.
  intros Hresult path citations form_doctype form_docid form form_citations.
  destruct (browse_citation_by_docid_cases request doctype docid msgs)
    as [Hpath Hform].
  fold path citations form_doctype form_docid form form_citations
    in Hpath, Hform.
  destruct path eqn:Hp.
  - destruct (Hpath eq_refl) as (Hone & Hnone & Hmany). clear Hpath Hform.
    assert ((length citations = 1%nat
             ∧ ∃ context,
                 response
                 = TemplateResponse "browse/citation_details.html" context)
            ∨ (length citations ≠ 1%nat
               ∧ ∃ text, response = HttpResponseNotFound text))
      as [[Hlen [context ->]]|[Hlen [text ->]]].
    { destruct citations as [|c [|c' l]].
      - right. split; [discriminate|]. rewrite (Hnone eq_refl) in Hresult.
        injection Hresult as <-. by eexists.
      - left. split; [reflexivity|].
        destruct (Hone c eq_refl) as (context & Hr & _).
        rewrite Hr in Hresult. injection Hresult as <-. by eexists.
      - right. split; [discriminate|].
        rewrite Hmany in Hresult by (cbn [length]; lia).
        injection Hresult as <-. by eexists. }
    + cbn [status_code]. split; [repeat constructor|]. status_cases.
    + cbn [status_code]. split; [repeat constructor|]. status_cases.
  - destruct (Hform eq_refl) as (Hmissing & Hgiven). clear Hpath Hform.
    destruct form eqn:Hf.
    + destruct (Hgiven eq_refl) as (Hone & Hother). clear Hmissing Hgiven.
      assert ((length form_citations = 1%nat
               ∧ ∃ args,
                   response = RedirectToView "browse_citation_by_docid" args)
              ∨ (length form_citations ≠ 1%nat
                 ∧ ∃ location, response = RedirectResponse location))
        as [[Hlen [args ->]]|[Hlen [location ->]]].
      { destruct (decide (length form_citations = 1%nat)) as [Hlen|Hlen].
        - left. split; [exact Hlen|]. rewrite (Hone Hlen) in Hresult.
          cbn [fst] in Hresult.
          destruct (urllib.quote_plus _) as [quoted|e]; [|discriminate].
          injection Hresult as <-. by eexists.
        - right. split; [exact Hlen|]. rewrite (Hother Hlen) in Hresult.
          cbn [fst] in Hresult.
          apply HttpResponseRedirect_Return in Hresult
            as (location & _ & ->).
          by eexists. }
      * cbn [status_code]. split; [repeat constructor|]. status_cases.
      * cbn [status_code]. split; [repeat constructor|]. status_cases.
    + rewrite (Hmissing eq_refl) in Hresult. injection Hresult as <-.
      cbn [status_code]. split; [repeat constructor|]. status_cases.
Qed.

(** X9. The form fallback of [browse_citation_by_docid] never uses the
    arguments of the URL path: whenever one of them is missing or empty,
    the answer depends on the request alone.  The path-based branch, in
    turn, never reads the request. *)
Theorem browse_citation_by_docid_inputs
    (request : HttpRequest) (doctype docid : option pystr) msgs :
  (truthy doctype && truthy docid = false →
   browse_citation_by_docid settings backend request doctype docid msgs
   = browse_citation_by_docid settings backend request None None msgs)
  ∧ (truthy doctype && truthy docid = true →
     ∀ other : HttpRequest,
       browse_citation_by_docid settings backend other doctype docid msgs
       = browse_citation_by_docid settings backend request doctype docid
           msgs).
Proof.
  split.
  - intros Hargs. unfold browse_citation_by_docid. by rewrite Hargs.
  - intros Hargs other. unfold browse_citation_by_docid. by rewrite Hargs.
Qed.

(** *** The home page and the list of a dataset *)

(** Every way [home] can end: one. *)
Lemma home_page (request : HttpRequest) msgs :
  ∃ context,
    home settings backend request msgs
    = (Return (TemplateResponse "browse/home.html" context), msgs)
    ∧ context !! "total_indexed_citations"%string
      = Some (CInt (Z.of_nat (length (RefData_objects backend))))
    ∧ context !! "browsable_datasets"%string
      = Some (CStrs (filter (λ ds, ds ∈ non_empty_datasets backend)
                       (indexed_datasets settings)))
    ∧ context !! "doctypes"%string = Some (CStrs (list_doctypes backend))
    ∧ shared_context settings ⊆ context.
Proof.
  unfold home. rewrite browsable_datasets_filter, bind_lift_Return.
  set (browsable := filter _ _).
  assert (∃ context,
            py_dict
              [ StarStar (shared_context settings);
                Kw "total_indexed_citations"
                  (CInt (Z.of_nat (length (RefData_objects backend))));
                Kw "browsable_datasets" (CStrs browsable);
                Kw "doctypes" (CStrs (list_doctypes backend)) ]
            = Return context) as [context Hd].
  { eexists. unfold py_dict. keys_no_dup. reflexivity. }
  exists context. split; [by apply render_Return|].
  split; [|split; [|split]].
  - eapply py_dict_Kw; [exact Hd|]. repeat constructor.
  - eapply py_dict_Kw; [exact Hd|]. repeat constructor.
  - eapply py_dict_Kw; [exact Hd|]. repeat constructor.
  - eapply py_dict_StarStar; [exact Hd|]. repeat constructor.
Qed.

(** Every way the list view can end. *)
Lemma ListView_get_cases
    (kwargs : gmap string pystr) (request : HttpRequest)
    (page_number : Z) msgs :
  let response :=
    ListView_get settings backend kwargs request page_number msgs in
  match kwargs !! "dataset_id"%string with
  | None =>
      response = (Raise (mk_exn KeyError (repr_name "dataset_id")), msgs)
  | Some dataset_id =>
      match Paginator.page (list_refs backend dataset_id) paginate_by
              page_number with
      | None =>
          response
          = (Raise (mk_exn Http404 (invalid_page_text page_number)), msgs)
      | Some objects =>
          ∃ context,
            response
            = (Return (TemplateResponse "browse/dataset.html" context), msgs)
            ∧ context !! "dataset_id"%string = Some (CStr dataset_id)
            ∧ context !! "object_list"%string = Some (CRefs objects)
            ∧ context !! "refdata_list"%string = Some (CRefs objects)
            ∧ context !! "is_paginated"%string
              = Some (CBool ((1 <? page_number)
                             || (page_number
                                 <? Paginator.num_pages
                                      (list_refs backend dataset_id)
                                      paginate_by)))
            ∧ shared_context settings ⊆ context
      end
  end.
Proof.
  intros response. subst response.
  unfold ListView_get, get_queryset, kwarg.
  destruct (kwargs !! "dataset_id"%string) as [dataset_id|] eqn:Hkw;
    [|reflexivity].
  cbn [mbind outcome_bind mret outcome_ret]. rewrite bind_lift_Return.
  unfold get_context_data, super_get_context_data, paginate_queryset.
  change (paginate_by =? 0) with false. cbv iota.
  destruct (Paginator.page _ _ _) as [objects|]; [|reflexivity].
  unfold kwarg. rewrite Hkw.
  cbn [mbind outcome_bind mret outcome_ret].
  match goal with
  | |- context [py_dict ?args] =>
      assert (∃ context, py_dict args = Return context) as [context Hd]
  end.
  { eexists. unfold py_dict. keys_no_dup. reflexivity. }
  rewrite Hd, bind_lift_Return. exists context. split; [reflexivity|].
  split; [eapply py_dict_Kw; [exact Hd|]; repeat constructor|].
  assert (∀ k v,
            (list_to_map
               [ ("paginator"%string,
                   CPaginator (list_refs backend dataset_id) paginate_by);
                 ("page_obj"%string, CPage page_number objects);
                 ("is_paginated"%string,
                   CBool ((1 <? page_number)
                          || (page_number
                              <? Paginator.num_pages
                                   (list_refs backend dataset_id)
                                   paginate_by)));
                 ("object_list"%string, CRefs objects);
                 ("refdata_list"%string, CRefs objects);
                 ("view"%string, CView "IndexedDatasetCitationListView") ]
             : Context) !! k = Some v →
            context !! k = Some v) as Hsuper.
  { apply map_subseteq_spec. eapply py_dict_StarStar; [exact Hd|].
    repeat constructor. }
  split; [by apply Hsuper|]. split; [by apply Hsuper|].
  split; [by apply Hsuper|].
  eapply py_dict_StarStar; [exact Hd|]. repeat constructor.
Qed.

(** *** Invariants of all the views *)

(** X10. The flash messages stored before a request are never dropped or
    changed.  [home], [external_dataset], [browse_indexed_reference] and
    the list view of a dataset store none, whatever they answer;
    [browse_citation_by_docid] stores at most one, of level [ERROR],
    only in its form fallback and only when it ends with
    [HttpResponseRedirect] of the referring page, be the redirect made or
    refused. *)
Theorem flash_messages_kept
    (request : HttpRequest) (kwargs : gmap string pystr)
    (doctype docid : option pystr) (dataset_id ref : pystr)
    (page_number : Z) msgs :
  (home settings backend request msgs).2 = msgs
  ∧ (external_dataset settings request dataset_id msgs).2 = msgs
  ∧ (browse_indexed_reference settings backend request dataset_id ref
       msgs).2 = msgs
  ∧ (ListView_get settings backend kwargs request page_number msgs).2 = msgs
  ∧ let result :=
      browse_citation_by_docid settings backend request doctype docid msgs in
    result.2 = msgs
    ∨ (truthy doctype && truthy docid = false
       ∧ ∃ text,
           result
           = (HttpResponseRedirect backend (referer request),
              msgs ++ [mk_message ERROR text])).
Proof.
  split; [|split; [|split; [|split]]].
  - by destruct (home_page request msgs) as (context & -> & _).
  - unfold external_dataset.
    by destruct (dataset_page (CStr dataset_id) msgs) as (context & -> & _).
  - pose proof (browse_indexed_reference_cases request dataset_id ref msgs)
      as Hcases.
    cbv zeta in Hcases.
    destruct (if bool_decide (dataset_id = lit "doi") then _ else _)
      as [data|e].
    + by destruct Hcases as (context & -> & _).
    + by rewrite Hcases.
  - pose proof (ListView_get_cases kwargs request page_number msgs)
      as Hcases.
    cbv zeta in Hcases.
    destruct (kwargs !! "dataset_id"%string) as [d|]; [|by rewrite Hcases].
    destruct (Paginator.page _ _ _) as [objects|]; [|by rewrite Hcases].
    by destruct Hcases as (context & -> & _).
  - cbv zeta.
    destruct (browse_citation_by_docid_shapes request doctype docid msgs)
      as [[_ [(context & -> & _)|(text & ->)]]
         |[Hargs [(text & ->)|[(text & ->)|(form_docid & _ & Hq)]]]].
    1-3: by left.
    + right. split; [exact Hargs|]. by exists text.
    + left. by destruct Hq as [(? & ? & _ & ->)|(? & _ & ->)].
Qed.

(** X11. Every page that a view renders carries the whole shared
    context: each key of [shared_context] is in the context of the
    template, with its value. *)
Theorem rendered_pages_carry_shared_context
    (request : HttpRequest) (kwargs : gmap string pystr)
    (doctype docid ref : option pystr) (dataset_id indexed_ref : pystr)
    (page_number : Z) msgs :
  let carries (result : outcome HttpResponse * list Message) : Prop :=
    match result.1 with
    | Return (TemplateResponse _ context) =>
        shared_context settings ⊆ context
    | _ => True
    end in
  carries (home settings backend request msgs)
  ∧ carries (external_dataset settings request dataset_id msgs)
  ∧ carries (browse_citation_by_docid settings backend request doctype
               docid msgs)
  ∧ carries (browse_external_reference settings backend request dataset_id
               ref msgs)
  ∧ carries (browse_indexed_reference settings backend request dataset_id
               indexed_ref msgs)
  ∧ carries (ListView_get settings backend kwargs request page_number msgs).
Proof.
  cbv zeta. split; [|split; [|split; [|split; [|split]]]].
  - by destruct (home_page request msgs) as (context & -> & _ & _ & _ & ?).
  - unfold external_dataset.
    by destruct (dataset_page (CStr dataset_id) msgs)
      as (context & -> & _ & ?).
  - destruct (browse_citation_by_docid_shapes request doctype docid msgs)
      as [[_ [(context & -> & ?)|(text & ->)]]
         |[Hargs [(text & ->)|[(text & ->)|(form_docid & _ & Hq)]]]];
      [assumption|exact I..| |].
    + cbn [fst].
      destruct (HttpResponseRedirect backend _) as [response|e] eqn:Hr;
        [|exact I].
      by apply HttpResponseRedirect_Return in Hr as (location & _ & ->).
    + by destruct Hq as [(? & ? & _ & ->)|(? & _ & ->)].
  - destruct (browse_external_reference_cases request dataset_id ref msgs)
      as [Hpath Hform].
    destruct (truthy ref) eqn:Href.
    + destruct (Hpath eq_refl) as [Hother Hdoi]. clear Hpath Hform.
      destruct (decide (dataset_id = lit "doi")) as [Hds|Hds];
        [|by rewrite (Hother Hds)].
      specialize (Hdoi Hds). destruct (get_doi_ref backend _) as [data|e].
      * by destruct Hdoi as (context & -> & _ & _ & _ & ?).
      * rewrite Hdoi. by destruct (isinstance _ e PyException).
    + destruct (Hform eq_refl) as (Hmissing & Hother & Hdoi).
      clear Hpath Hform.
      destruct (truthy (QueryDict_get (lit "ref") (GET request)));
        [|by rewrite (Hmissing eq_refl)].
      assert (match HttpResponseRedirect backend (referer request) with
              | Return (TemplateResponse _ context) =>
                  shared_context settings ⊆ context
              | _ => True
              end) as Hredirect.
      { destruct (HttpResponseRedirect backend _) as [response|e] eqn:Hr;
          [|exact I].
        by apply HttpResponseRedirect_Return in Hr as (location & _ & ->). }
      destruct (decide (dataset_id = lit "doi")) as [Hds|Hds];
        [|by rewrite (Hother eq_refl Hds)].
      specialize (Hdoi eq_refl Hds).
      destruct (get_doi_ref backend _) as [data|e]; rewrite Hdoi.
      * by destruct (urllib.quote_plus _).
      * by destruct (isinstance _ e RuntimeError).
  - pose proof (browse_indexed_reference_cases request dataset_id
                  indexed_ref msgs) as Hcases.
    cbv zeta in Hcases.
    destruct (if bool_decide (dataset_id = lit "doi") then _ else _)
      as [data|e].
    + by destruct Hcases as (context & -> & _ & _ & _ & ?).
    + rewrite Hcases. case_bool_decide.
      * by destruct (isinstance _ e PyException).
      * by destruct (isinstance _ e RefNotFoundError).
  - pose proof (ListView_get_cases kwargs request page_number msgs)
      as Hcases.
    cbv zeta in Hcases.
    destruct (kwargs !! "dataset_id"%string) as [d|]; [|by rewrite Hcases].
    destruct (Paginator.page _ _ _) as [objects|]; [|by rewrite Hcases].
    by destruct Hcases as (context & -> & _ & _ & _ & _ & ?).
Qed.

Lemma Paginator_num_pages (l : list RefData) :
  Paginator.num_pages l paginate_by
  = Z.max 1 ((Z.of_nat (length l) + 19) `div` 20).
Proof.
  unfold Paginator.num_pages, Paginator.count, paginate_by.
  destruct l as [|x l]; [reflexivity|].
  rewrite Z.max_r by (cbn [length]; lia).
  replace (Z.of_nat (length (x :: l)) + 20 - 1)
    with (Z.of_nat (length (x :: l)) + 19) by lia.
  rewrite Z.max_r; [reflexivity|].
  apply Z.div_le_lower_bound; cbn [length]; lia.
Qed.

Lemma Paginator_page_length (l : list RefData) (number : Z) :
  1 ≤ number ≤ Paginator.num_pages l paginate_by →
  ∃ objects,
    Paginator.page l paginate_by number = Some objects
    ∧ Z.of_nat (length objects)
      = Z.min 20 (Z.max 0 (Z.of_nat (length l) - 20 * (number - 1))).
Proof.
  intros Hn. unfold Paginator.page, Paginator.slice, Paginator.count.
  rewrite (proj2 (Z.ltb_ge _ _)), (proj2 (Z.ltb_ge _ _)) by lia.
  eexists. split; [reflexivity|]. unfold paginate_by.
  rewrite length_take, length_drop.
  destruct (Z.leb_spec (Z.of_nat (length l)) ((number - 1) * 20 + 20)); lia.
Qed.

(** X12. The list view of a dataset raises [KeyError] when the URL gave
    no [dataset_id], and [Http404] for a page number outside 1 .. n,
    where n is the number of citations divided by 20, rounded up, and 1
    for an empty dataset.  Every page of that range is shown: the pages
    before the last hold 20 citations each, the last page holds the rest,
    and only the single page of an empty dataset is empty. *)
Theorem indexed_dataset_list_view_pages
    (kwargs : gmap string pystr) (request : HttpRequest)
    (page_number : Z) msgs :
  let result :=
    ListView_get settings backend kwargs request page_number msgs in
  (kwargs !! "dataset_id"%string = None →
   ∃ e, result = (Raise e, msgs) ∧ exc_type e = KeyError)
  ∧ ∀ dataset_id,
      kwargs !! "dataset_id"%string = Some dataset_id →
      let citations := list_refs backend dataset_id in
      let last := Z.max 1 ((Z.of_nat (length citations) + 19) `div` 20) in
      (page_number < 1 ∨ last < page_number →
       ∃ e, result = (Raise e, msgs) ∧ exc_type e = Http404)
      ∧ (1 ≤ page_number ≤ last →
         ∃ context objects,
           result
           = (Return (TemplateResponse "browse/dataset.html" context), msgs)
           ∧ context !! "object_list"%string = Some (CRefs objects)
           ∧ (page_number < last → length objects = 20%nat)
           ∧ (citations ≠ [] → objects ≠ [])
           ∧ (citations = [] → objects = [] ∧ page_number = 1)).
Proof.
  intros result. subst result.
  pose proof (ListView_get_cases kwargs request page_number msgs) as Hcases.
  cbv zeta in Hcases. split.
  - intros Hkw. rewrite Hkw in Hcases. by eexists.
  - intros dataset_id Hkw citations last. rewrite Hkw in Hcases.
    fold citations in Hcases.
    pose proof (Paginator_num_pages citations) as Hnum. fold last in Hnum.
    split.
    + intros Hout.
      assert (Paginator.page citations paginate_by page_number = None)
        as Hnone.
      { unfold Paginator.page. rewrite Hnum.
        destruct (Z.ltb_spec page_number 1); [reflexivity|].
        by rewrite (proj2 (Z.ltb_lt _ _)) by lia. }
      rewrite Hnone in Hcases. by eexists.
    + intros Hin.
      destruct (Paginator_page_length citations page_number)
        as (objects & Hpage & Hlen); [by rewrite Hnum|].
      rewrite Hpage in Hcases.
      destruct Hcases as (context & Hr & _ & Hobjects & _).
      exists context, objects. split; [exact Hr|].
      split; [exact Hobjects|].
      assert ((citations ≠ [] →
               20 * (last - 1) < Z.of_nat (length citations))
              ∧ (citations = [] → last = 1)) as [Hlast Hempty].
      { split; [|by intros ->].
        destruct citations as [|x l]; [done|]. intros _.
        subst last. rewrite Z.max_r.
        - pose proof (Z.mul_div_le (Z.of_nat (length (x :: l)) + 19) 20).
          lia.
        - apply Z.div_le_lower_bound; cbn [length]; lia. }
      clearbody last. clear Hnum Hpage Hr Hobjects.
      split; [|split].
      * intros Hbefore. destruct (decide (citations = [])) as [Hnil|Hne].
        -- specialize (Hempty Hnil). lia.
        -- specialize (Hlast Hne). lia.
      * intros Hne. specialize (Hlast Hne).
        destruct objects; [cbn [length] in Hlen; lia|done].
      * intros Hnil. specialize (Hempty Hnil). rewrite Hnil in Hlen.
        cbn [length] in Hlen.
        split; [destruct objects; [done|cbn [length] in Hlen; lia]|lia].
Qed.

(** X13. The home page always renders.  Its context carries the number
    of rows of [RefData] as [total_indexed_citations] and the answer of
    [list_doctypes] as [doctypes].  With an empty index no dataset is
    browsable; and when [KNOWN_DATASETS] has no dataset twice, neither
    has [browsable_datasets], which is then no longer than the index has
    rows. *)
Theorem home_page_counts (request : HttpRequest) msgs :
  ∃ context browsable,
    home settings backend request msgs
    = (Return (TemplateResponse "browse/home.html" context), msgs)
    ∧ context !! "total_indexed_citations"%string
      = Some (CInt (Z.of_nat (length (RefData_objects backend))))
    ∧ context !! "doctypes"%string = Some (CStrs (list_doctypes backend))
    ∧ context !! "browsable_datasets"%string = Some (CStrs browsable)
    ∧ (RefData_objects backend = [] → browsable = [])
    ∧ (NoDup (KNOWN_DATASETS settings) →
       NoDup browsable
       ∧ (length browsable ≤ length (RefData_objects backend))%nat).
Proof.
  destruct (home_page request msgs) as (context & Hr & Ht & Hb & Hd & _).
  exists context, (filter (λ ds, ds ∈ non_empty_datasets backend)
                     (indexed_datasets settings)).
  split; [exact Hr|]. split; [exact Ht|]. split; [exact Hd|].
  split; [exact Hb|]. split.
  - intros Hempty. apply elem_of_nil_inv.
    intros ds [Hds _]%list_elem_of_filter.
    unfold non_empty_datasets in Hds. rewrite Hempty in Hds.
    by apply elem_of_nil in Hds.
  - intros Hknown.
    assert (NoDup (filter (λ ds, ds ∈ non_empty_datasets backend)
                     (indexed_datasets settings))) as Hnd.
    { apply NoDup_filter. unfold indexed_datasets.
      rewrite comprehension_filter. by apply NoDup_filter. }
    split; [exact Hnd|].
    rewrite <- (length_fmap dataset (RefData_objects backend)).
    apply submseteq_length, NoDup_submseteq; [exact Hnd|].
    intros ds [Hds _]%list_elem_of_filter.
    unfold non_empty_datasets in Hds. rewrite elem_of_remove_dups in Hds.
    exact Hds.
Qed.

(** *** The context of the search results *)

Lemma shared_context_keys k :
  is_Some (shared_context settings !! k)
  ↔ k ∈ [ "known_datasets"; "indexed_datasets"; "external_datasets";
          "authoritative_datasets"; "snapshot" ]%string.
Proof.
  rewrite <- not_eq_None_Some. unfold shared_context.
  rewrite <- not_elem_of_list_to_map. cbn [fmap list_fmap fst].
  split; [|tauto]. intros Hk.
  destruct (decide (k ∈ [ "known_datasets"; "indexed_datasets";
                          "external_datasets"; "authoritative_datasets";
                          "snapshot" ]%string)); tauto.
Qed.

(** X14. [CitationSearchResultListView.get_context_data] merges the
    context of its base class with the shared context: when the base
    context has none of the five keys of the shared context, the result
    has the entries of both and no other; when it has one of them, the
    call of [dict] raises [TypeError]. *)
Theorem search_results_context (base_context : Context) :
  let shared_keys :=
    [ "known_datasets"; "indexed_datasets"; "external_datasets";
      "authoritative_datasets"; "snapshot" ]%string in
  let result :=
    CitationSearchResultListView_get_context_data settings base_context in
  ((∀ k, k ∈ shared_keys → base_context !! k = None) →
   ∃ context,
     result = Return context
     ∧ base_context ⊆ context
     ∧ shared_context settings ⊆ context
     ∧ ∀ k, is_Some (context !! k) →
            is_Some (base_context !! k) ∨ k ∈ shared_keys)
  ∧ (∀ k, k ∈ shared_keys → is_Some (base_context !! k) →
          ∃ e, result = Raise e ∧ exc_type e = TypeError).
Proof.
  intros shared_keys result. subst result.
  unfold CitationSearchResultListView_get_context_data.
  destruct (py_dict_two_mappings base_context (shared_context settings))
    as [Hok Hclash].
  split.
  - intros Hfree.
    assert (base_context ##ₘ shared_context settings) as Hdisj.
    { apply map_disjoint_alt. intros k.
      destruct (shared_context settings !! k) eqn:Hk; [|by right].
      left. apply Hfree, shared_context_keys. by eexists. }
    exists (base_context ∪ shared_context settings).
    split; [by apply Hok|]. split; [apply map_union_subseteq_l|].
    split; [by apply map_union_subseteq_r|].
    intros k [Hk|Hk]%lookup_union_is_Some; [by left|right].
    by apply shared_context_keys.
  - intros k Hk Hbase. apply Hclash. intros Hdisj.
    apply shared_context_keys in Hk as [v Hv]. destruct Hbase as [w Hw].
    exact (proj1 (map_disjoint_spec _ _) Hdisj k w v Hw Hv).
Qed.

(** *** What the redirects carry *)

Lemma hex_upper_safe n : 0 ≤ n < 16 → urllib.always_safe (urllib.hex_upper n) = true.
Proof.
  intros Hn. unfold urllib.always_safe, urllib.hex_upper.
  destruct (Z.ltb_spec n 10).
  - rewrite (in_range_true 0x30) by lia. by rewrite orb_true_r.
  - by rewrite (in_range_true 0x41) by lia.
Qed.

Lemma byte_quoter_alphabet safe b :
  urllib.is_byte b →
  Forall (λ c, urllib.always_safe c = true ∨ c ∈ safe ∨ c = urllib.PERCENT)
    (urllib.byte_quoter safe b).
Proof.
  intros Hb. unfold urllib.byte_quoter.
  destruct (urllib.always_safe b || bool_decide (b ∈ safe)) eqn:Hq.
  - rewrite Forall_singleton.
    apply orb_true_iff in Hq as [Hq|Hq%bool_decide_eq_true];
      [by left|by right; left].
  - destruct (byte_nibbles b Hb) as (Hhi & Hlo & _).
    rewrite !Forall_cons, Forall_nil. split; [by right; right|].
    split; [left; by apply hex_upper_safe|].
    split; [left; by apply hex_upper_safe|exact I].
Qed.

Lemma quote_from_bytes_alphabet safe bs :
  Forall urllib.is_byte bs →
  Forall (λ c, urllib.always_safe c = true ∨ c ∈ safe ∨ c = urllib.PERCENT)
    (urllib.quote_from_bytes bs safe).
Proof.
  induction 1 as [|b bs Hb _ IH]; [constructor|].
  rewrite quote_from_bytes_cons. apply Forall_app. split; [|exact IH].
  by apply byte_quoter_alphabet.
Qed.

Lemma quote_plus_alphabet s quoted :
  Forall urllib.code_point s →
  urllib.quote_plus s = Return quoted →
  Forall (λ c, urllib.always_safe c = true
               ∨ c = urllib.PLUS ∨ c = urllib.PERCENT) quoted.
Proof.
  intros Hcp Hq.
  pose proof (quote_plus_Return_scalar _ _ Hcp Hq) as Hs.
  destruct (utf8_roundtrip s Hs) as (bs & Henc & _ & Hbs & _).
  revert Hq. unfold urllib.quote_plus, urllib.quote_plus_opt, urllib.quote.
  rewrite Henc. cbn [mbind option_bind fmap option_fmap option_map].
  case_bool_decide; intros [= <-].
  - unfold urllib.replace_char. apply Forall_fmap.
    eapply Forall_impl; [by apply quote_from_bytes_alphabet|].
    intros c [Hc|[Hc|Hc]]; cbn.
    + destruct (Z.eqb_spec c urllib.SPACE); [by right; left|by left].
    + apply list_elem_of_singleton in Hc as ->. by right; left.
    + rewrite Hc. by right; right.
  - eapply Forall_impl; [by apply quote_from_bytes_alphabet|].
    intros c [Hc|[Hc|Hc]]; [by left| |by right; right].
    by apply elem_of_nil in Hc.
Qed.

(** X15. The reference that a form fallback passes on in its redirect to
    a view is made of ASCII letters, digits, [_], [.], [-], [~], [+] and
    [%] only, so it holds no [/] and no space, for every query string
    that Django can deliver (strings of code points). *)
Theorem redirect_arguments_url_safe
    (request : HttpRequest) (doctype docid ref : option pystr)
    (dataset_id : pystr) msgs :
  (∀ key value,
     QueryDict_get key (GET request) = Some value →
     Forall urllib.code_point value) →
  let url_safe (quoted : pystr) : Prop :=
    Forall (λ c, urllib.always_safe c = true
                 ∨ c = urllib.PLUS ∨ c = urllib.PERCENT) quoted
    ∧ (0x2F ∉ quoted) ∧ (urllib.SPACE ∉ quoted) in
  (∀ view_name args msgs',
     browse_citation_by_docid settings backend request doctype docid msgs
     = (Return (RedirectToView view_name args), msgs') →
     ∃ first quoted, args = [first; quoted] ∧ url_safe quoted)
  ∧ (∀ view_name args msgs',
       browse_external_reference settings backend request dataset_id ref
         msgs
       = (Return (RedirectToView view_name args), msgs') →
       ∃ first quoted, args = [first; quoted] ∧ url_safe quoted).
Proof.
  intros Hget url_safe.
  assert (∀ view_name args (stored msgs' : list Message),
            (HttpResponseRedirect backend (referer request), stored)
            ≠ (Return (RedirectToView view_name args), msgs')) as Hreferer.
  { intros view_name args stored msgs' [= Hr _].
    by apply HttpResponseRedirect_Return in Hr as (location & _ & ?). }
  assert (∀ s quoted,
            Forall urllib.code_point s →
            urllib.quote_plus s = Return quoted → url_safe quoted) as Hsafe.
  { intros s quoted Hcp Hq.
    pose proof (quote_plus_alphabet _ _ Hcp Hq) as Hall.
    split; [exact Hall|].
    rewrite Forall_forall in Hall.
    split; intros [Hc|[Hc|Hc]]%Hall; discriminate Hc. }
  split.
  - intros view_name args msgs'.
    destruct (browse_citation_by_docid_shapes request doctype docid msgs)
      as [[_ [(context & -> & _)|(text & ->)]]
         |[_ [(text & ->)|[(text & ->)|(form_docid & Hsome & Hq)]]]];
      [discriminate..|by intros ?%Hreferer|].
    destruct Hq as [(form_doctype & quoted & Hq & ->)|(e & _ & ->)];
      [|discriminate].
    intros [= <- <- <-]. exists form_doctype, quoted.
    split; [reflexivity|]. eapply Hsafe; [|exact Hq]. by eapply Hget.
  - intros view_name args msgs'.
    destruct (browse_external_reference_cases request dataset_id ref msgs)
      as [Hpath Hform].
    destruct (truthy ref) eqn:Href.
    + destruct (Hpath eq_refl) as [Hother Hdoi]. clear Hpath Hform.
      destruct (decide (dataset_id = lit "doi")) as [Hds|Hds];
        [|rewrite (Hother Hds); discriminate].
      specialize (Hdoi Hds). destruct (get_doi_ref backend _) as [data|e].
      * destruct Hdoi as (context & -> & _). discriminate.
      * rewrite Hdoi. by destruct (isinstance _ e PyException).
    + destruct (Hform eq_refl) as (Hmissing & Hother & Hdoi).
      clear Hpath Hform.
      destruct (truthy (QueryDict_get (lit "ref") (GET request))) eqn:Hr;
        [|rewrite (Hmissing eq_refl); discriminate].
      destruct (decide (dataset_id = lit "doi")) as [Hds|Hds];
        [|rewrite (Hother eq_refl Hds); by intros ?%Hreferer].
      specialize (Hdoi eq_refl Hds).
      apply truthy_true in Hr as (form_ref & Hsome & _ & Htext).
      rewrite Htext in Hdoi.
      destruct (get_doi_ref backend _) as [data|e]; rewrite Hdoi.
      * destruct (urllib.quote_plus form_ref) as [quoted|e] eqn:Hq;
          [|discriminate].
        intros [= <- <- <-]. exists dataset_id, quoted.
        split; [reflexivity|]. eapply Hsafe; [|exact Hq]. by eapply Hget.
      * destruct (isinstance _ e RuntimeError); [|discriminate].
        by intros ?%Hreferer.
Qed.

(** X16. In the path-based branch of [browse_citation_by_docid], a
    document ID with neither [+] nor [%] is searched for as it is
    written, and a [+] stands for a space.  Two spellings of an ID that
    unquote to the same text get the same answer when that text has one
    match. *)
Theorem docid_spellings
    (request : HttpRequest) (doctype docid other : pystr) msgs :
  (urllib.PLUS ∉ docid → urllib.PERCENT ∉ docid →
   urllib.unquote_plus docid = docid)
  ∧ (∀ s1 s2,
       urllib.unquote_plus (s1 ++ urllib.PLUS :: s2)
       = urllib.unquote_plus (s1 ++ urllib.SPACE :: s2))
  ∧ (doctype ≠ [] → docid ≠ [] → other ≠ [] →
     urllib.unquote_plus docid = urllib.unquote_plus other →
     length (search_refs_relaton_struct backend
               (docid_query doctype (urllib.unquote_plus docid))) = 1%nat →
     browse_citation_by_docid settings backend request
       (Some doctype) (Some docid) msgs
     = browse_citation_by_docid settings backend request
         (Some doctype) (Some other) msgs).
Proof.
  split; [|split].
  - intros Hplus Hpercent. unfold urllib.unquote_plus, urllib.unquote.
    rewrite replace_char_absent by assumption.
    by rewrite bool_decide_eq_false_2.
  - intros s1 s2. unfold urllib.unquote_plus. f_equal.
    rewrite !replace_char_app, !replace_char_cons. reflexivity.
  - intros Hdoctype Hdocid Hother Hsame Hone.
    unfold browse_citation_by_docid.
    rewrite !truthy_Some by assumption. cbn [andb text].
    rewrite <- Hsame.
    rewrite !bool_decide_eq_true_2 by assumption. reflexivity.
Qed.

End outcome_facts.

(** ** Further properties on the sample installation *)

(** X2 on the sample data. *)
Lemma browse_external_reference_doi_page_witness :
  lit "10.1000%2F182" ≠ []
  ∧ get_doi_ref sample.backend (urllib.unquote_plus (lit "10.1000%2F182"))
    = Return (PDict [("title"%string, PStr (lit "DOI Handbook"))])
  ∧ ∃ context,
      browse_external_reference sample.settings sample.backend
        sample.bare_request (lit "doi") (Some (lit "10.1000%2F182")) []
      = (Return (TemplateResponse "browse/citation_details.html" context),
         [])
      ∧ context !! "dataset_id"%string = Some (CStr (lit "doi"))
      ∧ context !! "ref"%string = Some (CStr (lit "10.1000%2F182"))
      ∧ context !! "data"%string
        = Some (CData (PDict [("title"%string,
                               PStr (lit "DOI Handbook"))]))
      ∧ shared_context sample.settings ⊆ context.
Proof.
  split; [discriminate|]. split; [vm_compute; reflexivity|].
  apply (browse_external_reference_doi_page sample.settings sample.backend
           sample.bare_request (lit "10.1000%2F182"));
    [discriminate|vm_compute; reflexivity].
Defined.

(** X3 on the sample data. *)
Lemma browse_external_reference_form_redirect_witness :
  truthy None = false
  ∧ QueryDict_get (lit "ref")
      (GET (sample.ref_form_request (lit "10.1000/182")))
    = Some (lit "10.1000/182")
  ∧ Forall urllib.unicode_scalar (lit "10.1000/182")
  ∧ ∃ quoted,
      browse_external_reference sample.settings sample.backend
        (sample.ref_form_request (lit "10.1000/182")) (lit "doi") None []
      = (Return (RedirectToView "browse_citation" [lit "doi"; quoted]), [])
      ∧ urllib.quote_plus (lit "10.1000/182") = Return quoted
      ∧ urllib.unquote_plus quoted = lit "10.1000/182"
      ∧ (∃ context,
           browse_indexed_reference sample.settings sample.backend
             sample.bare_request (lit "doi") quoted []
           = (Return (TemplateResponse "browse/citation_details.html"
                        context), [])
           ∧ context !! "data"%string
             = Some (CData (PDict [("title"%string,
                                    PStr (lit "DOI Handbook"))])))
      ∧ (∃ context,
           browse_external_reference sample.settings sample.backend
             sample.bare_request (lit "doi") (Some quoted) []
           = (Return (TemplateResponse "browse/citation_details.html"
                        context), [])
           ∧ context !! "data"%string
             = Some (CData (PDict [("title"%string,
                                    PStr (lit "DOI Handbook"))]))).
Proof.
  assert (Forall urllib.unicode_scalar (lit "10.1000/182")) as Hscalar.
  { change (lit "10.1000/182")
      with [49; 48; 46; 49; 48; 48; 48; 47; 49; 56; 50].
    repeat (constructor; [unfold urllib.unicode_scalar; lia|]).
    constructor. }
  split; [reflexivity|]. split; [vm_compute; reflexivity|].
  split; [exact Hscalar|].
  apply (browse_external_reference_form_redirect sample.settings
           sample.backend (sample.ref_form_request (lit "10.1000/182"))
           sample.bare_request None (lit "10.1000/182")
           (PDict [("title"%string, PStr (lit "DOI Handbook"))]) [] []);
    [reflexivity|vm_compute; reflexivity|discriminate|exact Hscalar
    |vm_compute; reflexivity].
Defined.

(** X4 on the sample data: the resolver is interrupted. *)
Lemma browse_external_reference_form_no_server_error_witness :
  truthy None = false
  ∧ (browse_external_reference sample.settings sample.interrupted_backend
       (sample.ref_form_request (lit "10.1000/182")) (lit "doi") None []).1
    ≠ Return ServerErrorPage
  ∧ get_doi_ref sample.interrupted_backend (lit "10.1000/182")
    = Raise (mk_exn KeyboardInterrupt (lit "interrupted"))
  ∧ isinstance (rnf_runtime sample.interrupted_backend)
      (mk_exn KeyboardInterrupt (lit "interrupted")) RuntimeError = false
  ∧ browse_external_reference sample.settings sample.interrupted_backend
      (sample.ref_form_request (lit "10.1000/182")) (lit "doi") None []
    = (Raise (mk_exn KeyboardInterrupt (lit "interrupted")), []).
Proof.
  destruct (browse_external_reference_form_no_server_error sample.settings
              sample.interrupted_backend
              (sample.ref_form_request (lit "10.1000/182")) (lit "doi")
              None [] eq_refl) as [Hnever Hraise].
  split; [reflexivity|]. split; [exact Hnever|].
  split; [vm_compute; reflexivity|]. split; [vm_compute; reflexivity|].
  apply (Hraise (lit "10.1000/182")
           (mk_exn KeyboardInterrupt (lit "interrupted")));
    [vm_compute; reflexivity|discriminate|reflexivity
    |vm_compute; reflexivity..].
Defined.

(** X6 on the sample data: the index is out of reach. *)
Lemma browse_indexed_reference_other_exceptions_witness :
  lit "rfcs" ≠ lit "doi"
  ∧ (browse_indexed_reference sample.settings sample.unavailable_backend
       sample.bare_request (lit "rfcs") (lit "RFC0001") []).1
    ≠ Return ServerErrorPage
  ∧ get_indexed_ref sample.unavailable_backend (lit "rfcs")
      (urllib.unquote_plus (lit "RFC0001"))
    = Raise (mk_exn RuntimeError (lit "index unavailable"))
  ∧ browse_indexed_reference sample.settings sample.unavailable_backend
      sample.bare_request (lit "rfcs") (lit "RFC0001") []
    = (Raise (mk_exn RuntimeError (lit "index unavailable")), []).
Proof.
  destruct (browse_indexed_reference_other_exceptions sample.settings
              sample.unavailable_backend sample.bare_request (lit "rfcs")
              (lit "RFC0001") []) as [Hnever Hraise]; [discriminate|].
  split; [discriminate|]. split; [exact Hnever|].
  split; [vm_compute; reflexivity|].
  apply Hraise; [vm_compute; reflexivity|discriminate].
Defined.

(** X7 on the sample data: the installation with an empty index answers
    for a DOI as the one with the full index. *)
Lemma browse_indexed_reference_doi_page_witness :
  (get_doi_ref sample.backend (urllib.unquote_plus (lit "10.1000%2F182"))
   = Return (PDict [("title"%string, PStr (lit "DOI Handbook"))])
   ∧ ∃ context,
       browse_indexed_reference sample.settings sample.backend
         sample.bare_request (lit "doi") (lit "10.1000%2F182") []
       = (Return (TemplateResponse "browse/citation_details.html" context),
          [])
       ∧ context !! "ref"%string = Some (CStr (lit "10.1000%2F182"))
       ∧ context !! "data"%string
         = Some (CData (PDict [("title"%string,
                                PStr (lit "DOI Handbook"))])))
  ∧ browse_indexed_reference sample.settings sample.unavailable_backend
      sample.bare_request (lit "doi") (lit "10.1000%2F182") []
    = browse_indexed_reference sample.settings sample.backend
        sample.bare_request (lit "doi") (lit "10.1000%2F182") [].
Proof.
  destruct (browse_indexed_reference_doi_page sample.settings
              sample.backend sample.bare_request (lit "10.1000%2F182") [])
    as [Hpage Hsame].
  split.
  - split; [vm_compute; reflexivity|].
    destruct (Hpage (PDict [("title"%string, PStr (lit "DOI Handbook"))]))
      as (context & Hr & _ & Href & Hdata & _); [vm_compute; reflexivity|].
    exists context. split; [exact Hr|]. split; [exact Href|exact Hdata].
  - apply (Hsame sample.unavailable_backend); reflexivity.
Defined.

(** X8 on the sample data: the search form with the ID [RFC 1], which
    has one match, is answered with the redirect to the view, and the
    status 302 tells that the form was used and had both parameters. *)
Lemma browse_citation_by_docid_outcomes_witness :
  let response :=
    RedirectToView "browse_citation_by_docid" [lit "IETF"; lit "RFC+1"] in
  (browse_citation_by_docid sample.settings sample.backend
     sample.docid_form_request_1 None None []).1 = Return response
  ∧ status_code response = Some 302
  ∧ truthy None && truthy None = false
  ∧ truthy (QueryDict_get (lit "doctype") (GET sample.docid_form_request_1))
    && truthy (QueryDict_get (lit "docid") (GET sample.docid_form_request_1))
    = true
  ∧ length (search_refs_relaton_struct sample.backend
              (docid_query
                 (text (QueryDict_get (lit "doctype")
                          (GET sample.docid_form_request_1)))
                 (text (QueryDict_get (lit "docid")
                          (GET sample.docid_form_request_1))))) = 1%nat.
Proof.
  intros response.
  assert ((browse_citation_by_docid sample.settings sample.backend
             sample.docid_form_request_1 None None []).1 = Return response)
    as Hresult.
  { vm_compute. reflexivity. }
  pose proof (browse_citation_by_docid_outcomes sample.settings
                sample.backend sample.docid_form_request_1 None None []
                response Hresult) as H.
  cbv zeta in H. destruct H as (_ & _ & _ & _ & H302 & Hview & _).
  split; [exact Hresult|]. split; [reflexivity|].
  destruct (proj1 H302 eq_refl) as [Hpath Hform].
  split; [exact Hpath|]. split; [exact Hform|].
  apply Hview. by eexists.
Defined.

(** X9 on the sample data: a document type alone in the URL path is
    not used. *)
Lemma browse_citation_by_docid_inputs_witness :
  (truthy (Some (lit "DOI")) && truthy None = false
   ∧ browse_citation_by_docid sample.settings sample.backend
       sample.docid_form_request_1 (Some (lit "DOI")) None []
     = browse_citation_by_docid sample.settings sample.backend
         sample.docid_form_request_1 None None [])
  ∧ (truthy (Some (lit "IETF")) && truthy (Some (lit "RFC+1")) = true
     ∧ browse_citation_by_docid sample.settings sample.backend
         sample.docid_form_request (Some (lit "IETF")) (Some (lit "RFC+1"))
         []
       = browse_citation_by_docid sample.settings sample.backend
           sample.bare_request (Some (lit "IETF")) (Some (lit "RFC+1")) []).
Proof.
  split.
  - split; [reflexivity|].
    destruct (browse_citation_by_docid_inputs sample.settings
                sample.backend sample.docid_form_request_1
                (Some (lit "DOI")) None []) as [H _].
    apply H. reflexivity.
  - split; [reflexivity|].
    destruct (browse_citation_by_docid_inputs sample.settings
                sample.backend sample.bare_request (Some (lit "IETF"))
                (Some (lit "RFC+1")) []) as [_ H].
    apply H. reflexivity.
Defined.

(** X12 on the sample data: the 45 citations of [rfcs] fill three pages. *)
Lemma indexed_dataset_list_view_pages_witness :
  let kwargs : gmap string pystr := {[ "dataset_id"%string := lit "rfcs" ]} in
  (∃ e,
     ListView_get sample.settings sample.backend ∅ sample.bare_request 1 []
     = (Raise e, [])
     ∧ exc_type e = KeyError)
  ∧ (∃ e,
       ListView_get sample.settings sample.backend kwargs
         sample.bare_request 4 []
       = (Raise e, [])
       ∧ exc_type e = Http404)
  ∧ (∃ context objects,
       ListView_get sample.settings sample.backend kwargs
         sample.bare_request 2 []
       = (Return (TemplateResponse "browse/dataset.html" context), [])
       ∧ context !! "object_list"%string = Some (CRefs objects)
       ∧ length objects = 20%nat)
  ∧ ∃ context objects,
      ListView_get sample.settings sample.backend
        {[ "dataset_id"%string := lit "misc" ]} sample.bare_request 1 []
      = (Return (TemplateResponse "browse/dataset.html" context), [])
      ∧ context !! "object_list"%string = Some (CRefs objects)
      ∧ objects = [].
Proof.
  intros kwargs. split; [|split; [|split]].
  - pose proof (indexed_dataset_list_view_pages sample.settings
                  sample.backend ∅ sample.bare_request 1 []) as H.
    cbv zeta in H. destruct H as [H _]. apply H. reflexivity.
  - pose proof (indexed_dataset_list_view_pages sample.settings
                  sample.backend kwargs sample.bare_request 4 []) as H.
    cbv zeta in H. destruct H as [_ H].
    destruct (H (lit "rfcs") eq_refl) as [Hout _].
    apply Hout. right. vm_compute. reflexivity.
  - pose proof (indexed_dataset_list_view_pages sample.settings
                  sample.backend kwargs sample.bare_request 2 []) as H.
    cbv zeta in H. destruct H as [_ H].
    destruct (H (lit "rfcs") eq_refl) as [_ Hin].
    destruct Hin as (context & objects & Hr & Hobjects & Hfull & _);
      [split; vm_compute; discriminate|].
    exists context, objects. split; [exact Hr|]. split; [exact Hobjects|].
    apply Hfull. vm_compute. reflexivity.
  - pose proof (indexed_dataset_list_view_pages sample.settings
                  sample.backend {[ "dataset_id"%string := lit "misc" ]}
                  sample.bare_request 1 []) as H.
    cbv zeta in H. destruct H as [_ H].
    destruct (H (lit "misc") eq_refl) as [_ Hin].
    destruct Hin as (context & objects & Hr & Hobjects & _ & _ & Hempty);
      [split; vm_compute; discriminate|].
    exists context, objects. split; [exact Hr|]. split; [exact Hobjects|].
    apply Hempty. vm_compute. reflexivity.
Defined.

(** X14 on the sample data: a base context with the search results, and
    one that has a key of the shared context. *)
Lemma search_results_context_witness :
  (∃ context,
     CitationSearchResultListView_get_context_data sample.settings
       {[ "object_list"%string := CRefs [sample.rfc1] ]}
     = Return context
     ∧ context !! "object_list"%string = Some (CRefs [sample.rfc1])
     ∧ context !! "snapshot"%string = Some (CStr (lit "2022-01")))
  ∧ ∃ e,
      CitationSearchResultListView_get_context_data sample.settings
        {[ "snapshot"%string := CStr (lit "2021-12") ]}
      = Raise e
      ∧ exc_type e = TypeError.
Proof.
  split.
  - pose proof (search_results_context sample.settings
                  {[ "object_list"%string := CRefs [sample.rfc1] ]}) as H.
    cbv zeta in H. destruct H as [H _].
    destruct H as (context & Hr & Hbase & Hshared & _).
    { intros k Hk. apply lookup_singleton_ne. intros <-.
      repeat (apply elem_of_cons in Hk as [Hk|Hk]; [discriminate Hk|]).
      by apply elem_of_nil in Hk. }
    exists context. split; [exact Hr|]. split.
    + eapply lookup_weaken; [|exact Hbase]. apply lookup_singleton_eq.
    + eapply lookup_weaken; [|exact Hshared]. reflexivity.
  - pose proof (search_results_context sample.settings
                  {[ "snapshot"%string := CStr (lit "2021-12") ]}) as H.
    cbv zeta in H. destruct H as [_ H].
    apply (H "snapshot"%string).
    + repeat constructor.
    + rewrite lookup_singleton_eq. by eexists.
Defined.

(** X15 on the sample data: the redirect of the search form for the ID
    [RFC 1]. *)
Lemma redirect_arguments_url_safe_witness :
  (∀ key value,
     QueryDict_get key (GET sample.docid_form_request_1) = Some value →
     Forall urllib.code_point value)
  ∧ browse_citation_by_docid sample.settings sample.backend
      sample.docid_form_request_1 None None []
    = (Return (RedirectToView "browse_citation_by_docid"
                 [lit "IETF"; lit "RFC+1"]), [])
  ∧ ∃ first quoted,
      [lit "IETF"; lit "RFC+1"] = [first; quoted]
      ∧ Forall (λ c, urllib.always_safe c = true
                     ∨ c = urllib.PLUS ∨ c = urllib.PERCENT) quoted
      ∧ (0x2F ∉ quoted) ∧ (urllib.SPACE ∉ quoted).
Proof.
  assert (∀ key value,
            QueryDict_get key (GET sample.docid_form_request_1)
            = Some value →
            Forall urllib.code_point value) as Hcp.
  { intros key value Hget. apply last_Some_elem_of in Hget.
    apply list_elem_of_fmap in Hget as ([k v] & -> & Hin).
    apply list_elem_of_filter in Hin as [_ Hin]. cbn [snd].
    assert (v = lit "IETF" ∨ v = lit "RFC 1") as [-> | ->].
    { apply elem_of_cons in Hin as [[= _ ->]|Hin]; [by left|].
      apply list_elem_of_singleton in Hin as [= _ ->]. by right. }
    - change (lit "IETF") with [73; 69; 84; 70].
      repeat (constructor; [unfold urllib.code_point; lia|]). constructor.
    - change (lit "RFC 1") with [82; 70; 67; 32; 49].
      repeat (constructor; [unfold urllib.code_point; lia|]). constructor. }
  split; [exact Hcp|]. split; [vm_compute; reflexivity|].
  pose proof (redirect_arguments_url_safe sample.settings sample.backend
                sample.docid_form_request_1 None None None (lit "doi") []
                Hcp) as H.
  cbv zeta in H. destruct H as [H _].
  apply (H "browse_citation_by_docid"%string [lit "IETF"; lit "RFC+1"] []).
  vm_compute. reflexivity.
Defined.

(** X16 on the sample data: the ID [RFC 1] spelled [RFC+1] and
    [RFC%201]. *)
Lemma docid_spellings_witness :
  (urllib.PLUS ∉ lit "RFC0001") ∧ (urllib.PERCENT ∉ lit "RFC0001")
  ∧ urllib.unquote_plus (lit "RFC0001") = lit "RFC0001"
  ∧ urllib.unquote_plus (lit "RFC+1") = urllib.unquote_plus (lit "RFC%201")
  ∧ length (search_refs_relaton_struct sample.backend
              (docid_query (lit "IETF") (urllib.unquote_plus (lit "RFC+1"))))
    = 1%nat
  ∧ browse_citation_by_docid sample.settings sample.backend
      sample.bare_request (Some (lit "IETF")) (Some (lit "RFC+1")) []
    = browse_citation_by_docid sample.settings sample.backend
        sample.bare_request (Some (lit "IETF")) (Some (lit "RFC%201")) [].
Proof.
  assert ((urllib.PLUS ∉ lit "RFC0001") ∧ (urllib.PERCENT ∉ lit "RFC0001"))
    as [Hplus Hpercent].
  { split; intros Hin;
      repeat (apply elem_of_cons in Hin as [Hin|Hin]; [discriminate Hin|]);
      by apply elem_of_nil in Hin. }
  destruct (docid_spellings sample.settings sample.backend
              sample.bare_request (lit "IETF") (lit "RFC+1")
              (lit "RFC%201") []) as (_ & _ & Hsame).
  destruct (docid_spellings sample.settings sample.backend
              sample.bare_request (lit "IETF") (lit "RFC0001")
              (lit "RFC0001") []) as (Hverbatim & _ & _).
  split; [exact Hplus|]. split; [exact Hpercent|].
  split; [by apply Hverbatim|].
  split; [vm_compute; reflexivity|]. split; [vm_compute; reflexivity|].
  apply Hsame; [discriminate..|vm_compute; reflexivity
                |vm_compute; reflexivity].
Defined.
